(** * Tenant index lifecycle and document ingestion: a shallow embedding

    This development embeds the two core modules of the repository,
    [knowledge_base_manager.py] and [document_processor.py], as Rocq
    functions over an explicit model of the services they talk to (blob
    store, metadata tables, index provider, function dispatcher), and
    proves properties of them.

    Conventions.
    - A Python [dict] with a known set of keys is a record of [option]
      fields; [d['k']] raises [KeyError] on [None], [d.get('k')] returns
      the option.
    - A table item is stored under its primary key in a [gmap]; the key
      attribute itself ([document_id], [user_id]) is the map key.
    - Every call to a service is recorded in [trace] (newest first) and
      may raise: the environment's [fault] plan says which calls do. *)

From Stdlib Require Import String Ascii List Arith Lia Bool.
From stdpp Require Import gmap strings list fin_maps pretty.

Import ListNotations.
Local Open Scope list_scope.
Local Open Scope string_scope.

(** ** Python strings *)

Module Py.

(** [needle in hay] *)
Fixpoint contains (needle hay : string) : bool :=
  String.prefix needle hay ||
  match hay with
  | EmptyString => false
  | String _ rest => contains needle rest
  end.

(** [s.split(sep)] for a one-character separator *)
Fixpoint split (sep : ascii) (s : string) : list string :=
  match s with
  | EmptyString => [EmptyString]
  | String c rest =>
      if Ascii.eqb c sep then EmptyString :: split sep rest
      else match split sep rest with
           | h :: t => String c h :: t
           | [] => [String c EmptyString]
           end
  end.

(** [c.lower()] on ASCII letters *)
Definition lower_ascii (c : ascii) : ascii :=
  let n := nat_of_ascii c in
  if (65 <=? n)%nat && (n <=? 90)%nat then ascii_of_nat (n + 32) else c.

Fixpoint lower (s : string) : string :=
  match s with
  | EmptyString => EmptyString
  | String c rest => String (lower_ascii c) (lower rest)
  end.

(** [sep.join(parts)] *)
Fixpoint join (sep : string) (parts : list string) : string :=
  match parts with
  | [] => EmptyString
  | [p] => p
  | p :: rest => p ++ sep ++ join sep rest
  end.

(** [str(x)] for an optional attribute *)
Definition str_opt (o : option string) : string :=
  match o with Some s => s | None => "None" end.

(** truthiness of [d.get('k')] for a string attribute *)
Definition truthy (o : option string) : bool :=
  match o with
  | Some s => negb (String.eqb s EmptyString)
  | None => false
  end.

End Py.

(** ** Exceptions *)

Record Exn := mkExn { exn_class : string; exn_msg : string }.

(** [str(e)] and [str(type(e))] *)
Definition str_exn (e : Exn) : string := exn_msg e.
Definition str_type (e : Exn) : string := "<class '" ++ exn_class e ++ "'>".

Definition KeyError (k : string) : Exn :=
  mkExn "KeyError" ("'" ++ k ++ "'").
Definition PyException (msg : string) : Exn := mkExn "Exception" msg.
(** Reading a function-local name before it is bound (the wording of the
    message is that of Python 3.11 and later; earlier versions say
    "local variable 'x' referenced before assignment"). *)
Definition UnboundLocalError (name : string) : Exn :=
  mkExn "UnboundLocalError"
        ("cannot access local variable '" ++ name
         ++ "' where it is not associated with a value").
Definition ClientError (code msg : string) : Exn :=
  mkExn "botocore.exceptions.ClientError"
        ("An error occurred (" ++ code ++ "): " ++ msg).
Definition ServiceError (name msg : string) : Exn :=
  mkExn ("botocore.errorfactory." ++ name)
        ("An error occurred (" ++ name ++ "): " ++ msg).

(** [except s3.exceptions.NoSuchKey] *)
Definition is_NoSuchKey (e : Exn) : bool :=
  String.eqb (exn_class e) "botocore.errorfactory.NoSuchKey".

(** ** Data model *)

(** An item of the documents table (key: [document_id]). *)
Record DocItem := mkDoc {
  user_id : option string;
  s3_key : option string;
  s3Key : option string;
  filename : option string;
  file_size : option nat;
  content_type : option string;
  knowledge_base_id : option string;
  data_source_id : option string;
  upload_date : option string;
  sync_status : option string;
  processing_attempts : option nat;
  last_modified : option string;
  message : option string;
  error_message : option string;
  ingestion_job_id : option string
}.

Definition empty_doc : DocItem :=
  mkDoc None None None None None None None None None None None None None None None.

(** An item of the tenant-index table (key: [user_id]); also the shape of
    the dictionaries the manager returns. *)
Record KbItem := mkKb {
  kb_knowledge_base_id : option string;
  kb_data_source_id : option string;
  vector_bucket_name : option string;
  vector_index_name : option string;
  kb_name : option string;
  user_hash : option string;
  created_at : option string;
  status : option string;
  document_count : option nat;
  storage_type : option string
}.

Definition empty_kb : KbItem :=
  mkKb None None None None None None None None None None.

(** An object of the documents bucket. *)
Record S3Object := mkObj {
  obj_body : string;
  obj_content_type : string;
  obj_metadata : list (string * string)
}.

(** An ingestion job as the provider holds it. *)
Record IngestionJob := mkJob {
  ingestionJobId : string;
  job_knowledgeBaseId : string;
  job_dataSourceId : string;
  job_status : string;
  failureReasons : option (list string);
  job_description : string
}.

(** Provider resources. *)
Record ProviderKb := mkPKb { pkb_name : string; pkb_status : string }.
Record ProviderDs := mkPDs { pds_kb : string; pds_name : string; pds_prefixes : list string }.

Inductive InvocationType := Event | RequestResponse.

(** The operations of the manager's handler that the embedding covers:
    the ones the document processor dispatches, plus [process_pending] and
    [delete]. The handler's [get_or_create], [stats] and [list_all]
    branches are outside it. *)
Inductive KbOperation :=
| OpCreateAndProcess
| OpProcessPending
| OpCheckIngestionStatus
| OpDelete.

(** Payload sent to the manager's handler. *)
Record KbEvent := mkEvent {
  operation : KbOperation;
  ev_user_id : string;
  ev_document_id : option string;
  ev_filename : option string;
  ev_temp_s3_key : option string
}.

(** Service calls, as recorded in the trace and addressed by the fault
    plan. *)
Inductive Call :=
| S3PutObject (key : string)
| S3CopyObject (src dst : string)
| S3DeleteObject (key : string)
| S3HeadObject (key : string)
| S3ListObjectsV2 (prefix : string)
| DocGetItem (document_id : string)
| DocPutItem (document_id : string)
| DocUpdateItem (document_id : string)
| DocDeleteItem (document_id : string)
| DocScan (job_id : string) (statuses : list string)
| KbGetItem (uid : string)
| KbPutItem (uid : string)
| KbUpdateItem (uid : string)
| KbDeleteItem (uid : string)
| GetKnowledgeBase (kb_id : string)
| CreateKnowledgeBase (name : string)
| CreateDataSource (kb_id name : string)
| DeleteKnowledgeBase (kb_id : string)
| StartIngestionJob (kb_id ds_id description : string)
| GetIngestionJob (kb_id ds_id job_id : string)
| ListIngestionJobs (kb_id ds_id : string)
| CreateVectorBucket (name : string)
| CreateIndex (bucket index : string)
| DeleteVectorBucket (name : string)
| LambdaInvoke (mode : InvocationType) (payload : KbEvent).

(** The state of all services, the clock and the logs. *)
Record World := mkWorld {
  bucket : gmap string S3Object;
  documents_table : gmap string DocItem;
  user_kb_table : gmap string KbItem;
  knowledge_bases : gmap string ProviderKb;
  data_sources : gmap string ProviderDs;
  vector_buckets : gmap string (list string);
  ingestion_jobs : list IngestionJob;
  next_id : nat;
  uuid_seed : nat;
  now : nat;
  trace : list Call;
  error_log : list string
}.

Definition set_bucket (f : gmap string S3Object -> gmap string S3Object) (w : World) : World :=
  mkWorld (f (bucket w)) (documents_table w) (user_kb_table w) (knowledge_bases w)
          (data_sources w) (vector_buckets w) (ingestion_jobs w) (next_id w)
          (uuid_seed w) (now w) (trace w) (error_log w).
Definition set_documents_table (f : gmap string DocItem -> gmap string DocItem) (w : World) : World :=
  mkWorld (bucket w) (f (documents_table w)) (user_kb_table w) (knowledge_bases w)
          (data_sources w) (vector_buckets w) (ingestion_jobs w) (next_id w)
          (uuid_seed w) (now w) (trace w) (error_log w).
Definition set_user_kb_table (f : gmap string KbItem -> gmap string KbItem) (w : World) : World :=
  mkWorld (bucket w) (documents_table w) (f (user_kb_table w)) (knowledge_bases w)
          (data_sources w) (vector_buckets w) (ingestion_jobs w) (next_id w)
          (uuid_seed w) (now w) (trace w) (error_log w).
Definition set_knowledge_bases (f : gmap string ProviderKb -> gmap string ProviderKb) (w : World) : World :=
  mkWorld (bucket w) (documents_table w) (user_kb_table w) (f (knowledge_bases w))
          (data_sources w) (vector_buckets w) (ingestion_jobs w) (next_id w)
          (uuid_seed w) (now w) (trace w) (error_log w).
Definition set_data_sources (f : gmap string ProviderDs -> gmap string ProviderDs) (w : World) : World :=
  mkWorld (bucket w) (documents_table w) (user_kb_table w) (knowledge_bases w)
          (f (data_sources w)) (vector_buckets w) (ingestion_jobs w) (next_id w)
          (uuid_seed w) (now w) (trace w) (error_log w).
Definition set_vector_buckets (f : gmap string (list string) -> gmap string (list string)) (w : World) : World :=
  mkWorld (bucket w) (documents_table w) (user_kb_table w) (knowledge_bases w)
          (data_sources w) (f (vector_buckets w)) (ingestion_jobs w) (next_id w)
          (uuid_seed w) (now w) (trace w) (error_log w).
Definition set_ingestion_jobs (f : list IngestionJob -> list IngestionJob) (w : World) : World :=
  mkWorld (bucket w) (documents_table w) (user_kb_table w) (knowledge_bases w)
          (data_sources w) (vector_buckets w) (f (ingestion_jobs w)) (next_id w)
          (uuid_seed w) (now w) (trace w) (error_log w).
Definition set_next_id (f : nat -> nat) (w : World) : World :=
  mkWorld (bucket w) (documents_table w) (user_kb_table w) (knowledge_bases w)
          (data_sources w) (vector_buckets w) (ingestion_jobs w) (f (next_id w))
          (uuid_seed w) (now w) (trace w) (error_log w).
Definition set_uuid_seed (f : nat -> nat) (w : World) : World :=
  mkWorld (bucket w) (documents_table w) (user_kb_table w) (knowledge_bases w)
          (data_sources w) (vector_buckets w) (ingestion_jobs w) (next_id w)
          (f (uuid_seed w)) (now w) (trace w) (error_log w).
Definition set_now (f : nat -> nat) (w : World) : World :=
  mkWorld (bucket w) (documents_table w) (user_kb_table w) (knowledge_bases w)
          (data_sources w) (vector_buckets w) (ingestion_jobs w) (next_id w)
          (uuid_seed w) (f (now w)) (trace w) (error_log w).
Definition set_trace (f : list Call -> list Call) (w : World) : World :=
  mkWorld (bucket w) (documents_table w) (user_kb_table w) (knowledge_bases w)
          (data_sources w) (vector_buckets w) (ingestion_jobs w) (next_id w)
          (uuid_seed w) (now w) (f (trace w)) (error_log w).
Definition set_error_log (f : list string -> list string) (w : World) : World :=
  mkWorld (bucket w) (documents_table w) (user_kb_table w) (knowledge_bases w)
          (data_sources w) (vector_buckets w) (ingestion_jobs w) (next_id w)
          (uuid_seed w) (now w) (trace w) (f (error_log w)).

(** What the code cannot compute by itself. *)
Record Env := mkEnv {
  (** the fault plan: [Some e] makes the call raise [e] *)
  fault : Call -> option Exn;
  (** [hashlib.md5(s.encode()).hexdigest()[:8]] *)
  md5_hex8 : string -> string;
  (** [str(uuid.uuid4())], drawn from a seed *)
  uuid4 : nat -> string;
  (** [datetime.utcnow().isoformat()] at a clock reading *)
  isoformat : nat -> string
}.

(** ** The monad of Python code: state and exceptions *)

Inductive Res (A : Type) :=
| Ok (a : A)
| Raise (e : Exn).
Arguments Ok {A} a.
Arguments Raise {A} e.

Definition M (S A : Type) : Type := S -> Res A * S.

Definition ret {S A} (a : A) : M S A := fun s => (Ok a, s).
Definition raise {S A} (e : Exn) : M S A := fun s => (Raise e, s).
Definition bind {S A B} (m : M S A) (k : A -> M S B) : M S B :=
  fun s => match m s with
           | (Ok a, s') => k a s'
           | (Raise e, s') => (Raise e, s')
           end.
(** [try: m  except Exception as e: h e] *)
Definition try_ {S A} (m : M S A) (h : Exn -> M S A) : M S A :=
  fun s => match m s with
           | (Ok a, s') => (Ok a, s')
           | (Raise e, s') => h e s'
           end.

Declare Scope py_scope.
Delimit Scope py_scope with py.
Notation "x <- m ;; k" := (bind m (fun x => k))
  (at level 100, m at next level, right associativity) : py_scope.
Notation "m ;; k" := (bind m (fun _ => k))
  (at level 100, right associativity) : py_scope.
Local Open Scope py_scope.

(** [for x in xs: body x] *)
Fixpoint for_each {S A} (xs : list A) (body : A -> M S unit) : M S unit :=
  match xs with
  | [] => ret tt
  | x :: rest => body x ;; for_each rest body
  end.

(** [d['k']] *)
Definition getitem {S A} (k : string) (o : option A) : M S A :=
  match o with
  | Some a => ret a
  | None => raise (KeyError k)
  end.

(** A function body with a local variable [L] that keeps its value when
    an exception unwinds through a [try]. *)
Definition lift {L A} (m : M World A) : M (L * World) A :=
  fun '(l, w) => match m w with (r, w') => (r, (l, w')) end.
Definition get_local {L} : M (L * World) L := fun '(l, w) => (Ok l, (l, w)).
Definition set_local {L} (l : L) : M (L * World) unit := fun '(_, w) => (Ok tt, (l, w)).
Definition with_local {L A} (init : L) (m : M (L * World) A) : M World A :=
  fun w => match m (init, w) with (r, (_, w')) => (r, w') end.

(** ** Attribute updates ([SET a = :v] of an update expression) *)

Definition set_s3_key (v : string) (d : DocItem) : DocItem :=
  mkDoc (user_id d) (Some v) (s3Key d) (filename d) (file_size d) (content_type d)
        (knowledge_base_id d) (data_source_id d) (upload_date d) (sync_status d)
        (processing_attempts d) (last_modified d) (message d) (error_message d)
        (ingestion_job_id d).
Definition set_knowledge_base_id (v : string) (d : DocItem) : DocItem :=
  mkDoc (user_id d) (s3_key d) (s3Key d) (filename d) (file_size d) (content_type d)
        (Some v) (data_source_id d) (upload_date d) (sync_status d)
        (processing_attempts d) (last_modified d) (message d) (error_message d)
        (ingestion_job_id d).
Definition set_data_source_id (v : string) (d : DocItem) : DocItem :=
  mkDoc (user_id d) (s3_key d) (s3Key d) (filename d) (file_size d) (content_type d)
        (knowledge_base_id d) (Some v) (upload_date d) (sync_status d)
        (processing_attempts d) (last_modified d) (message d) (error_message d)
        (ingestion_job_id d).
Definition set_sync_status (v : string) (d : DocItem) : DocItem :=
  mkDoc (user_id d) (s3_key d) (s3Key d) (filename d) (file_size d) (content_type d)
        (knowledge_base_id d) (data_source_id d) (upload_date d) (Some v)
        (processing_attempts d) (last_modified d) (message d) (error_message d)
        (ingestion_job_id d).
Definition set_last_modified (v : string) (d : DocItem) : DocItem :=
  mkDoc (user_id d) (s3_key d) (s3Key d) (filename d) (file_size d) (content_type d)
        (knowledge_base_id d) (data_source_id d) (upload_date d) (sync_status d)
        (processing_attempts d) (Some v) (message d) (error_message d)
        (ingestion_job_id d).
Definition set_message (v : string) (d : DocItem) : DocItem :=
  mkDoc (user_id d) (s3_key d) (s3Key d) (filename d) (file_size d) (content_type d)
        (knowledge_base_id d) (data_source_id d) (upload_date d) (sync_status d)
        (processing_attempts d) (last_modified d) (Some v) (error_message d)
        (ingestion_job_id d).
Definition set_error_message (v : string) (d : DocItem) : DocItem :=
  mkDoc (user_id d) (s3_key d) (s3Key d) (filename d) (file_size d) (content_type d)
        (knowledge_base_id d) (data_source_id d) (upload_date d) (sync_status d)
        (processing_attempts d) (last_modified d) (message d) (Some v)
        (ingestion_job_id d).
Definition set_ingestion_job_id (v : string) (d : DocItem) : DocItem :=
  mkDoc (user_id d) (s3_key d) (s3Key d) (filename d) (file_size d) (content_type d)
        (knowledge_base_id d) (data_source_id d) (upload_date d) (sync_status d)
        (processing_attempts d) (last_modified d) (message d) (error_message d)
        (Some v).

(** [ADD document_count :count] *)
Definition add_document_count (n : nat) (k : KbItem) : KbItem :=
  mkKb (kb_knowledge_base_id k) (kb_data_source_id k) (vector_bucket_name k)
       (vector_index_name k) (kb_name k) (user_hash k) (created_at k) (status k)
       (Some (match document_count k with Some c => c + n | None => n end))
       (storage_type k).

(** Filter of a scan of the documents table:
    [ingestion_job_id = :job_id AND sync_status IN statuses]. *)
Definition scan_filter (job_id : string) (statuses : list string) (d : DocItem) : bool :=
  bool_decide (ingestion_job_id d = Some job_id) &&
  match sync_status d with
  | Some s => bool_decide (s ∈ statuses)
  | None => false
  end.

(** Identifiers the provider hands out. *)
Definition provider_id (kind : string) (n : nat) : string := kind ++ "-" ++ pretty n.

(** Size of one page of [list_objects_v2]. *)
Definition s3_max_keys : nat := 1000.

(** ** The services

    Each service is a small deterministic store. A call is first recorded
    in the trace; the fault plan may then make it raise; otherwise it acts
    on the store, raising the service's own error where the real service
    would (a missing key, knowledge base or data source, a name already
    taken). A scan or a listing returns one page in the store's key order;
    the code never asks for a second page. The documents table is one
    table: the manager's hard-wired name is taken to be the configured
    one. *)

Section Services.

Variable env : Env.

(** A service call: recorded, then failed by the fault plan or run. *)
Definition call {A} (c : Call) (run : M World A) : M World A :=
  fun w =>
    let w1 := set_trace (cons c) w in
    match fault env c with
    | Some e => (Raise e, w1)
    | None => run w1
    end.

Definition gets {A} (f : World -> A) : M World A := fun w => (Ok (f w), w).
Definition modify (f : World -> World) : M World unit := fun w => (Ok tt, f w).

(** [logger.error(msg)] *)
Definition logger_error (msg : string) : M World unit :=
  modify (set_error_log (cons msg)).

(** [datetime.utcnow().isoformat()], [int(time.time())], [time.sleep] *)
Definition utcnow : M World string := gets (fun w => isoformat env (now w)).
Definition time_time : M World nat := gets now.
Definition time_sleep (secs : nat) : M World unit := modify (set_now (fun t => t + secs)).

(** [str(uuid.uuid4())] *)
Definition fresh_uuid : M World string :=
  fun w => (Ok (uuid4 env (uuid_seed w)), set_uuid_seed S w).

(** *** Blob store (the documents bucket) *)

Definition s3_put_object (key : string) (o : S3Object) : M World unit :=
  call (S3PutObject key) (modify (set_bucket (insert key o))).

Definition s3_copy_object (src dst : string) : M World unit :=
  call (S3CopyObject src dst)
    (o <- gets (fun w => bucket w !! src) ;;
     match o with
     | Some obj => modify (set_bucket (insert dst obj))
     | None => raise (ServiceError "NoSuchKey" "The specified key does not exist.")
     end).

Definition s3_delete_object (key : string) : M World unit :=
  call (S3DeleteObject key) (modify (set_bucket (delete key))).

Definition s3_head_object (key : string) : M World unit :=
  call (S3HeadObject key)
    (o <- gets (fun w => bucket w !! key) ;;
     match o with
     | Some _ => ret tt
     | None => raise (ClientError "404" "Not Found")
     end).

(** [response.get('Contents', [])]: the keys of one page *)
Definition s3_list_objects_v2 (prefix : string) : M World (list string) :=
  call (S3ListObjectsV2 prefix)
    (gets (fun w =>
       take s3_max_keys
         (List.filter (String.prefix prefix) (map fst (map_to_list (bucket w)))))).

(** *** Documents table *)

Definition doc_get_item (id : string) : M World (option DocItem) :=
  call (DocGetItem id) (gets (fun w => documents_table w !! id)).

Definition doc_put_item (id : string) (d : DocItem) : M World unit :=
  call (DocPutItem id) (modify (set_documents_table (insert id d))).

(** [update_item] creates the item when the key is absent. *)
Definition upsert_doc (id : string) (f : DocItem -> DocItem)
    (t : gmap string DocItem) : gmap string DocItem :=
  <[id := f (default empty_doc (t !! id))]> t.

Definition doc_update_item (id : string) (f : DocItem -> DocItem) : M World unit :=
  call (DocUpdateItem id) (modify (set_documents_table (upsert_doc id f))).

Definition doc_delete_item (id : string) : M World unit :=
  call (DocDeleteItem id) (modify (set_documents_table (delete id))).

(** [scan(FilterExpression=...)]: the keys of the matching items, in
    the order in which the table holds its keys *)
Definition scan_keys (job_id : string) (statuses : list string)
    (t : gmap string DocItem) : list string :=
  List.filter
    (fun k => match t !! k with
              | Some d => scan_filter job_id statuses d
              | None => false
              end)
    (elements (dom t)).

Definition doc_scan (job_id : string) (statuses : list string) : M World (list string) :=
  call (DocScan job_id statuses)
    (gets (fun w => scan_keys job_id statuses (documents_table w))).

(** *** Tenant-index table *)

Definition kb_get_item (uid : string) : M World (option KbItem) :=
  call (KbGetItem uid) (gets (fun w => user_kb_table w !! uid)).

Definition kb_put_item (uid : string) (k : KbItem) : M World unit :=
  call (KbPutItem uid) (modify (set_user_kb_table (insert uid k))).

Definition upsert_kb (uid : string) (f : KbItem -> KbItem)
    (t : gmap string KbItem) : gmap string KbItem :=
  <[uid := f (default empty_kb (t !! uid))]> t.

Definition kb_update_item (uid : string) (f : KbItem -> KbItem) : M World unit :=
  call (KbUpdateItem uid) (modify (set_user_kb_table (upsert_kb uid f))).

Definition kb_delete_item (uid : string) : M World unit :=
  call (KbDeleteItem uid) (modify (set_user_kb_table (delete uid))).

(** *** Index provider *)

Definition NotFound (what : string) : Exn :=
  ServiceError "ResourceNotFoundException" what.
Definition Conflict (what : string) : Exn :=
  ServiceError "ConflictException" what.

Definition fresh_id (kind : string) : M World string :=
  fun w => (Ok (provider_id kind (next_id w)), set_next_id S w).

Definition get_knowledge_base (kb_id : string) : M World ProviderKb :=
  call (GetKnowledgeBase kb_id)
    (o <- gets (fun w => knowledge_bases w !! kb_id) ;;
     match o with
     | Some kb => ret kb
     | None => raise (NotFound ("Knowledge base " ++ kb_id ++ " not found"))
     end).

Definition create_knowledge_base (name : string) : M World string :=
  call (CreateKnowledgeBase name)
    (kb_id <- fresh_id "kb" ;;
     modify (set_knowledge_bases (insert kb_id (mkPKb name "ACTIVE"))) ;;
     ret kb_id).

Definition create_data_source (kb_id name : string) (prefixes : list string)
    : M World string :=
  call (CreateDataSource kb_id name)
    (o <- gets (fun w => knowledge_bases w !! kb_id) ;;
     match o with
     | Some _ =>
         ds_id <- fresh_id "ds" ;;
         modify (set_data_sources (insert ds_id (mkPDs kb_id name prefixes))) ;;
         ret ds_id
     | None => raise (NotFound ("Knowledge base " ++ kb_id ++ " not found"))
     end).

(** Deleting a knowledge base also deletes its data sources. *)
Definition delete_knowledge_base (kb_id : string) : M World unit :=
  call (DeleteKnowledgeBase kb_id)
    (o <- gets (fun w => knowledge_bases w !! kb_id) ;;
     match o with
     | Some _ =>
         modify (set_knowledge_bases (delete kb_id)) ;;
         modify (set_data_sources
                   (filter (fun kv => pds_kb (snd kv) <> kb_id)))
     | None => raise (NotFound ("Knowledge base " ++ kb_id ++ " not found"))
     end).

Definition source_exists (kb_id ds_id : string) (w : World) : bool :=
  match data_sources w !! ds_id with
  | Some ds => bool_decide (pds_kb ds = kb_id) && bool_decide (is_Some (knowledge_bases w !! kb_id))
  | None => false
  end.

(** [response['ingestionJob']['ingestionJobId']] of a started job *)
Definition start_ingestion_job (kb_id ds_id description : string) : M World string :=
  call (StartIngestionJob kb_id ds_id description)
    (ok <- gets (source_exists kb_id ds_id) ;;
     if ok : bool then
       job_id <- fresh_id "job" ;;
       modify (set_ingestion_jobs
                 (cons (mkJob job_id kb_id ds_id "STARTING" None description))) ;;
       ret job_id
     else raise (NotFound ("Data source " ++ ds_id ++ " not found"))).

Definition job_of (kb_id ds_id : string) (j : IngestionJob) : bool :=
  String.eqb (job_knowledgeBaseId j) kb_id && String.eqb (job_dataSourceId j) ds_id.

(** [response.get('ingestionJobSummaries', [])] *)
Definition list_ingestion_jobs (kb_id ds_id : string) (maxResults : nat)
    : M World (list IngestionJob) :=
  call (ListIngestionJobs kb_id ds_id)
    (ok <- gets (source_exists kb_id ds_id) ;;
     if ok : bool then
       gets (fun w => take maxResults (List.filter (job_of kb_id ds_id) (ingestion_jobs w)))
     else raise (NotFound ("Data source " ++ ds_id ++ " not found"))).

(** [response['ingestionJob']] *)
Definition get_ingestion_job (kb_id ds_id job_id : string) : M World IngestionJob :=
  call (GetIngestionJob kb_id ds_id job_id)
    (o <- gets (fun w =>
                  List.find (fun j => job_of kb_id ds_id j &&
                                      String.eqb (ingestionJobId j) job_id)
                            (ingestion_jobs w)) ;;
     match o with
     | Some j => ret j
     | None => raise (NotFound ("Ingestion job " ++ job_id ++ " not found"))
     end).

(** *** Vector store *)

Definition create_vector_bucket (name : string) : M World unit :=
  call (CreateVectorBucket name)
    (o <- gets (fun w => vector_buckets w !! name) ;;
     match o with
     | Some _ => raise (Conflict ("Vector bucket " ++ name ++ " already exists"))
     | None => modify (set_vector_buckets (insert name []))
     end).

Definition create_index (bkt index : string) : M World unit :=
  call (CreateIndex bkt index)
    (o <- gets (fun w => vector_buckets w !! bkt) ;;
     match o with
     | None => raise (ServiceError "NotFoundException"
                        ("Vector bucket " ++ bkt ++ " not found"))
     | Some ixs =>
         if bool_decide (index ∈ ixs)
         then raise (Conflict ("Index " ++ index ++ " already exists"))
         else modify (set_vector_buckets (insert bkt (index :: ixs)))
     end).

Definition delete_vector_bucket (name : string) : M World unit :=
  call (DeleteVectorBucket name)
    (o <- gets (fun w => vector_buckets w !! name) ;;
     match o with
     | Some _ => modify (set_vector_buckets (delete name))
     | None => raise (ServiceError "NotFoundException"
                        ("Vector bucket " ++ name ++ " not found"))
     end).

End Services.

(** ** knowledge_base_manager.py *)

(** Result of [check_ingestion_status]: either [{'error': ...}] or
    [{'success': True, 'updated_documents': ..., 'message': ...}]. *)
Inductive CheckResult :=
| CheckError (error : string)
| CheckOk (updated_documents : nat) (msg : string).

(** Result of [create_and_process_document]. *)
Record CreateResult := mkCreateResult {
  cr_success : bool;
  cr_knowledge_base_id : option string;
  cr_data_source_id : option string;
  cr_document_id : option string;
  cr_error : option string;
  cr_message : string
}.

(** The [body] of the handler's response, before [json.dumps]. *)
Inductive Body :=
| BodyError (error : string)
| BodySuccess (success : bool)
| BodyPending (msg : string)
| BodyCreate (r : CreateResult)
| BodyCheck (r : CheckResult).

(** The handler's response. *)
Record Response := mkResponse { statusCode : nat; body : Body }.

Module KnowledgeBaseManager.
Section Manager.

Variable env : Env.

Definition _get_user_kb_from_db (uid : string) : M World (option KbItem) :=
  try_ (kb_get_item env uid)
    (fun e =>
       logger_error ("Failed to get user KB from DB: " ++ str_exn e) ;;
       ret None).

Definition _verify_kb_exists (kb_id : string) : M World bool :=
  try_ (get_knowledge_base env kb_id ;; ret true)
    (fun _ => ret false).

Definition _remove_user_kb_from_db (uid : string) : M World unit :=
  try_ (kb_delete_item env uid)
    (fun e => logger_error ("Failed to remove user KB from DB: " ++ str_exn e)).

Definition _trigger_ingestion_job (kb_id ds_id document_id : string) : M World unit :=
  try_
    (job_id <- start_ingestion_job env kb_id ds_id
                 ("Ingestion job for document " ++ document_id) ;;
     ts <- utcnow env ;;
     doc_update_item env document_id
       (fun d => set_last_modified ts (set_ingestion_job_id job_id d)))
    (fun e =>
       logger_error ("Failed to trigger ingestion job: " ++ str_exn e) ;;
       raise e).

(** One iteration of the loop over the pending objects. *)
Definition move_pending_object (uhash old_key : string) : M World unit :=
  try_
    (let path_parts := Py.split "/" old_key in
     if (length path_parts <? 4)%nat then ret tt
     else
       let document_id := nth 2 path_parts "" in
       let fname := nth 3 path_parts "" in
       let new_key := "docs/" ++ uhash ++ "/" ++ document_id ++ "/" ++ fname in
       s3_copy_object env old_key new_key ;;
       s3_delete_object env old_key ;;
       doc_update_item env document_id
         (fun d => set_sync_status "ready_for_ingestion" (set_s3_key new_key d)))
    (fun e =>
       logger_error ("Failed to process pending document " ++ old_key ++ ": "
                     ++ str_exn e)).

Definition _process_pending_documents (uid : string) (user_kb_info : KbItem)
    : M World unit :=
  try_
    (uhash <- getitem "user_hash" (user_hash user_kb_info) ;;
     kb_id <- getitem "knowledge_base_id" (kb_knowledge_base_id user_kb_info) ;;
     ds_id <- getitem "data_source_id" (kb_data_source_id user_kb_info) ;;
     let pending_prefix := "pending/" ++ uid ++ "/" in
     pending_objects <- s3_list_objects_v2 env pending_prefix ;;
     match pending_objects with
     | [] => ret tt
     | _ =>
         for_each pending_objects (move_pending_object uhash) ;;
         t <- time_time ;;
         _trigger_ingestion_job kb_id ds_id ("pending_documents_batch_" ++ pretty t) ;;
         let processed_count := length pending_objects in
         if (0 <? processed_count)%nat
         then kb_update_item env uid (add_document_count processed_count)
         else ret tt
     end)
    (fun e =>
       logger_error ("Failed to process pending documents for user " ++ uid ++ ": "
                     ++ str_exn e)).

Definition _create_user_kb (uid : string) : M World KbItem :=
  let uhash := md5_hex8 env uid in
  timestamp <- time_time ;;
  let name := "ai-ppt-kb-" ++ uhash ++ "-" ++ pretty timestamp in
  let vbucket := "ai-ppt-vectors-" ++ uhash ++ "-" ++ pretty timestamp in
  let vindex := "ai-ppt-index-" ++ uhash in
  try_
    (try_ (create_vector_bucket env vbucket)
       (fun e =>
          if Py.contains "ConflictException" (str_type e)
             || Py.contains "BucketAlreadyExists" (str_exn e)
          then ret tt
          else (logger_error ("Error creating S3 vectors bucket: " ++ str_exn e) ;;
                raise e)) ;;
     try_ (create_index env vbucket vindex)
       (fun e =>
          if Py.contains "ConflictException" (str_type e)
             || Py.contains "IndexAlreadyExists" (str_exn e)
          then ret tt
          else (logger_error ("Error creating vector index: " ++ str_exn e) ;;
                raise e)) ;;
     time_sleep 30 ;;
     kb_id <- create_knowledge_base env name ;;
     ds_id <- create_data_source env kb_id ("ai-ppt-docs-" ++ uhash)
                ["docs/" ++ uhash ++ "/"] ;;
     ts <- utcnow env ;;
     let user_kb_info :=
       mkKb (Some kb_id) (Some ds_id) (Some vbucket) (Some vindex) (Some name)
            (Some uhash) (Some ts) (Some "active") (Some 0) (Some "s3_vectors") in
     kb_put_item env uid user_kb_info ;;
     _process_pending_documents uid user_kb_info ;;
     ret (mkKb (Some kb_id) (Some ds_id) (Some vbucket) None None (Some uhash)
               None None None None))
    (fun e =>
       logger_error ("Failed to create KB for user " ++ uid ++ ": " ++ str_exn e) ;;
       try_ (delete_vector_bucket env vbucket) (fun _ => ret tt) ;;
       raise e).

Definition get_or_create_user_kb (uid : string) : M World KbItem :=
  try_
    (existing_kb <- _get_user_kb_from_db uid ;;
     found <- match existing_kb with
              | Some kb =>
                  kb_id <- getitem "knowledge_base_id" (kb_knowledge_base_id kb) ;;
                  ok <- _verify_kb_exists kb_id ;;
                  if ok : bool then ret (Some kb)
                  else (_remove_user_kb_from_db uid ;; ret None)
              | None => ret None
              end ;;
     match found with
     | Some kb => ret kb
     | None => _create_user_kb uid
     end)
    (fun e =>
       logger_error ("Failed to get/create KB for user " ++ uid ++ ": " ++ str_exn e) ;;
       raise e).

Definition delete_user_kb (uid : string) : M World bool :=
  try_
    (user_kb <- _get_user_kb_from_db uid ;;
     match user_kb with
     | None => ret true
     | Some kb =>
         kb_id <- getitem "knowledge_base_id" (kb_knowledge_base_id kb) ;;
         delete_knowledge_base env kb_id ;;
         (if Py.truthy (vector_bucket_name kb)
          then try_ (delete_vector_bucket env (default "" (vector_bucket_name kb)))
                    (fun _ => ret tt)
          else ret tt) ;;
         _remove_user_kb_from_db uid ;;
         ret true
     end)
    (fun e =>
       logger_error ("Failed to delete KB for user " ++ uid ++ ": " ++ str_exn e) ;;
       ret false).

Definition failed_create (document_id : option string) (e : Exn) : CreateResult :=
  mkCreateResult false None None document_id (Some (str_exn e))
                 ("Failed to create Knowledge Base: " ++ str_exn e).

(** [create_and_process_document]. The statement [import boto3] in the
    middle of the body makes [boto3] a local name of the function, unbound
    until that statement has run; the local variable of the embedding says
    whether it has. The exception handler reads [boto3] first, so it
    updates the record of the document only when the exception came after
    the import. *)
Definition create_and_process_document (event : KbEvent) : M World CreateResult :=
  with_local false
    (try_
       (let uid := ev_user_id event in
        document_id <- getitem "document_id" (ev_document_id event) ;;
        fname <- getitem "filename" (ev_filename event) ;;
        temp_s3_key <- getitem "temp_s3_key" (ev_temp_s3_key event) ;;
        user_kb_info <- lift (_create_user_kb uid) ;;
        uhash <- getitem "user_hash" (user_hash user_kb_info) ;;
        let final_s3_key := "docs/" ++ uhash ++ "/" ++ document_id ++ "/" ++ fname in
        set_local true ;;
        lift
          (try_
             (s3_head_object env temp_s3_key ;;
              s3_copy_object env temp_s3_key final_s3_key ;;
              s3_delete_object env temp_s3_key)
             (fun e =>
                if is_NoSuchKey e then
                  try_ (s3_head_object env final_s3_key)
                    (fun e2 =>
                       if is_NoSuchKey e2 then
                         raise (PyException
                                  ("Document not found in temp location (" ++ temp_s3_key
                                   ++ ") or final location (" ++ final_s3_key ++ ")"))
                       else raise e2)
                else raise e)) ;;
        kb_id <- getitem "knowledge_base_id" (kb_knowledge_base_id user_kb_info) ;;
        ds_id <- getitem "data_source_id" (kb_data_source_id user_kb_info) ;;
        ts <- lift (utcnow env) ;;
        lift
          (doc_update_item env document_id
             (fun d =>
                set_last_modified ts
                  (set_message
                     "Knowledge Base created successfully. Starting document ingestion..."
                     (set_sync_status "processing"
                        (set_data_source_id ds_id
                           (set_knowledge_base_id kb_id
                              (set_s3_key final_s3_key d))))))) ;;
        lift (_trigger_ingestion_job kb_id ds_id document_id) ;;
        lift (kb_update_item env uid (add_document_count 1)) ;;
        ret (mkCreateResult true (Some kb_id) (Some ds_id) (Some document_id) None
               "Knowledge Base created and document processing started"))
       (fun e =>
          lift (logger_error ("Failed to create KB and process document: " ++ str_exn e)) ;;
          try_
            (boto3_bound <- get_local ;;
             if boto3_bound : bool then
               document_id <- getitem "document_id" (ev_document_id event) ;;
               ts <- lift (utcnow env) ;;
               lift
                 (doc_update_item env document_id
                    (fun d =>
                       set_last_modified ts
                         (set_message ("Failed to create Knowledge Base: " ++ str_exn e)
                            (set_sync_status "failed" d))))
             else raise (UnboundLocalError "boto3"))
            (fun update_error =>
               lift (logger_error ("Failed to update document status: "
                                   ++ str_exn update_error))) ;;
          ret (failed_create (ev_document_id event) e))).

(** The loop over the items of one scan: [updated_count] is the local
    variable; [counted] says whether the branch increments it. *)
Definition update_scanned (counted : bool) (new_status msg : string)
    (items : list string) : M (nat * World) unit :=
  for_each items
    (fun document_id =>
       lift (ts <- utcnow env ;;
             doc_update_item env document_id
               (fun d => set_last_modified ts
                           (set_message msg (set_sync_status new_status d)))) ;;
       if counted then
         updated_count <- get_local ;;
         set_local (updated_count + 1)
       else ret tt).

(** One iteration of the loop over the job summaries. *)
Definition reconcile_job (job : IngestionJob) : M (nat * World) unit :=
  let job_id := ingestionJobId job in
  let st := job_status job in
  if String.eqb st "COMPLETE" then
    try_
      (items <- lift (doc_scan env job_id ["processing"; "syncing"]) ;;
       update_scanned true "completed"
         "Document successfully indexed in Knowledge Base" items)
      (fun e =>
         lift (logger_error ("Failed to update documents for job " ++ job_id ++ ": "
                             ++ str_exn e)))
  else if String.eqb st "FAILED" then
    try_
      (items <- lift (doc_scan env job_id ["processing"]) ;;
       update_scanned false "failed" "Knowledge Base ingestion failed" items)
      (fun e =>
         lift (logger_error ("Failed to update failed documents for job " ++ job_id
                             ++ ": " ++ str_exn e)))
  else ret tt.

Definition check_ingestion_status (uid : string) : M World CheckResult :=
  try_
    (user_kb <- _get_user_kb_from_db uid ;;
     match user_kb with
     | None => ret (CheckError "No Knowledge Base found for user")
     | Some kb =>
         kb_id <- getitem "knowledge_base_id" (kb_knowledge_base_id kb) ;;
         ds_id <- getitem "data_source_id" (kb_data_source_id kb) ;;
         jobs <- list_ingestion_jobs env kb_id ds_id 10 ;;
         with_local 0
           (for_each jobs reconcile_job ;;
            updated_count <- get_local ;;
            ret (CheckOk updated_count
                   ("Updated " ++ pretty updated_count ++ " document statuses")))
     end)
    (fun e =>
       logger_error ("Failed to check ingestion status for user " ++ uid ++ ": "
                     ++ str_exn e) ;;
       ret (CheckError (str_exn e))).

(** [lambda_handler], on the operations the embedding covers. *)
Definition lambda_handler (event : KbEvent) : M World Response :=
  try_
    (let uid := ev_user_id event in
     if String.eqb uid "" then
       ret (mkResponse 400 (BodyError "user_id is required"))
     else
       match operation event with
       | OpDelete =>
           success <- delete_user_kb uid ;;
           ret (mkResponse 200 (BodySuccess success))
       | OpCreateAndProcess =>
           result <- create_and_process_document event ;;
           ret (mkResponse 200 (BodyCreate result))
       | OpProcessPending =>
           user_kb_info <- _get_user_kb_from_db uid ;;
           match user_kb_info with
           | None => ret (mkResponse 404 (BodyError "No Knowledge Base found for user"))
           | Some info =>
               _process_pending_documents uid info ;;
               ret (mkResponse 200 (BodyPending "Pending documents processed"))
           end
       | OpCheckIngestionStatus =>
           result <- check_ingestion_status uid ;;
           ret (mkResponse 200 (BodyCheck result))
       end)
    (fun e =>
       logger_error ("Lambda handler error: " ++ str_exn e) ;;
       ret (mkResponse 500 (BodyError (str_exn e)))).

End Manager.
End KnowledgeBaseManager.

(** ** document_processor.py *)

(** Result of [process_document]. *)
Record UploadResult := mkUpload {
  up_success : bool;
  up_documentId : option string;
  up_s3_key : option string;
  up_knowledge_base_id : option string;
  up_sync_status : option string;
  up_message : string;
  up_isFirstUpload : option bool;
  up_estimatedTime : option string
}.

(** Result of [get_sync_status]: [{"success": False, "message": ...}] or
    [{"success": True, "status": ..., "message": ..., "lastUpdated": ...}]. *)
Inductive SyncResult :=
| SyncFailure (msg : string)
| SyncOk (current_status msg lastUpdated : string).

Module DocumentProcessor.
Section Processor.

Variable env : Env.

(** [lambda_client.invoke]: a request-response invocation runs the
    manager's handler before it returns; an [Event] one only queues it. *)
Definition lambda_invoke (mode : InvocationType) (payload : KbEvent)
    : M World (option Response) :=
  call env (LambdaInvoke mode payload)
    (match mode with
     | Event => ret None
     | RequestResponse =>
         r <- KnowledgeBaseManager.lambda_handler env payload ;;
         ret (Some r)
     end).

Definition _verify_kb_exists (kb_id : string) : M World bool :=
  try_ (get_knowledge_base env kb_id ;; ret true)
    (fun _ => ret false).

(** The traceback dump that follows the error line is not recorded. *)
Definition _get_existing_user_kb (uid : string) : M World (option KbItem) :=
  try_
    (item <- kb_get_item env uid ;;
     match item with
     | Some kb_info =>
         kb_id <- getitem "knowledge_base_id" (kb_knowledge_base_id kb_info) ;;
         ok <- _verify_kb_exists kb_id ;;
         if ok : bool then ret (Some kb_info)
         else (kb_delete_item env uid ;; ret None)
     | None => ret None
     end)
    (fun e =>
       logger_error ("❌ Failed to check existing KB for user " ++ uid ++ ": "
                     ++ str_exn e) ;;
       ret None).

Definition _get_content_type (fname : string) : string :=
  let extension :=
    if Py.contains "." fname
    then List.last (Py.split "." (Py.lower fname)) ""
    else "" in
  if String.eqb extension "pdf" then "application/pdf"
  else if String.eqb extension "txt" then "text/plain"
  else if String.eqb extension "md" then "text/markdown"
  else if String.eqb extension "doc" then "application/msword"
  else if String.eqb extension "docx"
  then "application/vnd.openxmlformats-officedocument.wordprocessingml.document"
  else "application/octet-stream".

Definition _trigger_kb_ingestion (user_kb_info : KbItem) (document_id : string)
    : M World unit :=
  try_
    (kb_id <- getitem "knowledge_base_id" (kb_knowledge_base_id user_kb_info) ;;
     ds_id <- getitem "data_source_id" (kb_data_source_id user_kb_info) ;;
     job_id <- start_ingestion_job env kb_id ds_id
                 ("Ingestion for document " ++ document_id) ;;
     ts <- utcnow env ;;
     doc_update_item env document_id
       (fun d => set_last_modified ts
                   (set_ingestion_job_id job_id (set_sync_status "syncing" d))))
    (fun e =>
       logger_error ("Failed to trigger KB ingestion: " ++ str_exn e) ;;
       ts <- utcnow env ;;
       doc_update_item env document_id
         (fun d => set_last_modified ts
                     (set_error_message (str_exn e) (set_sync_status "failed" d)))).

Definition _process_with_existing_kb (pdf_content fname uid document_id : string)
    (kb_info : KbItem) : M World UploadResult :=
  try_
    (uhash <- getitem "user_hash" (user_hash kb_info) ;;
     let key := "docs/" ++ uhash ++ "/" ++ document_id ++ "/" ++ fname in
     ts0 <- utcnow env ;;
     s3_put_object env key
       (mkObj pdf_content (_get_content_type fname)
          [("user_id", uid); ("document_id", document_id);
           ("original_filename", fname); ("upload_timestamp", ts0)]) ;;
     kb_id <- getitem "knowledge_base_id" (kb_knowledge_base_id kb_info) ;;
     ds_id <- getitem "data_source_id" (kb_data_source_id kb_info) ;;
     ts <- utcnow env ;;
     let document_metadata :=
       mkDoc (Some uid) (Some key) None (Some fname) (Some (String.length pdf_content))
             (Some (_get_content_type fname)) (Some kb_id) (Some ds_id) (Some ts)
             (Some "uploaded") (Some 0) (Some ts) None None None in
     doc_put_item env document_id document_metadata ;;
     _trigger_kb_ingestion kb_info document_id ;;
     ret (mkUpload true (Some document_id) (Some key) (Some kb_id) (Some "processing")
            ("Document " ++ fname ++ " uploaded and processing started") None None))
    (fun e =>
       logger_error ("Failed to process document with existing KB: " ++ str_exn e) ;;
       raise e).

Definition _start_async_kb_creation (pdf_content fname uid document_id : string)
    : M World UploadResult :=
  try_
    (let temp_s3_key := "pending/" ++ uid ++ "/" ++ document_id ++ "/" ++ fname in
     ts0 <- utcnow env ;;
     s3_put_object env temp_s3_key
       (mkObj pdf_content (_get_content_type fname)
          [("user_id", uid); ("document_id", document_id);
           ("original_filename", fname); ("upload_timestamp", ts0);
           ("status", "pending_kb_creation")]) ;;
     ts <- utcnow env ;;
     let document_metadata :=
       mkDoc (Some uid) (Some temp_s3_key) None (Some fname)
             (Some (String.length pdf_content)) (Some (_get_content_type fname))
             None None (Some ts) (Some "creating_knowledge_base") (Some 0) (Some ts)
             (Some "Creating your personal Knowledge Base (first upload takes 2-3 minutes)...")
             None None in
     doc_put_item env document_id document_metadata ;;
     lambda_invoke Event
       (mkEvent OpCreateAndProcess uid (Some document_id) (Some fname)
                (Some temp_s3_key)) ;;
     ret (mkUpload true (Some document_id) (Some temp_s3_key) None
            (Some "creating_knowledge_base")
            ("Creating your personal Knowledge Base for " ++ fname
             ++ ". This will take 2-3 minutes for your first upload.")
            (Some true) (Some "2-3 minutes")))
    (fun e =>
       logger_error ("Failed to start async KB creation: " ++ str_exn e) ;;
       raise e).

Definition process_document (pdf_content fname uid : string) : M World UploadResult :=
  try_
    (document_id <- fresh_uuid env ;;
     existing_kb <- _get_existing_user_kb uid ;;
     match existing_kb with
     | Some kb => _process_with_existing_kb pdf_content fname uid document_id kb
     | None => _start_async_kb_creation pdf_content fname uid document_id
     end)
    (fun e =>
       logger_error ("Failed to process document " ++ fname ++ " for user " ++ uid
                     ++ ": " ++ str_exn e) ;;
       ret (mkUpload false None None None None
              ("Document processing failed: " ++ str_exn e) None None)).

(** [_update_ingestion_status]: the per-document status refresh. *)
Definition _update_ingestion_status (document_id : string) (document : DocItem)
    : M World unit :=
  try_
    (if Py.truthy (ingestion_job_id document) && Py.truthy (knowledge_base_id document)
        && Py.truthy (data_source_id document)
        && negb (String.eqb document_id "")
     then
       let job_id := default "" (ingestion_job_id document) in
       let kb_id := default "" (knowledge_base_id document) in
       let ds_id := default "" (data_source_id document) in
       job <- get_ingestion_job env kb_id ds_id job_id ;;
       let st := job_status job in
       if String.eqb st "COMPLETE" then
         ts <- utcnow env ;;
         doc_update_item env document_id
           (fun d => set_last_modified ts (set_sync_status "completed" d))
       else if String.eqb st "FAILED" then
         let failure_reasons := default ["Unknown error"] (failureReasons job) in
         ts <- utcnow env ;;
         doc_update_item env document_id
           (fun d => set_last_modified ts
                       (set_error_message (Py.join "; " failure_reasons)
                          (set_sync_status "failed" d)))
       else ret tt
     else ret tt)
    (fun e => logger_error ("Failed to update ingestion status: " ++ str_exn e)).

(** First block of [delete_document]: the record and the ownership
    check. [inl b] is the early [return b]. *)
Definition fetch_owned_document (document_id uid : string)
    : M World (bool + DocItem) :=
  try_
    (item <- doc_get_item env document_id ;;
     match item with
     | None =>
         logger_error ("Document " ++ document_id ++ " not found in DynamoDB") ;;
         ret (inl false)
     | Some document =>
         let doc_user_id := user_id document in
         if bool_decide (doc_user_id = Some uid) then ret (inr document)
         else
           (logger_error ("Document " ++ document_id ++ " does not belong to user "
                          ++ uid ++ ", belongs to " ++ Py.str_opt doc_user_id) ;;
            ret (inl false))
     end)
    (fun e =>
       logger_error ("Error getting document from DynamoDB: " ++ str_exn e) ;;
       ret (inl false)).

(** Last block of [delete_document]: the resync request. *)
Definition trigger_sync_after_delete (document_id uid : string) : M World unit :=
  try_
    (kb_response <- kb_get_item env uid ;;
     match kb_response with
     | Some kb_info =>
         if Py.truthy (kb_knowledge_base_id kb_info)
            && Py.truthy (kb_data_source_id kb_info)
         then
           start_ingestion_job env
             (default "" (kb_knowledge_base_id kb_info))
             (default "" (kb_data_source_id kb_info))
             ("Sync after deleting document " ++ document_id) ;;
           ret tt
         else ret tt
     | None => ret tt
     end)
    (fun e => logger_error ("Error triggering Knowledge Base sync: " ++ str_exn e)).

Definition delete_document (document_id uid : string) : M World bool :=
  try_
    (fetched <- fetch_owned_document document_id uid ;;
     match fetched with
     | inl b => ret b
     | inr document =>
         try_
           (let key := if Py.truthy (s3_key document) then s3_key document
                       else s3Key document in
            if Py.truthy key then s3_delete_object env (default "" key)
            else ret tt)
           (fun e => logger_error ("Error deleting from S3: " ++ str_exn e)) ;;
         deleted <- try_ (doc_delete_item env document_id ;; ret true)
                      (fun e =>
                         logger_error ("Error deleting from DynamoDB: " ++ str_exn e) ;;
                         ret false) ;;
         if deleted : bool then
           trigger_sync_after_delete document_id uid ;;
           ret true
         else ret false
     end)
    (fun e =>
       logger_error ("Unexpected error deleting document " ++ document_id ++ ": "
                     ++ str_exn e) ;;
       ret false).

(** The refresh inside [get_sync_status]: invoke the reconciler, then
    read the record again. It returns the (document, status) pair the
    function goes on with. *)
Definition refresh_status (document_id uid : string) (document : DocItem)
    (current_status : string) : M World (DocItem * string) :=
  try_
    (lambda_invoke RequestResponse
       (mkEvent OpCheckIngestionStatus uid None None None) ;;
     item <- doc_get_item env document_id ;;
     match item with
     | Some d => ret (d, default "unknown" (sync_status d))
     | None => ret (document, current_status)
     end)
    (fun _ => ret (document, current_status)).

Definition get_sync_status (document_id uid : string) : M World SyncResult :=
  try_
    (item <- doc_get_item env document_id ;;
     match item with
     | None => ret (SyncFailure "Document not found")
     | Some document =>
         if negb (bool_decide (user_id document = Some uid))
         then ret (SyncFailure "Document not found")
         else
           let current_status := default "unknown" (sync_status document) in
           refreshed <-
             (if String.eqb current_status "processing"
              then refresh_status document_id uid document current_status
              else ret (document, current_status)) ;;
           let '(document, current_status) := refreshed in
           ret (SyncOk current_status
                  (default "" (message document))
                  (default "" (last_modified document)))
     end)
    (fun e =>
       logger_error ("Error getting sync status: " ++ str_exn e) ;;
       ret (SyncFailure ("Error getting sync status: " ++ str_exn e))).

End Processor.
End DocumentProcessor.

(** ** ingestion_status_resolver.py *)

(** Result of the resolver. *)
Record ResolverResult := mkResolver {
  rr_success : bool;
  rr_updatedDocuments : nat;
  rr_message : string
}.

(** [body.get('success', False)], [body.get('updated_documents', 0)] and
    [body.get('message', 'Status check completed')] on the decoded body. *)
Definition body_success (b : Body) : bool :=
  match b with
  | BodyError _ => false
  | BodySuccess success => success
  | BodyPending _ => true
  | BodyCreate r => cr_success r
  | BodyCheck (CheckError _) => false
  | BodyCheck (CheckOk _ _) => true
  end.

Definition body_updated_documents (b : Body) : nat :=
  match b with
  | BodyCheck (CheckOk n _) => n
  | _ => 0
  end.

Definition body_message (b : Body) : string :=
  match b with
  | BodyPending m => m
  | BodyCreate r => cr_message r
  | BodyCheck (CheckOk _ m) => m
  | _ => "Status check completed"
  end.

Module IngestionStatusResolver.
Section Resolver.

Variable env : Env.

(** [lambda_handler(event, context)]: [sub] is
    [event.get('identity', {}).get('sub')] and [kb_manager_function] is
    [os.environ.get('KNOWLEDGE_BASE_MANAGER_FUNCTION_NAME')]. *)
Definition lambda_handler (sub kb_manager_function : option string)
    : M World ResolverResult :=
  try_
    (if negb (Py.truthy sub) then
       ret (mkResolver false 0 "User authentication required")
     else if negb (Py.truthy kb_manager_function) then
       ret (mkResolver false 0 "Knowledge Base Manager function not configured")
     else
       response <- DocumentProcessor.lambda_invoke env RequestResponse
                     (mkEvent OpCheckIngestionStatus (default "" sub) None None None) ;;
       payload <- getitem "Payload" response ;;
       if (statusCode payload =? 200)%nat then
         ret (mkResolver (body_success (body payload))
                (body_updated_documents (body payload))
                (body_message (body payload)))
       else
         ret (mkResolver false 0 "Failed to check ingestion status"))
    (fun e =>
       logger_error ("Ingestion status resolver error: " ++ str_exn e) ;;
       ret (mkResolver false 0 ("Error checking ingestion status: " ++ str_exn e))).

End Resolver.
End IngestionStatusResolver.

(** ** Vocabulary of the statements

    The definitions below are used to state and prove properties; none of
    them is part of the program. *)

Definition frames {S A} (P : S -> S -> Prop) (m : M S A) : Prop :=
  forall s, P s (snd (m s)).

Class Frame {S} (P : S -> S -> Prop) := {
  frame_refl : forall s, P s s;
  frame_trans : forall s1 s2 s3, P s1 s2 -> P s2 s3 -> P s1 s3
}.

(** A frame on worlds extends to a body with a local variable. *)
Definition on_world {L} (P : World -> World -> Prop) : L * World -> L * World -> Prop :=
  fun s s' => P (snd s) (snd s').

(** The calls that write to the tenant-index table. *)
Definition kb_write (c : Call) : bool :=
  match c with
  | KbPutItem _ | KbUpdateItem _ | KbDeleteItem _ => true
  | _ => false
  end.

(** The tenant-index table is unchanged and no write to it was attempted. *)
Definition kb_untouched (w w' : World) : Prop :=
  user_kb_table w' = user_kb_table w /\
  exists new, trace w' = (new ++ trace w)%list /\ forallb (fun c => negb (kb_write c)) new = true.

(** Only the documents table, the trace and the error log may differ. *)
Definition only_documents_changed (w w' : World) : Prop :=
  bucket w' = bucket w /\
  user_kb_table w' = user_kb_table w /\
  knowledge_bases w' = knowledge_bases w /\
  data_sources w' = data_sources w /\
  vector_buckets w' = vector_buckets w /\
  ingestion_jobs w' = ingestion_jobs w /\
  next_id w' = next_id w /\
  uuid_seed w' = uuid_seed w /\
  now w' = now w.

(** The calls made between two states of a run. *)
Definition calls_since (w w' : World) : list Call :=
  take (length (trace w') - length (trace w)) (trace w').

(** The request-response invocation of the manager's
    [check_ingestion_status] for a tenant. *)
Definition reconcile_request (uid : string) : KbEvent :=
  mkEvent OpCheckIngestionStatus uid None None None.

(** Whether a call is that invocation. *)
Definition is_reconcile_invoke (uid : string) (c : Call) : bool :=
  match c with
  | LambdaInvoke RequestResponse ev =>
      match operation ev with
      | OpCheckIngestionStatus => String.eqb (ev_user_id ev) uid
      | _ => false
      end
  | _ => false
  end.

(** Whether the reconciler was invoked for the tenant between two states. *)
Definition reconciler_invoked (uid : string) (w w' : World) : bool :=
  existsb (is_reconcile_invoke uid) (calls_since w w').

(** Number of calls of a kind made between two states. *)
Definition count_calls (p : Call -> bool) (w w' : World) : nat :=
  length (List.filter p (calls_since w w')).

Definition is_start_ingestion_job (c : Call) : bool :=
  match c with StartIngestionJob _ _ _ => true | _ => false end.

(** What one update of the reconciler writes. *)
Definition mark (ts st msg : string) (d : DocItem) : DocItem :=
  set_last_modified ts (set_message msg (set_sync_status st d)).

(** The table after updating the listed documents in order. *)
Definition mark_all (f : DocItem -> DocItem) (ids : list string)
    (t : gmap string DocItem) : gmap string DocItem :=
  foldl (fun t id => upsert_doc id f t) t ids.

(** A table entry in status 'completed'. *)
Definition is_completed (kv : string * DocItem) : Prop :=
  sync_status kv.2 = Some "completed".

#[export] Instance is_completed_dec kv : Decision (is_completed kv).
Proof. unfold is_completed. apply _. Defined.

(** Number of documents in status 'completed'. *)
Definition completed_count (t : gmap string DocItem) : nat :=
  size (filter is_completed t).

(** The terminal statuses of the document state machine. *)
Definition terminal (d : DocItem) : Prop :=
  sync_status d = Some "completed" \/ sync_status d = Some "failed".

(** The scan filters of the reconciler only match non-terminal statuses. *)
Definition nonterminal_statuses (statuses : list string) : Prop :=
  forall s, s ∈ statuses -> s <> "completed" /\ s <> "failed".

Section ReconcilerVocabulary.

Variable env : Env.

(** One branch of the loop body: scan, then mark the scanned documents;
    an exception ends the branch and is logged. *)
Definition scan_and_mark (counted : bool) (statuses : list string)
    (st msg : string) (logtxt : Exn -> string) (job_id : string) : M (nat * World) unit :=
  try_
    (items <- lift (doc_scan env job_id statuses) ;;
     KnowledgeBaseManager.update_scanned env counted st msg items)
    (fun e => lift (logger_error (logtxt e))).

(** A scan is stuck when it finds nothing, or when the update of the
    first document it finds raises: the loop over its items then changes
    nothing. *)
Definition stuck (job_id : string) (statuses : list string)
    (t : gmap string DocItem) : Prop :=
  match scan_keys job_id statuses t with
  | [] => True
  | k :: _ => fault env (DocUpdateItem k) <> None
  end.

(** A job of the list is settled when its scan, if it runs, is stuck. *)
Definition job_settled (job : IngestionJob) (t : gmap string DocItem) : Prop :=
  (job_status job = "COMPLETE" ->
   fault env (DocScan (ingestionJobId job) ["processing"; "syncing"]) = None ->
   stuck (ingestionJobId job) ["processing"; "syncing"] t) /\
  (job_status job = "FAILED" ->
   fault env (DocScan (ingestionJobId job) ["processing"]) = None ->
   stuck (ingestionJobId job) ["processing"] t).

(** What a reconciliation step may do to the world and to the count. *)
Definition reconciled (c : nat) (w : World) (c' : nat) (w' : World) : Prop :=
  only_documents_changed w w' /\
  c <= c' /\
  completed_count (documents_table w')
    = completed_count (documents_table w) + (c' - c) /\
  (forall k d, documents_table w !! k = Some d -> terminal d ->
               documents_table w' !! k = Some d) /\
  (forall j sts, nonterminal_statuses sts ->
                 stuck j sts (documents_table w) ->
                 stuck j sts (documents_table w')).

(** The job summaries a reconciliation gets to see, if it gets that far. *)
Definition listed_jobs (T : string) (w : World) : option (list IngestionJob) :=
  match fault env (KbGetItem T) with
  | Some _ => None
  | None =>
      match user_kb_table w !! T with
      | None => None
      | Some kb =>
          match kb_knowledge_base_id kb, kb_data_source_id kb with
          | Some kb_id, Some ds_id =>
              match fault env (ListIngestionJobs kb_id ds_id) with
              | Some _ => None
              | None =>
                  if source_exists kb_id ds_id w
                  then Some (take 10 (List.filter (job_of kb_id ds_id) (ingestion_jobs w)))
                  else None
              end
          | _, _ => None
          end
      end
  end.

End ReconcilerVocabulary.

(** A string without the path separator. *)
Fixpoint no_slash (s : string) : bool :=
  match s with
  | EmptyString => true
  | String c rest => negb (Ascii.eqb c "/") && no_slash rest
  end.

(** A string without a '.'. *)
Fixpoint no_dot (s : string) : bool :=
  match s with
  | EmptyString => true
  | String c rest => negb (Ascii.eqb c ".") && no_dot rest
  end.

(** The key under which an upload waits for the tenant's index, and the
    key of its final place. *)
Definition pending_key (uid document_id fname : string) : string :=
  "pending/" ++ uid ++ "/" ++ document_id ++ "/" ++ fname.

Definition final_key (uhash document_id fname : string) : string :=
  "docs/" ++ uhash ++ "/" ++ document_id ++ "/" ++ fname.

(** Only calls of an allowed kind were made between two states. *)
Definition only_calls (ok : Call -> bool) (w w' : World) : Prop :=
  exists new, trace w' = (new ++ trace w)%list /\ forallb ok new = true.

(** The calls that create or delete a tenant's index resources. *)
Definition provisioning_call (c : Call) : bool :=
  match c with
  | CreateVectorBucket _ | CreateIndex _ _ | CreateKnowledgeBase _
  | CreateDataSource _ _ | DeleteKnowledgeBase _ | DeleteVectorBucket _ => true
  | _ => false
  end.

(** The calls an upload may make: no provisioning, no wait for another
    function, no removal of a blob. *)
Definition upload_call (c : Call) : bool :=
  match c with
  | LambdaInvoke RequestResponse _ => false
  | S3DeleteObject _ | S3CopyObject _ _ => false
  | _ => negb (provisioning_call c)
  end.

(** The tenant-index table is as it was. *)
Definition kb_table_same (w w' : World) : Prop :=
  user_kb_table w' = user_kb_table w.

(** Two versions of a record that differ at most in [sync_status],
    [message] and [last_modified]. *)
Definition same_core (d d' : DocItem) : Prop :=
  user_id d' = user_id d /\ s3_key d' = s3_key d /\ s3Key d' = s3Key d /\
  filename d' = filename d /\ file_size d' = file_size d /\
  content_type d' = content_type d /\ knowledge_base_id d' = knowledge_base_id d /\
  data_source_id d' = data_source_id d /\ upload_date d' = upload_date d /\
  processing_attempts d' = processing_attempts d /\
  error_message d' = error_message d /\ ingestion_job_id d' = ingestion_job_id d.

(** Two versions of the documents table with the same keys and, under
    each key, records with the same core. *)
Definition same_core_tables (t t' : gmap string DocItem) : Prop :=
  forall k, match t !! k, t' !! k with
            | Some d, Some d' => same_core d d'
            | None, None => True
            | _, _ => False
            end.

(** The scan filter the reconciler applies for a job summary, if any. *)
Definition job_matches (job : IngestionJob) (d : DocItem) : bool :=
  if String.eqb (job_status job) "COMPLETE"
  then scan_filter (ingestionJobId job) ["processing"; "syncing"] d
  else if String.eqb (job_status job) "FAILED"
  then scan_filter (ingestionJobId job) ["processing"] d
  else false.

(** Any call but the start of an ingestion job. *)
Definition not_start_job (c : Call) : bool := negb (is_start_ingestion_job c).

(** [frames_on_raise P m]: when [m] raises, the state it leaves is related
    by [P] to the state it started in. *)
Definition frames_on_raise {S A} (P : S -> S -> Prop) (m : M S A) : Prop :=
  forall s, match m s with
            | (Raise _, s') => P s s'
            | (Ok _, _) => True
            end.

(** The provider's knowledge bases and data sources are as they were, and
    the tenant's record, if there was one, still names the same index. *)
Definition index_kept (uid : string) (w w' : World) : Prop :=
  knowledge_bases w' = knowledge_bases w /\
  data_sources w' = data_sources w /\
  forall rec, user_kb_table w !! uid = Some rec ->
    exists rec', user_kb_table w' !! uid = Some rec' /\
                 kb_knowledge_base_id rec' = kb_knowledge_base_id rec /\
                 kb_data_source_id rec' = kb_data_source_id rec /\
                 user_hash rec' = user_hash rec.

(** The name of the vector bucket [_create_user_kb] generates. *)
Definition generated_bucket_name (env : Env) (uid : string) (w : World) : string :=
  "ai-ppt-vectors-" ++ md5_hex8 env uid ++ "-" ++ pretty (now w).

(** ** Concrete environments and worlds *)

(** The fault plan under which no call raises. *)
Definition no_fault : Call -> option Exn := fun _ => None.

(** An environment for running the embedding on examples. *)
Definition demo_env (f : Call -> option Exn) : Env :=
  mkEnv f (fun uid => "h" ++ uid) (fun n => "doc-" ++ pretty n) (fun t => "T" ++ pretty t).

(** Nothing stored anywhere; the clock reads 100. *)
Definition empty_world : World :=
  mkWorld ∅ ∅ ∅ ∅ ∅ ∅ [] 0 0 100 [] [].

(** A tenant [u1] with an index [kb-0] and its data source [ds-1]. *)
Definition u1_kb : KbItem :=
  mkKb (Some "kb-0") (Some "ds-1") (Some "ai-ppt-vectors-hu1-50") (Some "ai-ppt-index-hu1")
       (Some "ai-ppt-kb-hu1-50") (Some "hu1") (Some "T50") (Some "active") (Some 0)
       (Some "s3_vectors").

(** The world of that tenant, with nothing uploaded yet. *)
Definition world_with_index : World :=
  mkWorld ∅ ∅ {[ "u1" := u1_kb ]}
          {[ "kb-0" := mkPKb "ai-ppt-kb-hu1-50" "ACTIVE" ]}
          {[ "ds-1" := mkPDs "kb-0" "ai-ppt-docs-hu1" ["docs/hu1/"] ]}
          {[ "ai-ppt-vectors-hu1-50" := ["ai-ppt-index-hu1"] ]}
          [] 2 0 100 [] [].

(** A record of tenant [u2] and its blob, in the world of tenant [u1]. *)
Definition foreign_doc : DocItem :=
  mkDoc (Some "u2") (Some "docs/hu2/d1/a.pdf") None (Some "a.pdf") (Some 3)
        (Some "application/pdf") (Some "kb-9") (Some "ds-9") (Some "T60")
        (Some "completed") (Some 0) (Some "T61") None None (Some "job-7").

(** The world of tenant [u1] holding that record and blob. *)
Definition world_foreign_doc : World :=
  set_bucket (insert "docs/hu2/d1/a.pdf" (mkObj "abc" "application/pdf" []))
    (set_documents_table (insert "d1" foreign_doc) world_with_index).

(** A fault plan under which every blob delete raises. *)
Definition blob_delete_fails : Call -> option Exn :=
  fun c => match c with
           | S3DeleteObject _ => Some (ClientError "AccessDenied" "Access Denied")
           | _ => None
           end.

(** A record of tenant [u1] and its blob. *)
Definition own_doc : DocItem :=
  mkDoc (Some "u1") (Some "docs/hu1/d1/a.pdf") None (Some "a.pdf") (Some 3)
        (Some "application/pdf") (Some "kb-0") (Some "ds-1") (Some "T60")
        (Some "completed") (Some 0) (Some "T61") None None (Some "job-7").

(** The world of tenant [u1] holding that record and blob. *)
Definition world_own_doc : World :=
  set_bucket (insert "docs/hu1/d1/a.pdf" (mkObj "abc" "application/pdf" []))
    (set_documents_table (insert "d1" own_doc) world_with_index).

(** A fault plan under which every start of an ingestion job raises. *)
Definition start_job_fails : Call -> option Exn :=
  fun c => match c with
           | StartIngestionJob _ _ _ =>
               Some (ServiceError "ThrottlingException" "Rate exceeded")
           | _ => None
           end.

(** A document of tenant [u1] with a given status, in ingestion job
    [job-2]. *)
Definition doc_in_job (st : string) : DocItem :=
  mkDoc (Some "u1") (Some "docs/hu1/d1/a.pdf") None (Some "a.pdf") (Some 3)
        (Some "application/pdf") (Some "kb-0") (Some "ds-1") (Some "T60")
        (Some st) (Some 0) (Some "T61") None None (Some "job-2").

(** Tenant [u1]'s world with that document and the provider's view of the
    job. *)
Definition world_job (doc_status job_state : string) (reasons : option (list string))
    : World :=
  set_ingestion_jobs
    (cons (mkJob "job-2" "kb-0" "ds-1" job_state reasons "Ingestion for document d1"))
    (set_documents_table (insert "d1" (doc_in_job doc_status)) world_with_index).

(** The record of an upload made before the tenant's index existed. *)
Definition pending_doc (key fname : string) : DocItem :=
  mkDoc (Some "u1") (Some key) None (Some fname) (Some 3) (Some "application/pdf")
        None None (Some "T90") (Some "creating_knowledge_base") (Some 0) (Some "T90")
        (Some "Creating your personal Knowledge Base (first upload takes 2-3 minutes)...")
        None None.

(** Two uploads of tenant [u1] waiting under the pending prefix. *)
Definition world_two_pending : World :=
  set_bucket
    (fun b => <["pending/u1/d1/a.pdf" := mkObj "abc" "application/pdf" []]>
              (<["pending/u1/d2/b.pdf" := mkObj "xyz" "application/pdf" []]> b))
    (set_documents_table
       (fun t => <["d1" := pending_doc "pending/u1/d1/a.pdf" "a.pdf"]>
                 (<["d2" := pending_doc "pending/u1/d2/b.pdf" "b.pdf"]> t))
       world_with_index).

(** A fault plan under which the copy of the first pending blob raises. *)
Definition copy_of_d1_fails : Call -> option Exn :=
  fun c => match c with
           | S3CopyObject src _ =>
               if String.eqb src "pending/u1/d1/a.pdf"
               then Some (ClientError "InternalError" "We encountered an internal error.")
               else None
           | _ => None
           end.

(** A document of tenant [u1] with a given status and ingestion job. *)
Definition doc_of_job (st job : string) : DocItem :=
  mkDoc (Some "u1") (Some "docs/hu1/d/a.pdf") None (Some "a.pdf") (Some 3)
        (Some "application/pdf") (Some "kb-0") (Some "ds-1") (Some "T60")
        (Some st) (Some 0) (Some "T61") None None (Some job).

(** Tenant [u1] with three documents: [d1] ('processing') and [d2]
    ('syncing') in job [job-2], which the provider has completed, and [d3]
    ('processing') in job [job-3], which has failed. *)
Definition world_mixed_jobs : World :=
  set_ingestion_jobs
    (fun _ => [mkJob "job-3" "kb-0" "ds-1" "FAILED" (Some ["Access denied"]) "";
               mkJob "job-2" "kb-0" "ds-1" "COMPLETE" None ""])
    (set_documents_table
       (fun t => <["d1" := doc_of_job "processing" "job-2"]>
                 (<["d2" := doc_of_job "syncing" "job-2"]>
                  (<["d3" := doc_of_job "processing" "job-3"]> t)))
       world_with_index).

(** A fault plan under which listing the documents bucket raises. *)
Definition listing_fails : Call -> option Exn :=
  fun c => match c with
           | S3ListObjectsV2 _ => Some (ClientError "SlowDown" "Please reduce your request rate.")
           | _ => None
           end.

(** The world after the first upload of tenant [u1] to an empty system. *)
Definition world_first_upload : World :=
  snd (DocumentProcessor.process_document (demo_env no_fault) "hello" "a.pdf" "u1"
         empty_world).

(** A fault plan under which every update of the record of [d2] raises. *)
Definition update_of_d2_fails : Call -> option Exn :=
  fun c => match c with
           | DocUpdateItem id =>
               if String.eqb id "d2"
               then Some (ClientError "ProvisionedThroughputExceededException"
                            "The level of configured provisioned throughput was exceeded.")
               else None
           | _ => None
           end.

(** A fault plan under which the provider refuses to create a knowledge
    base. *)
Definition kb_create_fails : Call -> option Exn :=
  fun c => match c with
           | CreateKnowledgeBase _ =>
               Some (ServiceError "ValidationException" "The role is not authorized.")
           | _ => None
           end.

(** Tenant [u1]'s world after the provider lost its knowledge base: the
    tenant's record still names [kb-0]. *)
Definition world_stale_index : World :=
  set_data_sources (fun _ => ∅) (set_knowledge_bases (fun _ => ∅) world_with_index).

(** The bucket and the two tables are as they were. *)
Definition storage_same (w w' : World) : Prop :=
  bucket w' = bucket w /\
  documents_table w' = documents_table w /\
  user_kb_table w' = user_kb_table w.

(** A fault plan under which every delete of a document record raises. *)
Definition record_delete_fails : Call -> option Exn :=
  fun c => match c with
           | DocDeleteItem _ =>
               Some (ServiceError "ProvisionedThroughputExceededException"
                       "Rate exceeded")
           | _ => None
           end.

(** What the reconciler writes to a document that a job summary matched. *)
Definition job_mark (job : IngestionJob) (ts : string) : DocItem -> DocItem :=
  if String.eqb (job_status job) "COMPLETE"
  then mark ts "completed" "Document successfully indexed in Knowledge Base"
  else mark ts "failed" "Knowledge Base ingestion failed".

(** Two versions of the documents table, the second one obtained by a
    reconciliation over [jobs]: the keys are the same, and each record is
    either as it was or marked on behalf of a job that matched it. *)
Definition reconciled_tables (jobs : list IngestionJob)
    (t t' : gmap string DocItem) : Prop :=
  forall k, match t !! k, t' !! k with
            | Some d, Some d' =>
                d' = d \/
                exists job ts, job ∈ jobs /\ job_matches job d = true /\
                               d' = job_mark job ts d
            | None, None => True
            | _, _ => False
            end.

(** [never_raises m]: from every state, [m] returns a value. *)
Definition never_raises {S A} (m : M S A) : Prop :=
  forall s, exists r s', m s = (Ok r, s').

(** A fault plan under which every head request on the bucket is refused. *)
Definition blob_head_fails : Call -> option Exn :=
  fun c => match c with
           | S3HeadObject _ => Some (ClientError "403" "Forbidden")
           | _ => None
           end.

(** The records of [t'] that are in status [st] and were not in that
    status in [t]: the documents a run moved to [st]. *)
Definition moved_to (st : string) (t t' : gmap string DocItem) : gmap string DocItem :=
  filter (fun kv => sync_status kv.2 = Some st /\
                    sync_status <$> (t !! kv.1) <> Some (Some st)) t'.

(** * Properties *)

(** ** Reasoning about runs *)

Ltac run_monad :=
  progress cbv beta iota zeta delta
    [bind try_ ret raise call gets modify getitem lift get_local set_local with_local
     logger_error utcnow time_time time_sleep fresh_id fresh_uuid].

Ltac run_world :=
  progress cbn beta iota zeta delta
    [fst snd andb orb negb default from_option id bucket documents_table user_kb_table knowledge_bases
     data_sources vector_buckets ingestion_jobs next_id
     uuid_seed now trace error_log
     set_bucket set_documents_table set_user_kb_table
     set_knowledge_bases set_data_sources set_vector_buckets
     set_ingestion_jobs set_next_id set_uuid_seed set_now
     set_trace set_error_log].

Ltac run_step :=
  match goal with
  | H : ?x = _ |- context [match ?x with _ => _ end] => rewrite H
  | |- _ => run_monad
  | |- _ => run_world
  end.

Ltac run := repeat run_step.

(** ** The string helpers on examples *)

Example split_pending_key :
  Py.split "/" "pending/u1/d1/a.pdf" = ["pending"; "u1"; "d1"; "a.pdf"].
Proof. reflexivity. Qed.

Example split_keeps_empty_parts : Py.split "/" "pending/u1/" = ["pending"; "u1"; ""].
Proof. reflexivity. Qed.

Example contains_class_name :
  Py.contains "ConflictException"
    (str_type (ServiceError "ConflictException" "exists")) = true.
Proof. reflexivity. Qed.

Example content_type_ignores_case :
  DocumentProcessor._get_content_type "Report.v2.PDF" = "application/pdf" /\
  DocumentProcessor._get_content_type "README" = "application/octet-stream".
Proof. split; reflexivity. Qed.

Lemma truthy_Some (s : string) : s <> "" -> Py.truthy (Some s) = true.
Proof.
  intros Hs. unfold Py.truthy. destruct (String.eqb_spec s ""); [contradiction | reflexivity].
Qed.

(** ** The index provisioning service *)

(** C1. For a tenant that has a record whose index the provider confirms
    to exist, two calls of [get_or_create_user_kb] in sequence both return
    that record (so the same [knowledge_base_id]). Each call only reads the
    record and asks the provider: the two calls are recorded in the trace
    and nothing else changes, so no creation is performed. *)
Theorem C1_get_or_create_twice_same_index
    (env : Env) (w : World) (T kb_id : string) (item : KbItem) :
  user_kb_table w !! T = Some item ->
  kb_knowledge_base_id item = Some kb_id ->
  is_Some (knowledge_bases w !! kb_id) ->
  fault env (KbGetItem T) = None ->
  fault env (GetKnowledgeBase kb_id) = None ->
  exists w1 w2,
    KnowledgeBaseManager.get_or_create_user_kb env T w = (Ok item, w1) /\
    KnowledgeBaseManager.get_or_create_user_kb env T w1 = (Ok item, w2) /\
    kb_knowledge_base_id item = Some kb_id /\
    w1 = set_trace (fun t => GetKnowledgeBase kb_id :: KbGetItem T :: t) w /\
    w2 = set_trace (fun t => GetKnowledgeBase kb_id :: KbGetItem T :: t) w1.
Proof.
  intros Hrec Hid [pk Hpk] Hf1 Hf2.
  assert (Hrun : forall w0, user_kb_table w0 = user_kb_table w ->
                            knowledge_bases w0 = knowledge_bases w ->
            KnowledgeBaseManager.get_or_create_user_kb env T w0
            = (Ok item, set_trace (fun t => GetKnowledgeBase kb_id :: KbGetItem T :: t) w0)).
  { intros w0 Hu Hk.
    unfold KnowledgeBaseManager.get_or_create_user_kb,
      KnowledgeBaseManager._get_user_kb_from_db,
      KnowledgeBaseManager._verify_kb_exists, kb_get_item, get_knowledge_base.
    repeat (run_step || rewrite Hu || rewrite Hk). reflexivity. }
  eexists _, _. split; [apply Hrun; reflexivity|].
  split; [apply Hrun; reflexivity|]. repeat split; assumption.
Qed.

Lemma C1_witness :
  exists w1 w2,
    KnowledgeBaseManager.get_or_create_user_kb (demo_env no_fault) "u1" world_with_index
      = (Ok u1_kb, w1) /\
    KnowledgeBaseManager.get_or_create_user_kb (demo_env no_fault) "u1" w1 = (Ok u1_kb, w2) /\
    kb_knowledge_base_id u1_kb = Some "kb-0" /\
    w1 = set_trace (fun t => GetKnowledgeBase "kb-0" :: KbGetItem "u1" :: t) world_with_index /\
    w2 = set_trace (fun t => GetKnowledgeBase "kb-0" :: KbGetItem "u1" :: t) w1.
Proof.
  apply (C1_get_or_create_twice_same_index (demo_env no_fault) world_with_index
           "u1" "kb-0" u1_kb).
  - vm_compute. reflexivity.
  - reflexivity.
  - vm_compute. eexists. reflexivity.
  - reflexivity.
  - reflexivity.
Defined.

(** ** Deleting a document *)

(** C3. Deleting a document whose stored tenant differs from the caller
    fails: the call returns [False], reads the record and does nothing
    else, so the blob store and the documents table are as before; when
    the read itself succeeded, the error it logs is the ownership error. *)
Theorem C3_delete_foreign_document_refused
    (env : Env) (w : World) (D T : string) (item : DocItem) :
  documents_table w !! D = Some item ->
  user_id item <> Some T ->
  exists w',
    DocumentProcessor.delete_document env D T w = (Ok false, w') /\
    bucket w' = bucket w /\
    documents_table w' = documents_table w /\
    trace w' = DocGetItem D :: trace w /\
    (fault env (DocGetItem D) = None ->
     error_log w' =
       ("Document " ++ D ++ " does not belong to user " ++ T ++ ", belongs to "
        ++ Py.str_opt (user_id item)) :: error_log w).
Proof.
  intros Hdoc Hown.
  unfold DocumentProcessor.delete_document, DocumentProcessor.fetch_owned_document,
    doc_get_item.
  run. destruct (fault env (DocGetItem D)) as [e|] eqn:Hf; run.
  - eexists. split; [reflexivity|]. run. repeat split; try reflexivity. discriminate.
  - rewrite bool_decide_eq_false_2 by assumption. run.
    eexists. split; [reflexivity|]. run. repeat split; reflexivity.
Qed.

Lemma C3_witness :
  exists w',
    DocumentProcessor.delete_document (demo_env no_fault) "d1" "u1" world_foreign_doc
      = (Ok false, w') /\
    bucket w' = bucket world_foreign_doc /\
    documents_table w' = documents_table world_foreign_doc /\
    trace w' = DocGetItem "d1" :: trace world_foreign_doc /\
    (fault (demo_env no_fault) (DocGetItem "d1") = None ->
     error_log w' =
       ("Document " ++ "d1" ++ " does not belong to user " ++ "u1" ++ ", belongs to "
        ++ Py.str_opt (user_id foreign_doc)) :: error_log world_foreign_doc).
Proof.
  apply (C3_delete_foreign_document_refused (demo_env no_fault) world_foreign_doc
           "d1" "u1" foreign_doc).
  - vm_compute. reflexivity.
  - vm_compute. discriminate.
Defined.

(** C2. Deleting a document the caller owns removes its record and
    returns [True] whether or not the blob delete raises, and a resync
    ingestion job is requested for the tenant's index. The record read,
    the record delete and the read of the tenant's index record are the
    calls assumed to succeed; the blob delete and the job request itself
    may fail. *)
Theorem C2_delete_tolerates_blob_failure
    (env : Env) (w : World) (D T kb ds : string) (item : DocItem) (info : KbItem) :
  documents_table w !! D = Some item ->
  user_id item = Some T ->
  user_kb_table w !! T = Some info ->
  kb_knowledge_base_id info = Some kb -> kb <> "" ->
  kb_data_source_id info = Some ds -> ds <> "" ->
  fault env (DocGetItem D) = None ->
  fault env (DocDeleteItem D) = None ->
  fault env (KbGetItem T) = None ->
  exists w',
    DocumentProcessor.delete_document env D T w = (Ok true, w') /\
    documents_table w' !! D = None /\
    documents_table w' = delete D (documents_table w) /\
    exists earlier,
      trace w' = StartIngestionJob kb ds ("Sync after deleting document " ++ D)
                 :: KbGetItem T :: DocDeleteItem D :: earlier.
Proof.
  intros Hdoc Hown Hinfo Hkb Hkbne Hds Hdsne Hf1 Hf2 Hf3.
  unfold DocumentProcessor.delete_document, DocumentProcessor.fetch_owned_document,
    DocumentProcessor.trigger_sync_after_delete,
    doc_get_item, doc_delete_item, kb_get_item, s3_delete_object, start_ingestion_job.
  run. rewrite bool_decide_eq_true_2 by assumption. run.
  set (key := if Py.truthy (s3_key item) then s3_key item else s3Key item).
  destruct (Py.truthy key) eqn:Hkey; run.
  all: try destruct (fault env (S3DeleteObject (default "" key))) as [e|] eqn:Hs3; run.
  all: rewrite Hkb, Hds, !truthy_Some by assumption; run.
  all: destruct (fault env (StartIngestionJob kb ds
                    ("Sync after deleting document " ++ D))) as [e'|] eqn:Hsj; run.
  all: try (destruct (source_exists kb ds _) eqn:Hse; run).
  all: eexists; (split; [reflexivity|]); run.
  all: rewrite lookup_delete_eq; repeat split; eauto.
Qed.

Lemma C2_witness :
  fault (demo_env blob_delete_fails) (S3DeleteObject "docs/hu1/d1/a.pdf")
    = Some (ClientError "AccessDenied" "Access Denied") /\
  exists w',
    DocumentProcessor.delete_document (demo_env blob_delete_fails) "d1" "u1" world_own_doc
      = (Ok true, w') /\
    documents_table w' !! "d1" = None /\
    documents_table w' = delete "d1" (documents_table world_own_doc) /\
    exists earlier,
      trace w' = StartIngestionJob "kb-0" "ds-1" ("Sync after deleting document " ++ "d1")
                 :: KbGetItem "u1" :: DocDeleteItem "d1" :: earlier.
Proof.
  split; [reflexivity|].
  apply (C2_delete_tolerates_blob_failure (demo_env blob_delete_fails) world_own_doc
           "d1" "u1" "kb-0" "ds-1" own_doc u1_kb).
  - vm_compute. reflexivity.
  - reflexivity.
  - vm_compute. reflexivity.
  - reflexivity.
  - discriminate.
  - reflexivity.
  - discriminate.
  - reflexivity.
  - reflexivity.
  - reflexivity.
Defined.

(** ** Frame reasoning

    [frames P m]: whatever [m] returns or raises, the state it leaves is
    related by [P] to the state it started in. *)

Section FrameRules.

Context {S : Type} (P : S -> S -> Prop) `{!Frame P}.

Lemma frames_ret {A} (a : A) : frames P (ret a).
Proof. intros s. apply frame_refl. Qed.

Lemma frames_raise {A} (e : Exn) : frames P (@raise S A e).
Proof. intros s. apply frame_refl. Qed.

Lemma frames_bind {A B} (m : M S A) (k : A -> M S B) :
  frames P m -> (forall a, frames P (k a)) -> frames P (bind m k).
Proof.
  intros Hm Hk s. unfold bind. specialize (Hm s).
  destruct (m s) as [[a|e] s']; cbn in *; [|assumption].
  eapply frame_trans; [eassumption | apply Hk].
Qed.

Lemma frames_try {A} (m : M S A) (h : Exn -> M S A) :
  frames P m -> (forall e, frames P (h e)) -> frames P (try_ m h).
Proof.
  intros Hm Hh s. unfold try_. specialize (Hm s).
  destruct (m s) as [[a|e] s']; cbn in *; [assumption|].
  eapply frame_trans; [eassumption | apply Hh].
Qed.

Lemma frames_for_each {A} (xs : list A) (body : A -> M S unit) :
  (forall x, frames P (body x)) -> frames P (for_each xs body).
Proof.
  intros Hb. induction xs as [|x xs IH]; cbn [for_each].
  - apply frames_ret.
  - apply frames_bind; auto.
Qed.

Lemma frames_getitem {A} (k : string) (o : option A) : frames P (getitem k o).
Proof. destruct o; [apply frames_ret | apply frames_raise]. Qed.

End FrameRules.

#[export] Instance on_world_frame {L} (P : World -> World -> Prop) `{!Frame P} :
  Frame (@on_world L P).
Proof.
  split; unfold on_world.
  - intros s. apply frame_refl.
  - intros s1 s2 s3. apply frame_trans.
Qed.

Lemma frames_lift {L A} (P : World -> World -> Prop) (m : M World A) :
  frames P m -> frames (@on_world L P) (lift m).
Proof.
  intros Hm [l w]. unfold on_world, lift. specialize (Hm w).
  destruct (m w) as [r w']. exact Hm.
Qed.

Lemma frames_get_local {L} (P : World -> World -> Prop) `{!Frame P} :
  frames (@on_world L P) get_local.
Proof. intros [l w]. apply (frame_refl (P:=P)). Qed.

Lemma frames_set_local {L} (P : World -> World -> Prop) `{!Frame P} (l : L) :
  frames (on_world P) (set_local l).
Proof. intros [l0 w]. apply (frame_refl (P:=P)). Qed.

Lemma frames_with_local {L A} (P : World -> World -> Prop) (init : L)
    (m : M (L * World) A) :
  frames (on_world P) m -> frames P (with_local init m).
Proof.
  intros Hm w. unfold with_local. specialize (Hm (init, w)).
  destruct (m (init, w)) as [r [l w']]. exact Hm.
Qed.

Lemma frames_modify (P : World -> World -> Prop) (f : World -> World) :
  (forall w, P w (f w)) -> frames P (modify f).
Proof. intros Hf w. apply Hf. Qed.

Lemma frames_gets {A} (P : World -> World -> Prop) `{!Frame P} (f : World -> A) :
  frames P (gets f).
Proof. intros w. apply frame_refl. Qed.

Lemma frames_call {A} (P : World -> World -> Prop) `{!Frame P}
    (env : Env) (c : Call) (run : M World A) :
  (forall w, P w (set_trace (cons c) w)) -> frames P run -> frames P (call env c run).
Proof.
  intros Hc Hrun w. unfold call.
  destruct (fault env c); cbn [snd]; [apply Hc|].
  eapply frame_trans; [apply Hc | apply Hrun].
Qed.

(** *** The tenant-index table as a frame *)

#[export] Instance kb_untouched_frame : Frame kb_untouched.
Proof.
  split.
  - intros w. split; [reflexivity|]. exists []. split; reflexivity.
  - intros w1 w2 w3 [Hu1 (n1 & Ht1 & Hn1)] [Hu2 (n2 & Ht2 & Hn2)]. split.
    + congruence.
    + exists (n2 ++ n1)%list. split.
      * rewrite Ht2, Ht1. apply app_assoc.
      * rewrite forallb_app, Hn1, Hn2. reflexivity.
Qed.

(** *** Everything but the documents table as a frame *)

#[export] Instance only_documents_changed_frame : Frame only_documents_changed.
Proof.
  split.
  - intros w. repeat split.
  - intros w1 w2 w3 H12 H23. unfold only_documents_changed in *.
    repeat match goal with H : _ /\ _ |- _ => destruct H end.
    repeat split; congruence.
Qed.

(** One step of a run (a recorded call, a state update) respects the
    frame at hand. *)
Ltac frame_side :=
  intros ?;
  first
    [ solve [split; [reflexivity | exists []; split; reflexivity]]
    | solve [split; [reflexivity | eexists [_]; split; reflexivity]]
    | solve [repeat split] ].

Ltac frame_step :=
  lazymatch goal with
  | |- Frame _ => exact _
  | |- forall _, _ => intros ?
  | |- frames _ (match ?x with _ => _ end) => destruct x
  | |- _ =>
      first
        [ solve [auto 2]
        | apply frames_ret
        | apply frames_raise
        | apply frames_getitem
        | apply frames_gets
        | apply frames_get_local
        | apply frames_set_local
        | apply frames_modify; frame_side
        | apply frames_call; [| frame_side |]
        | apply frames_bind
        | apply frames_try
        | apply frames_for_each
        | apply frames_lift
        | apply frames_with_local ]
  end.

Ltac frame_solve := repeat frame_step.

Section KbFrames.

Variable env : Env.

Lemma kb_untouched_logger_error msg : frames kb_untouched (logger_error msg).
Proof. unfold logger_error. frame_solve. Qed.

Lemma kb_untouched_utcnow : frames kb_untouched (utcnow env).
Proof. unfold utcnow. frame_solve. Qed.


Lemma kb_untouched_doc_update_item id f :
  frames kb_untouched (doc_update_item env id f).
Proof. unfold doc_update_item. frame_solve. Qed.



Lemma kb_untouched_check_ingestion_status uid :
  frames kb_untouched (KnowledgeBaseManager.check_ingestion_status env uid).
Proof.
  unfold KnowledgeBaseManager.check_ingestion_status,
    KnowledgeBaseManager._get_user_kb_from_db, KnowledgeBaseManager.reconcile_job,
    KnowledgeBaseManager.update_scanned, kb_get_item, list_ingestion_jobs, doc_scan.
  pose proof kb_untouched_doc_update_item.
  pose proof kb_untouched_utcnow.
  pose proof kb_untouched_logger_error.
  frame_solve; auto.
Qed.



End KbFrames.

(** ** Uploading a document *)

(** The fast check for an existing, verified index: two reads. *)
Lemma get_existing_user_kb_verified
    (env : Env) (w : World) (T kb : string) (info : KbItem) :
  user_kb_table w !! T = Some info ->
  kb_knowledge_base_id info = Some kb ->
  is_Some (knowledge_bases w !! kb) ->
  fault env (KbGetItem T) = None ->
  fault env (GetKnowledgeBase kb) = None ->
  DocumentProcessor._get_existing_user_kb env T w
  = (Ok (Some info), set_trace (fun t => GetKnowledgeBase kb :: KbGetItem T :: t) w).
Proof.
  intros Hrec Hid [pk Hpk] Hf1 Hf2.
  unfold DocumentProcessor._get_existing_user_kb, DocumentProcessor._verify_kb_exists,
    kb_get_item, get_knowledge_base.
  run. reflexivity.
Qed.



(** Whether [start_ingestion_job] raises, and what, depends on the fault
    plan and on the provider's resources only. *)
Lemma start_ingestion_job_raises
    (env : Env) (kb ds desc : string) (w w0 : World) (e : Exn) :
  knowledge_bases w0 = knowledge_bases w ->
  data_sources w0 = data_sources w ->
  fst (start_ingestion_job env kb ds desc w) = Raise e ->
  start_ingestion_job env kb ds desc w0
  = (Raise e, set_trace (cons (StartIngestionJob kb ds desc)) w0).
Proof.
  intros Hk Hd. unfold start_ingestion_job. run.
  destruct (fault env (StartIngestionJob kb ds desc)) as [e0|]; run.
  - intros [= ->]. reflexivity.
  - unfold source_exists. run. rewrite Hk, Hd.
    destruct (data_sources w !! ds) as [p|]; run.
    + destruct (bool_decide (pds_kb p = kb) && bool_decide (is_Some (knowledge_bases w !! kb)));
        run; [discriminate | intros [= <-]; reflexivity].
    + intros [= <-]. reflexivity.
Qed.

(** C8. On the fast path, when the provider's start-ingestion-job call
    fails with an error [e], the new document's record ends with
    [sync_status = 'failed'] and [error_message = str(e)], and
    [process_document] still returns a successful response for the upload
    (with [sync_status] "processing"). The reads of the tenant's index, the
    blob write and the writes of the new record are the calls assumed to
    succeed. *)
Theorem C8_ingestion_failure_does_not_fail_upload
    (env : Env) (w : World) (content fname T kb ds uhash D : string)
    (info : KbItem) (e : Exn) :
  D = uuid4 env (uuid_seed w) ->
  user_kb_table w !! T = Some info ->
  kb_knowledge_base_id info = Some kb ->
  kb_data_source_id info = Some ds ->
  user_hash info = Some uhash ->
  is_Some (knowledge_bases w !! kb) ->
  fault env (KbGetItem T) = None ->
  fault env (GetKnowledgeBase kb) = None ->
  fault env (S3PutObject ("docs/" ++ uhash ++ "/" ++ D ++ "/" ++ fname)) = None ->
  fault env (DocPutItem D) = None ->
  fault env (DocUpdateItem D) = None ->
  fst (start_ingestion_job env kb ds ("Ingestion for document " ++ D) w) = Raise e ->
  exists r w' d,
    DocumentProcessor.process_document env content fname T w = (Ok r, w') /\
    up_success r = true /\
    up_documentId r = Some D /\
    up_sync_status r = Some "processing" /\
    documents_table w' !! D = Some d /\
    user_id d = Some T /\
    sync_status d = Some "failed" /\
    error_message d = Some (str_exn e).
Proof.
  intros HD Hrec Hkb Hds Hhash Hpk Hf1 Hf2 Hf3 Hf4 Hf5 Hstart.
  unfold DocumentProcessor.process_document.
  unfold try_ at 1. unfold bind at 1. unfold fresh_uuid at 1. unfold bind at 1.
  rewrite <- HD.
  rewrite (get_existing_user_kb_verified env (set_uuid_seed S w) T kb info) by assumption.
  unfold DocumentProcessor._process_with_existing_kb,
    DocumentProcessor._trigger_kb_ingestion, s3_put_object, doc_put_item, doc_update_item.
  run.
  match goal with
  | |- context [start_ingestion_job env kb ds ?d ?w0] =>
      rewrite (start_ingestion_job_raises env kb ds d w w0 e) by (assumption || reflexivity)
  end.
  run.
  eexists _, _, _. split; [reflexivity|]. run.
  unfold upsert_doc. rewrite lookup_insert_eq, lookup_insert_eq.
  repeat split; reflexivity.
Qed.

Lemma C8_witness :
  exists r w' d,
    DocumentProcessor.process_document (demo_env start_job_fails)
      "hello" "notes.txt" "u1" world_with_index = (Ok r, w') /\
    up_success r = true /\
    up_documentId r = Some "doc-0" /\
    up_sync_status r = Some "processing" /\
    documents_table w' !! "doc-0" = Some d /\
    user_id d = Some "u1" /\
    sync_status d = Some "failed" /\
    error_message d = Some "An error occurred (ThrottlingException): Rate exceeded".
Proof.
  apply (C8_ingestion_failure_does_not_fail_upload (demo_env start_job_fails)
           world_with_index "hello" "notes.txt" "u1" "kb-0" "ds-1" "hu1" "doc-0" u1_kb
           (ServiceError "ThrottlingException" "Rate exceeded")).
  - reflexivity.
  - vm_compute. reflexivity.
  - reflexivity.
  - reflexivity.
  - reflexivity.
  - vm_compute. eexists. reflexivity.
  - reflexivity.
  - reflexivity.
  - reflexivity.
  - reflexivity.
  - reflexivity.
  - vm_compute. reflexivity.
Defined.

(** ** Reading a sync status *)

Lemma calls_since_app (w w' : World) (new : list Call) :
  trace w' = (new ++ trace w)%list -> calls_since w w' = new.
Proof.
  intros H. unfold calls_since. rewrite H, length_app.
  replace (length new + length (trace w) - length (trace w)) with (length new) by lia.
  apply take_app_length.
Qed.

Lemma kb_untouched_reconcile_handler (env : Env) (uid : string) :
  frames kb_untouched (KnowledgeBaseManager.lambda_handler env (reconcile_request uid)).
Proof.
  unfold KnowledgeBaseManager.lambda_handler, reconcile_request.
  cbn [operation ev_user_id].
  pose proof (kb_untouched_check_ingestion_status env).
  pose proof kb_untouched_logger_error.
  frame_solve.
Qed.

(** The refresh always returns, and the invocation of the reconciler is
    the first call it makes. *)
Lemma refresh_status_invokes
    (env : Env) (D T st : string) (doc : DocItem) (w : World) :
  exists r w' later,
    DocumentProcessor.refresh_status env D T doc st w = (Ok r, w') /\
    trace w' = (later ++ LambdaInvoke RequestResponse (reconcile_request T) :: trace w)%list.
Proof.
  unfold DocumentProcessor.refresh_status, DocumentProcessor.lambda_invoke, doc_get_item.
  fold (reconcile_request T). run.
  destruct (fault env (LambdaInvoke RequestResponse (reconcile_request T))) as [e|]; run.
  - eexists _, _, []. split; reflexivity.
  - set (w1 := set_trace _ w).
    pose proof (kb_untouched_reconcile_handler env T w1) as [_ (new & Hnew & _)].
    destruct (KnowledgeBaseManager.lambda_handler env (reconcile_request T) w1)
      as [[r|e] w2]; cbn [snd] in Hnew; run.
    + destruct (fault env (DocGetItem D)) as [e|]; run.
      * eexists _, _, (DocGetItem D :: new). split; [reflexivity|]. run.
        rewrite Hnew. reflexivity.
      * destruct (documents_table w2 !! D); run.
        all: eexists _, _, (DocGetItem D :: new); (split; [reflexivity|]); run.
        all: rewrite Hnew; reflexivity.
    + eexists _, _, new. split; [reflexivity|]. exact Hnew.
Qed.

(** C7, as the code has it. For a document the caller owns,
    [get_sync_status] invokes the reconciler exactly when the stored
    [sync_status] is 'processing': then the invocation is the second call
    it makes, right after reading the record and before the status is
    returned; for any other status, 'syncing' and
    'creating_knowledge_base' included, the read of the record is the only
    call and the stored status is returned. *)
Theorem C7_status_check_reconciles_processing_only
    (env : Env) (w : World) (D T : string) (item : DocItem) :
  documents_table w !! D = Some item ->
  user_id item = Some T ->
  fault env (DocGetItem D) = None ->
  let st := default "unknown" (sync_status item) in
  let w' := snd (DocumentProcessor.get_sync_status env D T w) in
  reconciler_invoked T w w' = String.eqb st "processing" /\
  (st = "processing" ->
   exists later,
     calls_since w w'
     = (later ++ [LambdaInvoke RequestResponse (reconcile_request T); DocGetItem D])%list) /\
  (st <> "processing" ->
   DocumentProcessor.get_sync_status env D T w
   = (Ok (SyncOk st (default "" (message item)) (default "" (last_modified item))),
      set_trace (cons (DocGetItem D)) w)).
Proof.
  intros Hdoc Hown Hf st w'.
  assert (Hrun : DocumentProcessor.get_sync_status env D T w =
    let w1 := set_trace (cons (DocGetItem D)) w in
    if String.eqb st "processing"
    then match DocumentProcessor.refresh_status env D T item st w1 with
         | (Ok (d, s), w2) =>
             (Ok (SyncOk s (default "" (message d)) (default "" (last_modified d))), w2)
         | (Raise e, w2) =>
             (Ok (SyncFailure ("Error getting sync status: " ++ str_exn e)),
              set_error_log (cons ("Error getting sync status: " ++ str_exn e)) w2)
         end
    else (Ok (SyncOk st (default "" (message item)) (default "" (last_modified item))), w1)).
  { unfold DocumentProcessor.get_sync_status, doc_get_item. run.
    rewrite bool_decide_eq_true_2 by assumption. run. fold st.
    destruct (String.eqb st "processing"); run; [|reflexivity].
    destruct (DocumentProcessor.refresh_status env D T item st _) as [[[d s]|e] w2];
      reflexivity. }
  destruct (String.eqb_spec st "processing") as [Hst|Hst].
  - assert (Hcalls : exists later, calls_since w w'
      = (later ++ [LambdaInvoke RequestResponse (reconcile_request T); DocGetItem D])%list).
    { subst w'. rewrite Hrun. cbv zeta.
      destruct (refresh_status_invokes env D T st item (set_trace (cons (DocGetItem D)) w))
        as ([d s] & w2 & later & -> & Ht).
      exists later. apply calls_since_app. cbn [snd]. rewrite Ht. cbn [trace set_trace].
      rewrite <- app_assoc. reflexivity. }
    split; [|split]; [|intros _; exact Hcalls|congruence].
    unfold reconciler_invoked. destruct Hcalls as [later ->].
    rewrite existsb_app. cbn. rewrite String.eqb_refl. apply orb_true_r.
  - split; [|split]; [|congruence|intros _; rewrite Hrun; reflexivity].
    subst w'. rewrite Hrun. cbv zeta. unfold reconciler_invoked.
    rewrite (calls_since_app _ _ [DocGetItem D]) by reflexivity. reflexivity.
Qed.

(** C7, the statement for every non-terminal status, fails: a document in
    status 'syncing' (neither 'completed' nor 'failed') owned by the
    caller, whose job the provider has completed; [get_sync_status] does
    not invoke the reconciler and returns 'syncing'. *)
Lemma C7_syncing_not_reconciled :
  let w := world_job "syncing" "COMPLETE" None in
  documents_table w !! "d1" = Some (doc_in_job "syncing") /\
  user_id (doc_in_job "syncing") = Some "u1" /\
  sync_status (doc_in_job "syncing") = Some "syncing" /\
  "syncing" <> "completed" /\ "syncing" <> "failed" /\
  reconciler_invoked "u1" w
    (snd (DocumentProcessor.get_sync_status (demo_env no_fault) "d1" "u1" w)) = false /\
  fst (DocumentProcessor.get_sync_status (demo_env no_fault) "d1" "u1" w)
  = Ok (SyncOk "syncing" "" "T61").
Proof.
  cbv zeta. split; [vm_compute; reflexivity|].
  repeat split; try discriminate; vm_compute; reflexivity.
Qed.

Lemma C7_witness :
  let w := world_job "processing" "COMPLETE" None in
  let st := default "unknown" (sync_status (doc_in_job "processing")) in
  let w' := snd (DocumentProcessor.get_sync_status (demo_env no_fault) "d1" "u1" w) in
  reconciler_invoked "u1" w w' = String.eqb st "processing" /\
  (st = "processing" ->
   exists later,
     calls_since w w'
     = (later ++ [LambdaInvoke RequestResponse (reconcile_request "u1"); DocGetItem "d1"])%list) /\
  (st <> "processing" ->
   DocumentProcessor.get_sync_status (demo_env no_fault) "d1" "u1" w
   = (Ok (SyncOk st (default "" (message (doc_in_job "processing")))
                 (default "" (last_modified (doc_in_job "processing")))),
      set_trace (cons (DocGetItem "d1")) w)).
Proof.
  apply (C7_status_check_reconciles_processing_only (demo_env no_fault)
           (world_job "processing" "COMPLETE" None) "d1" "u1" (doc_in_job "processing")).
  - vm_compute. reflexivity.
  - reflexivity.
  - reflexivity.
Defined.

(** ** The ingestion reconciler on examples *)

(** C5, at a failing input. The provider reports job [job-2] as FAILED
    with a failure reason; the tenant's document references that job and
    is 'processing'. The reconciler sets it to 'failed', but the reason is
    not copied: [error_message] stays absent and [message] is a fixed
    text. The per-document refresh [_update_ingestion_status] of the
    document processor, on the same input, does store the reason. *)
Theorem C5_failure_reason_not_copied :
  let w := world_job "processing" "FAILED" (Some ["Source file is corrupt"]) in
  let w' := snd (KnowledgeBaseManager.check_ingestion_status (demo_env no_fault) "u1" w) in
  let w'' := snd (DocumentProcessor._update_ingestion_status (demo_env no_fault) "d1"
                    (doc_in_job "processing") w) in
  fst (KnowledgeBaseManager.check_ingestion_status (demo_env no_fault) "u1" w)
    = Ok (CheckOk 0 "Updated 0 document statuses") /\
  sync_status <$> (documents_table w' !! "d1") = Some (Some "failed") /\
  error_message <$> (documents_table w' !! "d1") = Some None /\
  message <$> (documents_table w' !! "d1") = Some (Some "Knowledge Base ingestion failed") /\
  error_message <$> (documents_table w'' !! "d1") = Some (Some "Source file is corrupt").
Proof. cbv zeta. repeat split; vm_compute; reflexivity. Qed.

(** ** The pending-upload migrator on examples *)

(** C4, at a failing input. Two blobs are pending and the copy of the
    first one fails. The second one is still migrated and exactly one
    ingestion job is started, but [document_count] goes from 0 to 2, the
    number of blobs listed, although one document was migrated. *)
Theorem C4_counter_adds_listed_not_migrated :
  let env := demo_env copy_of_d1_fails in
  let w := world_two_pending in
  let w' := snd (KnowledgeBaseManager._process_pending_documents env "u1" u1_kb w) in
  document_count <$> (user_kb_table w !! "u1") = Some (Some 0) /\
  count_calls is_start_ingestion_job w w' = 1 /\
  s3_key <$> (documents_table w' !! "d1") = Some (Some "pending/u1/d1/a.pdf") /\
  sync_status <$> (documents_table w' !! "d1") = Some (Some "creating_knowledge_base") /\
  is_Some (bucket w' !! "pending/u1/d1/a.pdf") /\
  bucket w' !! "docs/hu1/d1/a.pdf" = None /\
  s3_key <$> (documents_table w' !! "d2") = Some (Some "docs/hu1/d2/b.pdf") /\
  sync_status <$> (documents_table w' !! "d2") = Some (Some "ready_for_ingestion") /\
  is_Some (bucket w' !! "docs/hu1/d2/b.pdf") /\
  bucket w' !! "pending/u1/d2/b.pdf" = None /\
  document_count <$> (user_kb_table w' !! "u1") = Some (Some 2).
Proof.
  cbv zeta. repeat split; try (vm_compute; reflexivity); vm_compute; eexists; reflexivity.
Qed.

(** The same without any fault: an object directly under the pending
    prefix has no document id in its key; it is skipped, and counted. *)
Example migrator_counts_skipped_object :
  let w := set_bucket (insert "pending/u1/readme.txt" (mkObj "r" "text/plain" []))
             world_with_index in
  let w' := snd (KnowledgeBaseManager._process_pending_documents
                   (demo_env no_fault) "u1" u1_kb w) in
  is_Some (bucket w' !! "pending/u1/readme.txt") /\
  document_count <$> (user_kb_table w' !! "u1") = Some (Some 1).
Proof. cbv zeta. split; vm_compute; [eexists|]; reflexivity. Qed.

(** ** The documents table under the reconciler's updates *)

Lemma sync_status_mark ts st msg d : sync_status (mark ts st msg d) = Some st.
Proof. reflexivity. Qed.

Lemma scan_keys_spec (job_id : string) (statuses : list string)
    (t : gmap string DocItem) (k : string) :
  k ∈ scan_keys job_id statuses t <->
  exists d, t !! k = Some d /\ scan_filter job_id statuses d = true.
Proof.
  unfold scan_keys.
  rewrite list_elem_of_In, filter_In, <- list_elem_of_In, elem_of_elements, elem_of_dom.
  split.
  - intros [[d Hd] Hf]. rewrite Hd in Hf. eauto.
  - intros (d & Hd & Hf). rewrite Hd. split; [eauto | exact Hf].
Qed.

Lemma NoDup_list_filter {A} (p : A -> bool) (l : list A) :
  NoDup l -> NoDup (List.filter p l).
Proof.
  induction l as [|x l IH]; cbn; [auto|].
  intros Hnd. apply NoDup_cons in Hnd as [Hx Hl].
  destruct (p x); [|auto].
  apply NoDup_cons. split; [|auto].
  intros Hin. apply Hx. apply list_elem_of_In, filter_In in Hin as [Hin _].
  apply list_elem_of_In. exact Hin.
Qed.

Lemma NoDup_scan_keys (job_id : string) (statuses : list string)
    (t : gmap string DocItem) :
  NoDup (scan_keys job_id statuses t).
Proof. apply NoDup_list_filter, NoDup_elements. Qed.

Lemma mark_all_cons (f : DocItem -> DocItem) (id : string) (ids : list string)
    (t : gmap string DocItem) :
  mark_all f (id :: ids) t = mark_all f ids (upsert_doc id f t).
Proof. reflexivity. Qed.

Lemma mark_all_lookup (f : DocItem -> DocItem) (ids : list string)
    (t : gmap string DocItem) (k : string) :
  NoDup ids ->
  mark_all f ids t !! k
  = if decide (k ∈ ids) then Some (f (default empty_doc (t !! k))) else t !! k.
Proof.
  revert t. induction ids as [|id ids IH]; intros t Hnd.
  - reflexivity.
  - apply NoDup_cons in Hnd as [Hid Hnd].
    rewrite mark_all_cons, IH by assumption. unfold upsert_doc.
    destruct (decide (k ∈ ids)) as [Hin|Hin].
    + assert (id <> k) by (intros ->; contradiction).
      rewrite lookup_insert_ne by assumption.
      rewrite decide_True by (right; assumption). reflexivity.
    + destruct (decide (k = id)) as [->|Hne].
      * rewrite lookup_insert_eq. rewrite decide_True by left. reflexivity.
      * rewrite lookup_insert_ne by congruence.
        rewrite decide_False; [reflexivity|].
        rewrite elem_of_cons. tauto.
Qed.

(** Marking documents that exist adds no key. *)
Lemma dom_mark_all (f : DocItem -> DocItem) (ids : list string)
    (t : gmap string DocItem) :
  (forall k, k ∈ ids -> is_Some (t !! k)) ->
  dom (mark_all f ids t) = dom t.
Proof.
  revert t. induction ids as [|id ids IH]; intros t Hin.
  - reflexivity.
  - rewrite mark_all_cons, IH.
    + unfold upsert_doc. apply dom_insert_lookup_L. apply Hin. left.
    + intros k Hk. unfold upsert_doc. rewrite lookup_insert_is_Some.
      destruct (decide (id = k)); [left; assumption | right].
      split; [assumption|]. apply Hin. right. exact Hk.
Qed.

Lemma nonterminal_processing_syncing : nonterminal_statuses ["processing"; "syncing"].
Proof.
  intros s Hs. rewrite !elem_of_cons in Hs.
  destruct Hs as [->|[->|Hs]]; [split; discriminate | split; discriminate | inversion Hs].
Qed.

Lemma nonterminal_processing : nonterminal_statuses ["processing"].
Proof.
  intros s Hs. rewrite !elem_of_cons in Hs.
  destruct Hs as [->|Hs]; [split; discriminate | inversion Hs].
Qed.

Lemma scan_filter_status (job_id : string) (statuses : list string) (d : DocItem) :
  scan_filter job_id statuses d = true ->
  exists s, sync_status d = Some s /\ s ∈ statuses.
Proof.
  unfold scan_filter. intros H. apply andb_true_iff in H as [_ H].
  destruct (sync_status d) as [s|]; [|discriminate].
  exists s. split; [reflexivity|]. apply bool_decide_eq_true in H. exact H.
Qed.

Lemma scan_filter_terminal (job_id : string) (statuses : list string) (d : DocItem) :
  nonterminal_statuses statuses -> terminal d -> scan_filter job_id statuses d = false.
Proof.
  intros Hst Hd. destruct (scan_filter job_id statuses d) eqn:E; [|reflexivity].
  apply scan_filter_status in E as (s & Hs & Hin). apply Hst in Hin as [H1 H2].
  destruct Hd as [Hd|Hd]; congruence.
Qed.

Lemma filter_andb {A} (q p : A -> bool) (l : list A) :
  List.filter (fun x => q x && p x) l = List.filter q (List.filter p l).
Proof.
  induction l as [|x l IH]; cbn; [reflexivity|].
  destruct (p x); cbn.
  - rewrite andb_true_r. destruct (q x); rewrite IH; reflexivity.
  - rewrite andb_false_r. exact IH.
Qed.

Lemma filter_none {A} (p : A -> bool) (l : list A) :
  (forall x, x ∈ l -> p x = false) -> List.filter p l = [].
Proof.
  induction l as [|x l IH]; intros H; cbn; [reflexivity|].
  rewrite (H x) by left. apply IH. intros y Hy. apply H. right. exact Hy.
Qed.

Lemma filter_all {A} (p : A -> bool) (l : list A) :
  (forall x, x ∈ l -> p x = true) -> List.filter p l = l.
Proof.
  induction l as [|x l IH]; intros H; cbn; [reflexivity|].
  rewrite (H x) by left. f_equal. apply IH. intros y Hy. apply H. right. exact Hy.
Qed.

(** After marking some documents with a terminal status, a scan returns
    what it returned before, without the marked ones and in the same
    order. *)
Lemma scan_keys_mark_all (ts st msg job_id : string) (statuses ids : list string)
    (t : gmap string DocItem) :
  nonterminal_statuses statuses ->
  st = "completed" \/ st = "failed" ->
  NoDup ids ->
  (forall k, k ∈ ids -> is_Some (t !! k)) ->
  scan_keys job_id statuses (mark_all (mark ts st msg) ids t)
  = List.filter (fun k => negb (bool_decide (k ∈ ids))) (scan_keys job_id statuses t).
Proof.
  intros Hst Hterm Hnd Hin. unfold scan_keys.
  rewrite dom_mark_all by assumption. rewrite <- filter_andb.
  apply filter_ext_in. intros k _. rewrite mark_all_lookup by assumption.
  destruct (decide (k ∈ ids)) as [Hk|Hk].
  - rewrite bool_decide_eq_true_2 by assumption. cbn.
    apply scan_filter_terminal; [assumption|].
    unfold terminal. rewrite sync_status_mark. destruct Hterm; subst; auto.
  - rewrite bool_decide_eq_false_2 by assumption. reflexivity.
Qed.

Lemma filter_notin_app (done rest : list string) :
  NoDup (done ++ rest) ->
  List.filter (fun k => negb (bool_decide (k ∈ done))) (done ++ rest) = rest.
Proof.
  intros Hnd. apply NoDup_app in Hnd as (_ & Hdisj & _).
  rewrite List.filter_app, filter_none, filter_all; [reflexivity| |].
  - intros k Hk. rewrite bool_decide_eq_false_2; [reflexivity|].
    intros Hd. exact (Hdisj k Hd Hk).
  - intros k Hk. rewrite bool_decide_eq_true_2 by assumption. reflexivity.
Qed.

(** Documents in a terminal status are not touched by marking scanned
    documents. *)
Lemma terminal_kept_mark_all (f : DocItem -> DocItem) (job_id : string)
    (statuses done rest : list string) (t : gmap string DocItem) (k : string) (d : DocItem) :
  nonterminal_statuses statuses ->
  scan_keys job_id statuses t = (done ++ rest)%list ->
  t !! k = Some d -> terminal d ->
  mark_all f done t !! k = Some d.
Proof.
  intros Hst Hscan Hd Hterm.
  assert (Hnd : NoDup done).
  { pose proof (NoDup_scan_keys job_id statuses t) as H. rewrite Hscan in H.
    apply NoDup_app in H. tauto. }
  rewrite mark_all_lookup by assumption.
  rewrite decide_False; [assumption|].
  intros Hin.
  assert (Hk : k ∈ scan_keys job_id statuses t).
  { rewrite Hscan, elem_of_app. auto. }
  apply scan_keys_spec in Hk as (d' & Hd' & Hf).
  rewrite Hd in Hd'. injection Hd' as <-.
  rewrite scan_filter_terminal in Hf by assumption. discriminate.
Qed.

Lemma completed_count_upsert (f : DocItem -> DocItem) (k : string) (d : DocItem)
    (t : gmap string DocItem) :
  t !! k = Some d ->
  sync_status d <> Some "completed" ->
  completed_count (upsert_doc k f t)
  = completed_count t + (if decide (sync_status (f d) = Some "completed") then 1 else 0).
Proof.
  intros Hk Hd. unfold completed_count, upsert_doc. rewrite Hk. cbn [default from_option id].
  assert (Hnone : filter is_completed t !! k = None).
  { apply map_lookup_filter_None. right. intros x Hx. rewrite Hk in Hx.
    injection Hx as <-. exact Hd. }
  destruct (decide (sync_status (f d) = Some "completed")) as [Hc|Hc].
  - rewrite map_filter_insert_True by exact Hc.
    rewrite map_size_insert_None by exact Hnone. lia.
  - rewrite map_filter_insert_False by exact Hc.
    rewrite map_filter_delete, delete_id by exact Hnone. lia.
Qed.

Lemma completed_count_mark_all (ts st msg : string) (done : list string)
    (t : gmap string DocItem) :
  NoDup done ->
  (forall k, k ∈ done -> exists d, t !! k = Some d /\ sync_status d <> Some "completed") ->
  completed_count (mark_all (mark ts st msg) done t)
  = completed_count t + (if decide (st = "completed") then length done else 0).
Proof.
  revert t. induction done as [|id done IH]; intros t Hnd Hin.
  - cbn. destruct (decide (st = "completed")); lia.
  - apply NoDup_cons in Hnd as [Hid Hnd]. rewrite mark_all_cons.
    destruct (Hin id) as (d & Hd & Hnc); [left|].
    rewrite IH; [|assumption|].
    + rewrite (completed_count_upsert _ id d) by assumption.
      rewrite sync_status_mark.
      destruct (decide (st = "completed")) as [->|Hne].
      * rewrite decide_True by reflexivity. cbn [length]. lia.
      * rewrite decide_False by congruence. lia.
    + intros k Hk. destruct (Hin k) as (d' & Hd' & Hnc'); [right; assumption|].
      exists d'. split; [|assumption].
      unfold upsert_doc. rewrite lookup_insert_ne; [assumption|].
      intros ->. contradiction.
Qed.

(** ** The reconciler's loops *)

Section Reconciler.

Variable env : Env.

(** The loop over scanned documents, one step. *)
Lemma update_scanned_cons (counted : bool) (st msg id : string) (items : list string)
    (c : nat) (w : World) :
  KnowledgeBaseManager.update_scanned env counted st msg (id :: items) (c, w)
  = match fault env (DocUpdateItem id) with
    | Some e => (Raise e, (c, set_trace (cons (DocUpdateItem id)) w))
    | None =>
        KnowledgeBaseManager.update_scanned env counted st msg items
          (if counted then c + 1 else c,
           set_documents_table (upsert_doc id (mark (isoformat env (now w)) st msg))
             (set_trace (cons (DocUpdateItem id)) w))
    end.
Proof.
  unfold KnowledgeBaseManager.update_scanned.
  set (body := fun document_id : string => _).
  cbn [for_each]. unfold bind at 1.
  assert (Hb : body id (c, w)
    = match fault env (DocUpdateItem id) with
      | Some e => (Raise e, (c, set_trace (cons (DocUpdateItem id)) w))
      | None =>
          (Ok tt,
           (if counted then c + 1 else c,
            set_documents_table (upsert_doc id (mark (isoformat env (now w)) st msg))
              (set_trace (cons (DocUpdateItem id)) w)))
      end).
  { subst body. unfold doc_update_item. run.
    destruct (fault env (DocUpdateItem id)); run; [reflexivity|].
    destruct counted; reflexivity. }
  rewrite Hb. destruct (fault env (DocUpdateItem id)); reflexivity.
Qed.

Lemma update_scanned_nil (counted : bool) (st msg : string) (s : nat * World) :
  KnowledgeBaseManager.update_scanned env counted st msg [] s = (Ok tt, s).
Proof. reflexivity. Qed.

(** The loop over scanned documents: it marks a prefix [done] of the
    items, whose updates all succeed, and stops at the first update that
    raises. *)
Lemma update_scanned_spec (counted : bool) (st msg : string) (items : list string) :
  forall (c : nat) (w : World),
  exists done rest r w',
    KnowledgeBaseManager.update_scanned env counted st msg items (c, w)
      = (r, (if counted then c + length done else c, w')) /\
    items = (done ++ rest)%list /\
    (forall id, id ∈ done -> fault env (DocUpdateItem id) = None) /\
    match r with
    | Ok _ => rest = []
    | Raise e => exists id rest', rest = id :: rest' /\ fault env (DocUpdateItem id) = Some e
    end /\
    documents_table w'
      = mark_all (mark (isoformat env (now w)) st msg) done (documents_table w) /\
    only_documents_changed w w'.
Proof.
  induction items as [|id items IH]; intros c w.
  - exists [], [], (Ok tt), w. rewrite update_scanned_nil.
    split; [destruct counted; [rewrite Nat.add_0_r|]; reflexivity|].
    split; [reflexivity|]. split; [intros id Hid; inversion Hid|].
    split; [reflexivity|]. split; [reflexivity | apply frame_refl].
  - rewrite update_scanned_cons.
    destruct (fault env (DocUpdateItem id)) as [e|] eqn:Hf.
    + exists [], (id :: items), (Raise e), (set_trace (cons (DocUpdateItem id)) w).
      split; [destruct counted; [rewrite Nat.add_0_r|]; reflexivity|].
      split; [reflexivity|]. split; [intros k Hk; inversion Hk|].
      split; [eauto|]. split; [reflexivity | repeat split].
    + destruct (IH (if counted then c + 1 else c)
                  (set_documents_table (upsert_doc id (mark (isoformat env (now w)) st msg))
                     (set_trace (cons (DocUpdateItem id)) w)))
        as (done & rest & r & w' & Hrun & Hitems & Hdone & Hrest & Hdocs & Hframe).
      exists (id :: done), rest, r, w'. rewrite Hrun.
      split; [|split; [|split; [|split; [|split]]]].
      * destruct counted; [|reflexivity]. cbn [length].
        replace (c + S (length done)) with (c + 1 + length done) by lia. reflexivity.
      * rewrite Hitems. reflexivity.
      * intros k Hk. apply elem_of_cons in Hk as [->|Hk]; auto.
      * exact Hrest.
      * rewrite Hdocs. reflexivity.
      * eapply frame_trans; [|exact Hframe]. repeat split.
Qed.

Lemma reconciled_same_documents (c : nat) (w w' : World) :
  only_documents_changed w w' ->
  documents_table w' = documents_table w ->
  reconciled env c w c w'.
Proof.
  intros Hframe Hdocs. unfold reconciled. rewrite Hdocs, Nat.sub_diag, Nat.add_0_r.
  repeat split; auto; apply Hframe.
Qed.

Lemma reconciled_trans (c1 c2 c3 : nat) (w1 w2 w3 : World) :
  reconciled env c1 w1 c2 w2 -> reconciled env c2 w2 c3 w3 -> reconciled env c1 w1 c3 w3.
Proof.
  intros (F1 & L1 & C1 & T1 & N1) (F2 & L2 & C2 & T2 & N2).
  split; [eapply frame_trans; eassumption|].
  split; [lia|]. split; [rewrite C2, C1; lia|]. split.
  - intros k d Hk Hd. apply T2; auto.
  - intros j sts Hst Hno. apply (N2 j sts Hst). apply (N1 j sts Hst). exact Hno.
Qed.

Lemma reconcile_job_branches (job : IngestionJob) :
  KnowledgeBaseManager.reconcile_job env job
  = if String.eqb (job_status job) "COMPLETE" then
      scan_and_mark env true ["processing"; "syncing"] "completed"
        "Document successfully indexed in Knowledge Base"
        (fun e => "Failed to update documents for job " ++ ingestionJobId job ++ ": "
                  ++ str_exn e)
        (ingestionJobId job)
    else if String.eqb (job_status job) "FAILED" then
      scan_and_mark env false ["processing"] "failed" "Knowledge Base ingestion failed"
        (fun e => "Failed to update failed documents for job " ++ ingestionJobId job
                  ++ ": " ++ str_exn e)
        (ingestionJobId job)
    else ret tt.
Proof. reflexivity. Qed.

(** A stuck scan stays stuck when documents whose update succeeds are
    marked with a terminal status. *)
Lemma stuck_mark_all (ts st msg job_id : string) (statuses done : list string)
    (t : gmap string DocItem) :
  nonterminal_statuses statuses ->
  st = "completed" \/ st = "failed" ->
  NoDup done ->
  (forall k, k ∈ done -> is_Some (t !! k)) ->
  (forall k, k ∈ done -> fault env (DocUpdateItem k) = None) ->
  stuck env job_id statuses t ->
  stuck env job_id statuses (mark_all (mark ts st msg) done t).
Proof.
  intros Hst Hterm Hnd Hin Hok. unfold stuck.
  rewrite scan_keys_mark_all by assumption.
  destruct (scan_keys job_id statuses t) as [|k l]; [trivial|].
  intros Hk. cbn [List.filter].
  rewrite bool_decide_eq_false_2; [exact Hk|].
  intros Hd. apply Hk, Hok, Hd.
Qed.

(** The scan that was just processed is stuck. *)
Lemma stuck_after_marking (ts st msg job_id : string) (statuses done rest : list string)
    (t : gmap string DocItem) :
  nonterminal_statuses statuses ->
  st = "completed" \/ st = "failed" ->
  scan_keys job_id statuses t = (done ++ rest)%list ->
  match rest with
  | [] => True
  | k :: _ => fault env (DocUpdateItem k) <> None
  end ->
  stuck env job_id statuses (mark_all (mark ts st msg) done t).
Proof.
  intros Hst Hterm Hscan Hrest. unfold stuck.
  pose proof (NoDup_scan_keys job_id statuses t) as Hnd. rewrite Hscan in Hnd.
  rewrite scan_keys_mark_all; [| assumption | assumption | |].
  - rewrite Hscan, filter_notin_app by assumption. exact Hrest.
  - apply NoDup_app in Hnd. tauto.
  - intros k Hk.
    assert (Hin : k ∈ scan_keys job_id statuses t) by (rewrite Hscan, elem_of_app; auto).
    apply scan_keys_spec in Hin as (d & Hd & _). eauto.
Qed.

Lemma scan_and_mark_spec (counted : bool) (statuses : list string)
    (st msg : string) (logtxt : Exn -> string) (job_id : string) (c : nat) (w : World) :
  nonterminal_statuses statuses ->
  st = "completed" \/ st = "failed" ->
  counted = bool_decide (st = "completed") ->
  exists c' w',
    scan_and_mark env counted statuses st msg logtxt job_id (c, w) = (Ok tt, (c', w')) /\
    reconciled env c w c' w' /\
    (fault env (DocScan job_id statuses) = None ->
     stuck env job_id statuses (documents_table w')).
Proof.
  intros Hst Hterm ->.
  unfold scan_and_mark, doc_scan. run.
  destruct (fault env (DocScan job_id statuses)) as [e|] eqn:Hscan; run.
  - eexists _, _. split; [reflexivity|]. split.
    + apply reconciled_same_documents; [repeat split | reflexivity].
    + intros [=].
  - set (w1 := set_trace (cons (DocScan job_id statuses)) w).
    set (items := scan_keys job_id statuses (documents_table w)).
    destruct (update_scanned_spec (bool_decide (st = "completed")) st msg items c w1)
      as (done & rest & r & w' & Hrun & Hitems & Hdone & Hrest & Hdocs & Hframe).
    rewrite Hrun.
    assert (Hnd : NoDup done).
    { pose proof (NoDup_scan_keys job_id statuses (documents_table w)) as H.
      fold items in H. rewrite Hitems in H. apply NoDup_app in H. tauto. }
    assert (Hmatched : forall k, k ∈ done ->
              exists d, documents_table w !! k = Some d /\
                        scan_filter job_id statuses d = true).
    { intros k Hk. apply scan_keys_spec. fold items. rewrite Hitems, elem_of_app. auto. }
    assert (Hrec : forall w2, only_documents_changed w' w2 ->
                     documents_table w2 = documents_table w' ->
                     reconciled env c w
                       (if bool_decide (st = "completed") then c + length done else c) w2).
    { intros w2 Hf2 Hd2. split; [|split; [|split; [|split]]].
      - eapply frame_trans; [|exact Hf2]. eapply frame_trans; [|exact Hframe].
        repeat split.
      - destruct (bool_decide (st = "completed")); lia.
      - rewrite Hd2, Hdocs. cbn [documents_table w1 set_trace].
        rewrite completed_count_mark_all; [|exact Hnd|].
        + destruct (decide (st = "completed")) as [Hc|Hc].
          * rewrite bool_decide_eq_true_2 by exact Hc. lia.
          * rewrite bool_decide_eq_false_2 by exact Hc. lia.
        + intros k Hk. destruct (Hmatched k Hk) as (d & Hd & Hf).
          exists d. split; [exact Hd|].
          apply scan_filter_status in Hf as (s & Hs & Hin). apply Hst in Hin as [H1 _].
          congruence.
      - intros k d Hk Hd. rewrite Hd2, Hdocs.
        eapply terminal_kept_mark_all; eauto.
      - intros j sts Hsts Hstuck. rewrite Hd2, Hdocs.
        apply stuck_mark_all; try assumption.
        intros k Hk. destruct (Hmatched k Hk) as (d & Hd & _). eauto. }
    assert (Hstuck : forall w2, documents_table w2 = documents_table w' ->
                       stuck env job_id statuses (documents_table w2)).
    { intros w2 Hd2. rewrite Hd2, Hdocs.
      apply (stuck_after_marking _ _ _ _ _ done rest); try assumption.
      destruct r as [u|e].
      - subst rest. exact I.
      - destruct Hrest as (id & rest' & -> & Hf). rewrite Hf. discriminate. }
    destruct r as [[]|e]; run.
    + eexists _, _. split; [reflexivity|]. split.
      * apply Hrec; [apply frame_refl | reflexivity].
      * intros _. apply Hstuck. reflexivity.
    + eexists _, _. split; [reflexivity|]. split.
      * apply Hrec; [repeat split | reflexivity].
      * intros _. apply Hstuck. reflexivity.
Qed.

Lemma reconcile_job_spec (job : IngestionJob) (c : nat) (w : World) :
  exists c' w',
    KnowledgeBaseManager.reconcile_job env job (c, w) = (Ok tt, (c', w')) /\
    reconciled env c w c' w' /\
    job_settled env job (documents_table w').
Proof.
  rewrite reconcile_job_branches.
  destruct (String.eqb_spec (job_status job) "COMPLETE") as [Hc|Hc].
  - destruct (scan_and_mark_spec true ["processing"; "syncing"] "completed"
                "Document successfully indexed in Knowledge Base"
                (fun e => "Failed to update documents for job " ++ ingestionJobId job
                          ++ ": " ++ str_exn e)
                (ingestionJobId job) c w)
      as (c' & w' & Hrun & Hrec & Hset);
      [apply nonterminal_processing_syncing | auto | reflexivity |].
    exists c', w'. split; [exact Hrun|]. split; [exact Hrec|].
    split; [auto|]. intros Hf. rewrite Hc in Hf. discriminate.
  - destruct (String.eqb_spec (job_status job) "FAILED") as [Hf|Hf].
    + destruct (scan_and_mark_spec false ["processing"] "failed"
                  "Knowledge Base ingestion failed"
                  (fun e => "Failed to update failed documents for job "
                            ++ ingestionJobId job ++ ": " ++ str_exn e)
                  (ingestionJobId job) c w)
        as (c' & w' & Hrun & Hrec & Hset);
        [apply nonterminal_processing | auto | reflexivity |].
      exists c', w'. split; [exact Hrun|]. split; [exact Hrec|].
      split; [contradiction | auto].
    + exists c, w. split; [reflexivity|]. split.
      * apply reconciled_same_documents; [apply frame_refl | reflexivity].
      * split; contradiction.
Qed.

Lemma job_settled_kept (job : IngestionJob) (c c' : nat) (w w' : World) :
  reconciled env c w c' w' ->
  job_settled env job (documents_table w) -> job_settled env job (documents_table w').
Proof.
  intros (_ & _ & _ & _ & Hkeep) [H1 H2]. split; intros Hs Hf.
  - apply Hkeep; [apply nonterminal_processing_syncing | auto].
  - apply Hkeep; [apply nonterminal_processing | auto].
Qed.

(** The loop over the job summaries always runs to its end, and leaves
    every job of the list settled. *)
Lemma reconcile_loop_spec (jobs : list IngestionJob) :
  forall (c : nat) (w : World),
  exists c' w',
    for_each jobs (KnowledgeBaseManager.reconcile_job env) (c, w) = (Ok tt, (c', w')) /\
    reconciled env c w c' w' /\
    (forall job, job ∈ jobs -> job_settled env job (documents_table w')).
Proof.
  induction jobs as [|job jobs IH]; intros c w.
  - exists c, w. split; [reflexivity|]. split.
    + apply reconciled_same_documents; [apply frame_refl | reflexivity].
    + intros job Hin. inversion Hin.
  - destruct (reconcile_job_spec job c w) as (c1 & w1 & Hrun1 & Hrec1 & Hset1).
    destruct (IH c1 w1) as (c2 & w2 & Hrun2 & Hrec2 & Hset2).
    exists c2, w2. split; [|split].
    + cbn [for_each]. unfold bind. rewrite Hrun1. exact Hrun2.
    + eapply reconciled_trans; eassumption.
    + intros j Hin. apply elem_of_cons in Hin as [->|Hin].
      * eapply job_settled_kept; [exact Hrec2 | auto].
      * auto.
Qed.

(** On a stuck scan the branch changes no document and counts nothing. *)
Lemma scan_and_mark_settled (counted : bool) (statuses : list string)
    (st msg : string) (logtxt : Exn -> string) (job_id : string) (c : nat) (w : World) :
  (fault env (DocScan job_id statuses) = None ->
   stuck env job_id statuses (documents_table w)) ->
  exists w',
    scan_and_mark env counted statuses st msg logtxt job_id (c, w) = (Ok tt, (c, w')) /\
    documents_table w' = documents_table w /\
    only_documents_changed w w'.
Proof.
  intros Hset. unfold scan_and_mark, doc_scan. run.
  destruct (fault env (DocScan job_id statuses)) as [e|] eqn:Hscan; run.
  - eexists. split; [reflexivity|]. split; [reflexivity | repeat split].
  - specialize (Hset eq_refl). unfold stuck in Hset.
    destruct (scan_keys job_id statuses (documents_table w)) as [|k items].
    + rewrite update_scanned_nil.
      eexists. split; [reflexivity|]. split; [reflexivity | repeat split].
    + rewrite update_scanned_cons.
      destruct (fault env (DocUpdateItem k)) as [e|]; [|contradiction]. run.
      eexists. split; [reflexivity|]. split; [reflexivity | repeat split].
Qed.

Lemma reconcile_loop_settled (jobs : list IngestionJob) :
  forall (c : nat) (w : World),
  (forall job, job ∈ jobs -> job_settled env job (documents_table w)) ->
  exists w',
    for_each jobs (KnowledgeBaseManager.reconcile_job env) (c, w) = (Ok tt, (c, w')) /\
    documents_table w' = documents_table w /\
    only_documents_changed w w'.
Proof.
  induction jobs as [|job jobs IH]; intros c w Hset.
  - exists w. split; [reflexivity|]. split; [reflexivity | apply frame_refl].
  - assert (Hjob : exists w1,
        KnowledgeBaseManager.reconcile_job env job (c, w) = (Ok tt, (c, w1)) /\
        documents_table w1 = documents_table w /\ only_documents_changed w w1).
    { destruct (Hset job) as [H1 H2]; [left|].
      rewrite reconcile_job_branches.
      destruct (String.eqb_spec (job_status job) "COMPLETE") as [Hc|Hc];
        [apply scan_and_mark_settled; auto|].
      destruct (String.eqb_spec (job_status job) "FAILED") as [Hf|Hf];
        [apply scan_and_mark_settled; auto|].
      exists w. split; [reflexivity|]. split; [reflexivity | apply frame_refl]. }
    destruct Hjob as (w1 & Hrun1 & Hdocs1 & Hframe1).
    destruct (IH c w1) as (w2 & Hrun2 & Hdocs2 & Hframe2).
    { intros j Hin. rewrite Hdocs1. apply Hset. right. exact Hin. }
    exists w2. split; [|split].
    + cbn [for_each]. unfold bind. rewrite Hrun1. exact Hrun2.
    + congruence.
    + eapply frame_trans; eassumption.
Qed.

Lemma listed_jobs_frame (T : string) (w w' : World) :
  only_documents_changed w w' -> listed_jobs env T w' = listed_jobs env T w.
Proof.
  intros (_ & Hu & Hk & Hd & _ & Hj & _). unfold listed_jobs, source_exists.
  rewrite Hu, Hk, Hd, Hj. reflexivity.
Qed.

Lemma check_ingestion_status_spec (T : string) (w : World) :
  match listed_jobs env T w with
  | Some jobs =>
      exists w0 c w',
        only_documents_changed w w0 /\
        documents_table w0 = documents_table w /\
        for_each jobs (KnowledgeBaseManager.reconcile_job env) (0, w0) = (Ok tt, (c, w')) /\
        KnowledgeBaseManager.check_ingestion_status env T w
        = (Ok (CheckOk c ("Updated " ++ pretty c ++ " document statuses")), w')
  | None =>
      exists err w',
        KnowledgeBaseManager.check_ingestion_status env T w = (Ok (CheckError err), w') /\
        documents_table w' = documents_table w /\
        only_documents_changed w w'
  end.
Proof.
  unfold listed_jobs, KnowledgeBaseManager.check_ingestion_status,
    KnowledgeBaseManager._get_user_kb_from_db, kb_get_item, list_ingestion_jobs,
    source_exists.
  run.
  destruct (fault env (KbGetItem T)) as [e|]; run.
  { eexists _, _. split; [reflexivity|]. split; [reflexivity | repeat split]. }
  destruct (user_kb_table w !! T) as [kb|]; run.
  2: { eexists _, _. split; [reflexivity|]. split; [reflexivity | repeat split]. }
  destruct (kb_knowledge_base_id kb) as [kb_id|]; run.
  2: { eexists _, _. split; [reflexivity|]. split; [reflexivity | repeat split]. }
  destruct (kb_data_source_id kb) as [ds_id|]; run.
  2: { eexists _, _. split; [reflexivity|]. split; [reflexivity | repeat split]. }
  destruct (fault env (ListIngestionJobs kb_id ds_id)) as [e|]; run.
  { eexists _, _. split; [reflexivity|]. split; [reflexivity | repeat split]. }
  destruct (data_sources w !! ds_id) as [ds|]; run.
  2: { eexists _, _. split; [reflexivity|]. split; [reflexivity | repeat split]. }
  destruct (bool_decide (pds_kb ds = kb_id) && bool_decide (is_Some (knowledge_bases w !! kb_id)));
    run.
  2: { eexists _, _. split; [reflexivity|]. split; [reflexivity | repeat split]. }
  set (jobs := take 10 _).
  set (w0 := set_trace _ (set_trace _ w)).
  destruct (reconcile_loop_spec jobs 0 w0) as (c & w' & Hrun & _).
  rewrite Hrun.
  exists w0, c, w'. split; [repeat split|]. split; [reflexivity|].
  split; [exact Hrun | reflexivity].
Qed.

End Reconciler.

(** ** The ingestion reconciler *)

(** C6. A second [check_ingestion_status] right after a first one changes
    no document and, if it reports a count, reports 0: the documents the
    first call moved to 'completed' or 'failed' are not matched again.
    Both calls return. This holds for every fault plan; the plan is the
    same in both calls, so an update that raised in the first call raises
    again in the second. *)
Theorem C6_reconcile_twice_updates_nothing
    (env : Env) (T : string) (w : World) :
  exists r1 w1 r2 w2,
    KnowledgeBaseManager.check_ingestion_status env T w = (Ok r1, w1) /\
    KnowledgeBaseManager.check_ingestion_status env T w1 = (Ok r2, w2) /\
    documents_table w2 = documents_table w1 /\
    (forall n txt, r2 = CheckOk n txt -> n = 0).
Proof.
  pose proof (check_ingestion_status_spec env T w) as Hspec1.
  destruct (listed_jobs env T w) as [jobs|] eqn:Hjobs.
  - destruct Hspec1 as (w0 & c & w1 & Hframe0 & Hdocs0 & Hloop & Hcheck).
    destruct (reconcile_loop_spec env jobs 0 w0) as (c' & w1' & Hloop' & Hrec & Hset).
    rewrite Hloop in Hloop'. injection Hloop' as <- <-.
    assert (Hframe1 : only_documents_changed w w1).
    { eapply frame_trans; [exact Hframe0 | apply Hrec]. }
    pose proof (check_ingestion_status_spec env T w1) as Hspec2.
    rewrite (listed_jobs_frame env T w w1 Hframe1), Hjobs in Hspec2.
    destruct Hspec2 as (w0' & c2 & w2 & _ & Hdocs0' & Hloop2 & Hcheck2).
    destruct (reconcile_loop_settled env jobs 0 w0') as (w2' & Hloop2' & Hdocs2 & _).
    { intros job Hin. rewrite Hdocs0'. apply Hset; assumption. }
    rewrite Hloop2 in Hloop2'. injection Hloop2' as -> <-.
    eexists _, w1, _, w2. split; [exact Hcheck|]. split; [exact Hcheck2|].
    split; [congruence|]. intros n txt [= <- _]. reflexivity.
  - destruct Hspec1 as (err & w1 & Hcheck & Hdocs & Hframe).
    pose proof (check_ingestion_status_spec env T w1) as Hspec2.
    rewrite (listed_jobs_frame env T w w1 Hframe), Hjobs in Hspec2.
    destruct Hspec2 as (err2 & w2 & Hcheck2 & Hdocs2 & _).
    eexists _, w1, _, w2. split; [exact Hcheck|]. split; [exact Hcheck2|].
    split; [exact Hdocs2|]. intros n txt [=].
Qed.

(** In the world [world_mixed_jobs] the reconciler moves three documents,
    two to 'completed' and one to 'failed', and reports 2. *)
Example reconcile_reports_completed_only :
  let w := world_mixed_jobs in
  let w' := snd (KnowledgeBaseManager.check_ingestion_status (demo_env no_fault) "u1" w) in
  fst (KnowledgeBaseManager.check_ingestion_status (demo_env no_fault) "u1" w)
    = Ok (CheckOk 2 "Updated 2 document statuses") /\
  sync_status <$> (documents_table w' !! "d1") = Some (Some "completed") /\
  sync_status <$> (documents_table w' !! "d2") = Some (Some "completed") /\
  sync_status <$> (documents_table w' !! "d3") = Some (Some "failed").
Proof. cbv zeta. repeat split; vm_compute; reflexivity. Qed.

Lemma C6_witness :
  exists r1 w1 r2 w2,
    KnowledgeBaseManager.check_ingestion_status (demo_env no_fault) "u1" world_mixed_jobs
      = (Ok r1, w1) /\
    KnowledgeBaseManager.check_ingestion_status (demo_env no_fault) "u1" w1 = (Ok r2, w2) /\
    documents_table w2 = documents_table w1 /\
    (forall n txt, r2 = CheckOk n txt -> n = 0).
Proof.
  apply (C6_reconcile_twice_updates_nothing (demo_env no_fault) "u1" world_mixed_jobs).
Defined.

(** The two calls on that world: the first reports 2, the second 0. *)
Example reconcile_twice_example :
  let env := demo_env no_fault in
  let w1 := snd (KnowledgeBaseManager.check_ingestion_status env "u1" world_mixed_jobs) in
  fst (KnowledgeBaseManager.check_ingestion_status env "u1" world_mixed_jobs)
    = Ok (CheckOk 2 "Updated 2 document statuses") /\
  fst (KnowledgeBaseManager.check_ingestion_status env "u1" w1)
    = Ok (CheckOk 0 "Updated 0 document statuses").
Proof. cbv zeta. split; vm_compute; reflexivity. Qed.

(** The same when the update of [d2] keeps failing: the first call moves
    [d1] and [d3], stops at [d2] and reports 1; the second stops at [d2]
    again and reports 0. *)
Example reconcile_twice_with_failing_update :
  let env := demo_env update_of_d2_fails in
  let w1 := snd (KnowledgeBaseManager.check_ingestion_status env "u1" world_mixed_jobs) in
  let w2 := snd (KnowledgeBaseManager.check_ingestion_status env "u1" w1) in
  fst (KnowledgeBaseManager.check_ingestion_status env "u1" world_mixed_jobs)
    = Ok (CheckOk 1 "Updated 1 document statuses") /\
  sync_status <$> (documents_table w1 !! "d1") = Some (Some "completed") /\
  sync_status <$> (documents_table w1 !! "d2") = Some (Some "syncing") /\
  sync_status <$> (documents_table w1 !! "d3") = Some (Some "failed") /\
  fst (KnowledgeBaseManager.check_ingestion_status env "u1" w1)
    = Ok (CheckOk 0 "Updated 0 document statuses") /\
  documents_table w2 = documents_table w1.
Proof. cbv zeta. repeat split; vm_compute; reflexivity. Qed.

(** The two writers of [document_count]. With the listing of pending
    blobs failing, the slow-path handler finds the upload where it was left
    and adds 1; the migrator, run on its own, adds the number of blobs it
    listed. *)
Example document_count_writers :
  let ev := mkEvent OpCreateAndProcess "u1" (Some "doc-0") (Some "a.pdf")
                    (Some "pending/u1/doc-0/a.pdf") in
  let w1 := snd (KnowledgeBaseManager.create_and_process_document
                   (demo_env listing_fails) ev world_first_upload) in
  let w2 := snd (KnowledgeBaseManager._process_pending_documents
                   (demo_env no_fault) "u1" u1_kb world_two_pending) in
  document_count <$> (user_kb_table w1 !! "u1") = Some (Some 1) /\
  sync_status <$> (documents_table w1 !! "doc-0") = Some (Some "processing") /\
  document_count <$> (user_kb_table world_two_pending !! "u1") = Some (Some 0) /\
  document_count <$> (user_kb_table w2 !! "u1") = Some (Some 2).
Proof. cbv zeta. repeat split; vm_compute; reflexivity. Qed.

(** * Further properties *)

(** ** Inversion of runs *)

Lemma bind_Ok_inv {S A B} (m : M S A) (k : A -> M S B) (s s' : S) (r : B) :
  bind m k s = (Ok r, s') ->
  exists a s0, m s = (Ok a, s0) /\ k a s0 = (Ok r, s').
Proof.
  unfold bind. destruct (m s) as [[a|e] s0]; [eauto | discriminate].
Qed.

Lemma bind_Raise_inv {S A B} (m : M S A) (k : A -> M S B) (s s' : S) (e : Exn) :
  bind m k s = (Raise e, s') ->
  m s = (Raise e, s') \/ exists a s0, m s = (Ok a, s0) /\ k a s0 = (Raise e, s').
Proof.
  unfold bind. destruct (m s) as [[a|e0] s0]; [eauto | intros [= -> ->]; auto].
Qed.

Lemma try_Ok_inv {S A} (m : M S A) (h : Exn -> M S A) (s s' : S) (r : A) :
  try_ m h s = (Ok r, s') ->
  m s = (Ok r, s') \/ exists e s0, m s = (Raise e, s0) /\ h e s0 = (Ok r, s').
Proof.
  unfold try_. destruct (m s) as [[a|e] s0]; [intros [= -> ->]; auto | eauto].
Qed.

Lemma try_Raise_inv {S A} (m : M S A) (h : Exn -> M S A) (s s' : S) (e : Exn) :
  try_ m h s = (Raise e, s') ->
  exists e0 s0, m s = (Raise e0, s0) /\ h e0 s0 = (Raise e, s').
Proof.
  unfold try_. destruct (m s) as [[a|e0] s0]; [discriminate | eauto].
Qed.

(** A loop whose body never raises runs to its end. *)
Lemma for_each_returns {S A} (xs : list A) (body : A -> M S unit) :
  (forall x s, exists s', body x s = (Ok tt, s')) ->
  forall s, exists s', for_each xs body s = (Ok tt, s').
Proof.
  intros Hb. induction xs as [|x xs IH]; intros s; cbn [for_each].
  - exists s. reflexivity.
  - destruct (Hb x s) as [s1 H1]. destruct (IH s1) as [s2 H2].
    exists s2. unfold bind. rewrite H1. exact H2.
Qed.

(** ** Frames on the calls made *)

#[export] Instance only_calls_frame (ok : Call -> bool) : Frame (only_calls ok).
Proof.
  split.
  - intros w. exists []. split; reflexivity.
  - intros w1 w2 w3 (n1 & Ht1 & Hn1) (n2 & Ht2 & Hn2).
    exists (n2 ++ n1)%list. split.
    + rewrite Ht2, Ht1. apply app_assoc.
    + rewrite forallb_app, Hn1, Hn2. reflexivity.
Qed.

#[export] Instance kb_table_same_frame : Frame kb_table_same.
Proof. split; unfold kb_table_same; [reflexivity | congruence]. Qed.

Ltac frame_side ::=
  intros ?;
  first
    [ solve [split; [reflexivity | exists []; split; reflexivity]]
    | solve [split; [reflexivity | eexists [_]; split; reflexivity]]
    | solve [exists []; split; reflexivity]
    | solve [eexists [_]; split; reflexivity]
    | solve [reflexivity]
    | solve [repeat split] ].

Lemma only_calls_count (p ok : Call -> bool) (w w' : World) :
  (forall c, ok c = true -> p c = false) ->
  only_calls ok w w' -> count_calls p w w' = 0.
Proof.
  intros Hp (new & Ht & Hok). unfold count_calls.
  rewrite (calls_since_app w w' new Ht).
  rewrite filter_none; [reflexivity|].
  intros c Hc. apply Hp. rewrite forallb_forall in Hok. apply Hok.
  apply list_elem_of_In. exact Hc.
Qed.

(** ** Keys of pending uploads *)

Lemma split_app_slash (a b : string) :
  no_slash a = true -> Py.split "/" (a ++ "/" ++ b) = a :: Py.split "/" b.
Proof.
  induction a as [|c a IH]; cbn [no_slash]; intros Ha.
  - reflexivity.
  - apply andb_true_iff in Ha as [Hc Ha].
    change ((String c a ++ "/" ++ b)%string) with (String c (a ++ "/" ++ b)).
    cbn [Py.split]. apply negb_true_iff in Hc. rewrite Hc, (IH Ha). reflexivity.
Qed.

Lemma split_no_slash (a : string) : no_slash a = true -> Py.split "/" a = [a].
Proof.
  induction a as [|c a IH]; cbn [no_slash]; intros Ha.
  - reflexivity.
  - apply andb_true_iff in Ha as [Hc Ha]. cbn [Py.split].
    apply negb_true_iff in Hc. rewrite Hc, (IH Ha). reflexivity.
Qed.

Lemma split_of_pending_key (uid document_id fname : string) :
  no_slash uid = true -> no_slash document_id = true -> no_slash fname = true ->
  Py.split "/" (pending_key uid document_id fname)
  = ["pending"; uid; document_id; fname].
Proof.
  intros Hu Hd Hf. unfold pending_key.
  change (Py.split "/" ("pending" ++ "/" ++ (uid ++ "/" ++ document_id ++ "/" ++ fname))
          = ["pending"; uid; document_id; fname]).
  rewrite (split_app_slash "pending") by reflexivity.
  rewrite (split_app_slash uid) by assumption.
  rewrite (split_app_slash document_id) by assumption.
  rewrite split_no_slash by assumption. reflexivity.
Qed.

(** X1. The key the uploader writes for a pending upload is parsed back by
    the migrator into its four parts, so that the third part is the
    document id and the fourth the file name, when the tenant id, the
    document id and the file name contain no '/'. *)
Theorem pending_key_round_trip (uid document_id fname : string) :
  no_slash uid = true -> no_slash document_id = true -> no_slash fname = true ->
  let path_parts := Py.split "/" (pending_key uid document_id fname) in
  path_parts = ["pending"; uid; document_id; fname] /\
  (length path_parts <? 4)%nat = false /\
  nth 2 path_parts "" = document_id /\
  nth 3 path_parts "" = fname.
Proof.
  intros Hu Hd Hf. cbv zeta.
  rewrite split_of_pending_key by assumption. repeat split.
Qed.

Lemma pending_key_round_trip_witness :
  let path_parts := Py.split "/" (pending_key "u1" "d1" "a.pdf") in
  path_parts = ["pending"; "u1"; "d1"; "a.pdf"] /\
  (length path_parts <? 4)%nat = false /\
  nth 2 path_parts "" = "d1" /\
  nth 3 path_parts "" = "a.pdf".
Proof.
  apply (pending_key_round_trip "u1" "d1" "a.pdf"); reflexivity.
Defined.

(** A file name with a '/' does not survive: the migrator keeps its first
    segment only. *)
Example pending_key_with_slash_in_name :
  nth 3 (Py.split "/" (pending_key "u1" "d1" "2024/report.pdf")) "" = "2024".
Proof. reflexivity. Qed.

(** ** The pending-upload migrator *)

Lemma final_key_not_pending (uhash uid document_id fname k : string) :
  final_key uhash document_id fname <> pending_key uid k fname.
Proof. unfold final_key, pending_key. cbn. discriminate. Qed.

(** X2. One step of the migrator on an upload that waits under a
    well-formed pending key: when the copy, the delete and the record
    update succeed, the blob sits under the final key
    [docs/{user_hash}/{document_id}/{filename}], the pending key is gone,
    and the document's record points to the final key with status
    'ready_for_ingestion'; no other blob and no other record is touched. *)
Theorem migrator_moves_pending_upload
    (env : Env) (w : World) (uhash uid document_id fname : string) (obj : S3Object) :
  no_slash uid = true -> no_slash document_id = true -> no_slash fname = true ->
  bucket w !! pending_key uid document_id fname = Some obj ->
  fault env (S3CopyObject (pending_key uid document_id fname)
               (final_key uhash document_id fname)) = None ->
  fault env (S3DeleteObject (pending_key uid document_id fname)) = None ->
  fault env (DocUpdateItem document_id) = None ->
  exists w',
    KnowledgeBaseManager.move_pending_object env uhash
      (pending_key uid document_id fname) w = (Ok tt, w') /\
    bucket w' !! final_key uhash document_id fname = Some obj /\
    bucket w' !! pending_key uid document_id fname = None /\
    documents_table w' !! document_id
      = Some (set_sync_status "ready_for_ingestion"
                (set_s3_key (final_key uhash document_id fname)
                   (default empty_doc (documents_table w !! document_id)))) /\
    (forall k, k <> document_id -> documents_table w' !! k = documents_table w !! k) /\
    (forall k, k <> pending_key uid document_id fname ->
               k <> final_key uhash document_id fname ->
               bucket w' !! k = bucket w !! k).
Proof.
  intros Hu Hd Hf Hobj Hc Hdel Hup.
  unfold KnowledgeBaseManager.move_pending_object.
  rewrite split_of_pending_key by assumption.
  cbn [length Nat.ltb Nat.leb nth].
  fold (final_key uhash document_id fname).
  unfold s3_copy_object, s3_delete_object, doc_update_item. run.
  eexists. split; [reflexivity|]. run. unfold upsert_doc.
  split; [|split; [|split; [|split]]].
  - rewrite lookup_delete_ne by (intros H; symmetry in H; revert H;
                                 apply final_key_not_pending).
    apply lookup_insert_eq.
  - apply lookup_delete_eq.
  - apply lookup_insert_eq.
  - intros k Hk. apply lookup_insert_ne. congruence.
  - intros k Hk1 Hk2. rewrite lookup_delete_ne by congruence.
    apply lookup_insert_ne. congruence.
Qed.

Lemma migrator_moves_pending_upload_witness :
  exists w',
    KnowledgeBaseManager.move_pending_object (demo_env no_fault) "hu1"
      (pending_key "u1" "d1" "a.pdf") world_two_pending = (Ok tt, w') /\
    bucket w' !! final_key "hu1" "d1" "a.pdf" = Some (mkObj "abc" "application/pdf" []) /\
    bucket w' !! pending_key "u1" "d1" "a.pdf" = None /\
    documents_table w' !! "d1"
      = Some (set_sync_status "ready_for_ingestion"
                (set_s3_key (final_key "hu1" "d1" "a.pdf")
                   (default empty_doc (documents_table world_two_pending !! "d1")))) /\
    (forall k, k <> "d1" ->
               documents_table w' !! k = documents_table world_two_pending !! k) /\
    (forall k, k <> pending_key "u1" "d1" "a.pdf" ->
               k <> final_key "hu1" "d1" "a.pdf" ->
               bucket w' !! k = bucket world_two_pending !! k).
Proof.
  apply (migrator_moves_pending_upload (demo_env no_fault) world_two_pending
           "hu1" "u1" "d1" "a.pdf" (mkObj "abc" "application/pdf" []));
    reflexivity.
Defined.

Lemma listing_empty (prefix : string) (b : gmap string S3Object) :
  (forall k, is_Some (b !! k) -> String.prefix prefix k = false) ->
  take s3_max_keys (List.filter (String.prefix prefix) (map fst (map_to_list b))) = [].
Proof.
  intros H. rewrite filter_none; [reflexivity|].
  intros k Hk. apply list_elem_of_In, in_map_iff in Hk as ([k' o] & <- & Hin).
  apply H. exists o. apply elem_of_map_to_list, list_elem_of_In. exact Hin.
Qed.

Lemma listing_nonempty (prefix k : string) (b : gmap string S3Object) :
  is_Some (b !! k) -> String.prefix prefix k = true ->
  take s3_max_keys (List.filter (String.prefix prefix) (map fst (map_to_list b))) <> [].
Proof.
  intros [o Ho] Hp.
  assert (Hin : In k (List.filter (String.prefix prefix) (map fst (map_to_list b)))).
  { apply filter_In. split; [|exact Hp]. apply in_map_iff. exists (k, o).
    split; [reflexivity|]. apply list_elem_of_In, elem_of_map_to_list. exact Ho. }
  destruct (List.filter (String.prefix prefix) (map fst (map_to_list b))) as [|x l];
    [inversion Hin | discriminate].
Qed.

(** X3. With nothing under the tenant's pending prefix the migrator lists
    the prefix and stops: no blob, record, counter or job is touched and
    no ingestion job is requested, whether the listing fails or not. *)
Theorem migrator_nothing_pending
    (env : Env) (w : World) (uid uhash kb ds : string) (info : KbItem) :
  user_hash info = Some uhash ->
  kb_knowledge_base_id info = Some kb ->
  kb_data_source_id info = Some ds ->
  (forall k, is_Some (bucket w !! k) ->
             String.prefix ("pending/" ++ uid ++ "/") k = false) ->
  exists w',
    KnowledgeBaseManager._process_pending_documents env uid info w = (Ok tt, w') /\
    trace w' = S3ListObjectsV2 ("pending/" ++ uid ++ "/") :: trace w /\
    bucket w' = bucket w /\
    documents_table w' = documents_table w /\
    user_kb_table w' = user_kb_table w /\
    ingestion_jobs w' = ingestion_jobs w.
Proof.
  intros Hh Hkb Hds Hnone.
  unfold KnowledgeBaseManager._process_pending_documents, s3_list_objects_v2. run.
  destruct (fault env (S3ListObjectsV2 ("pending/" ++ uid ++ "/"))) as [e|]; run.
  - eexists. split; [reflexivity|]. repeat split.
  - rewrite listing_empty by assumption. run.
    eexists. split; [reflexivity|]. repeat split.
Qed.

Lemma migrator_nothing_pending_witness :
  exists w',
    KnowledgeBaseManager._process_pending_documents (demo_env no_fault) "u1" u1_kb
      world_with_index = (Ok tt, w') /\
    trace w' = S3ListObjectsV2 ("pending/" ++ "u1" ++ "/") :: trace world_with_index /\
    bucket w' = bucket world_with_index /\
    documents_table w' = documents_table world_with_index /\
    user_kb_table w' = user_kb_table world_with_index /\
    ingestion_jobs w' = ingestion_jobs world_with_index.
Proof.
  apply (migrator_nothing_pending (demo_env no_fault) world_with_index
           "u1" "hu1" "kb-0" "ds-1" u1_kb); try reflexivity.
  intros k [o Ho]. vm_compute in Ho. discriminate.
Defined.

Lemma move_pending_object_returns (env : Env) (uhash key : string) (w : World) :
  exists w', KnowledgeBaseManager.move_pending_object env uhash key w = (Ok tt, w').
Proof.
  unfold KnowledgeBaseManager.move_pending_object, try_.
  match goal with |- context [match ?m w with _ => _ end] => destruct (m w) as [[[]|e] w1] end.
  - eauto.
  - run. eauto.
Qed.

Lemma move_pending_object_calls (env : Env) (uhash key : string) :
  frames (only_calls not_start_job)
    (KnowledgeBaseManager.move_pending_object env uhash key).
Proof.
  unfold KnowledgeBaseManager.move_pending_object, s3_copy_object, s3_delete_object,
    doc_update_item, logger_error.
  frame_solve.
Qed.

(** The ingestion trigger requests exactly one job, first. *)
Lemma trigger_ingestion_job_calls (env : Env) (kb ds document_id : string) (w : World) :
  exists r w' new,
    KnowledgeBaseManager._trigger_ingestion_job env kb ds document_id w = (r, w') /\
    trace w' = (new ++ StartIngestionJob kb ds ("Ingestion job for document " ++ document_id)
                       :: trace w)%list /\
    forallb not_start_job new = true.
Proof.
  unfold KnowledgeBaseManager._trigger_ingestion_job, start_ingestion_job, doc_update_item.
  run.
  destruct (fault env (StartIngestionJob kb ds _)) as [e|]; run.
  - eexists _, _, []. split; [reflexivity|]. split; reflexivity.
  - destruct (source_exists kb ds _); run.
    + destruct (fault env (DocUpdateItem document_id)) as [e|]; run.
      * eexists _, _, [_]. split; [reflexivity|]. split; reflexivity.
      * eexists _, _, [_]. split; [reflexivity|]. split; reflexivity.
    + eexists _, _, []. split; [reflexivity|]. split; reflexivity.
Qed.

Lemma count_single_call (p : Call -> bool) (after before : list Call) (c : Call)
    (w w' : World) :
  trace w' = (after ++ c :: before ++ trace w)%list ->
  forallb (fun c => negb (p c)) after = true ->
  forallb (fun c => negb (p c)) before = true ->
  p c = true ->
  count_calls p w w' = 1 /\ In c (calls_since w w').
Proof.
  intros Ht Ha Hb Hc. unfold count_calls.
  rewrite (calls_since_app w w' (after ++ c :: before)%list)
    by (rewrite Ht, <- app_assoc; reflexivity).
  split; [|apply in_or_app; right; left; reflexivity].
  rewrite List.filter_app. cbn [List.filter]. rewrite Hc.
  rewrite !filter_none; [reflexivity| |].
  - intros x Hx. rewrite forallb_forall in Hb. apply negb_true_iff, Hb, list_elem_of_In, Hx.
  - intros x Hx. rewrite forallb_forall in Ha. apply negb_true_iff, Ha, list_elem_of_In, Hx.
Qed.

(** X4. When the listing succeeds and finds at least one blob under the
    tenant's pending prefix, the migrator requests exactly one ingestion
    job, for the tenant's index and data source, whatever happens to the
    individual blobs: a failure on one of them does not stop the loop. *)
Theorem migrator_requests_one_job
    (env : Env) (w : World) (uid uhash kb ds k : string) (info : KbItem) :
  user_hash info = Some uhash ->
  kb_knowledge_base_id info = Some kb ->
  kb_data_source_id info = Some ds ->
  fault env (S3ListObjectsV2 ("pending/" ++ uid ++ "/")) = None ->
  is_Some (bucket w !! k) ->
  String.prefix ("pending/" ++ uid ++ "/") k = true ->
  exists w' description,
    KnowledgeBaseManager._process_pending_documents env uid info w = (Ok tt, w') /\
    count_calls is_start_ingestion_job w w' = 1 /\
    In (StartIngestionJob kb ds description) (calls_since w w').
Proof.
  intros Hh Hkb Hds Hlist Hk Hp.
  unfold KnowledgeBaseManager._process_pending_documents, s3_list_objects_v2. run.
  pose proof (listing_nonempty _ k (bucket w) Hk Hp) as Hne.
  destruct (take s3_max_keys _) as [|o objs]; [contradiction|]. clear Hne.
  set (w1 := set_trace _ w).
  destruct (for_each_returns (o :: objs) (KnowledgeBaseManager.move_pending_object env uhash)
              (move_pending_object_returns env uhash) w1) as [w2 Hloop].
  pose proof (frames_for_each (only_calls not_start_job) (o :: objs) _
                (move_pending_object_calls env uhash) w1) as (loop & Hl & Hlok).
  rewrite Hloop in Hl. cbn [snd] in Hl. rewrite Hloop. run.
  destruct (trigger_ingestion_job_calls env kb ds
              ("pending_documents_batch_" ++ pretty (now w2)) w2)
    as (r & w3 & new & Htrig & Ht & Hnew).
  rewrite Htrig.
  assert (Hcount : forall w' after,
            trace w' = (after ++ trace w3)%list ->
            forallb not_start_job after = true ->
            count_calls is_start_ingestion_job w w' = 1 /\
            In (StartIngestionJob kb ds
                  ("Ingestion job for document " ++
                   ("pending_documents_batch_" ++ pretty (now w2))))
               (calls_since w w')).
  { intros w' after Hw' Hafter.
    apply (count_single_call is_start_ingestion_job (after ++ new)
             (loop ++ [S3ListObjectsV2 ("pending/" ++ uid ++ "/")])).
    - rewrite Hw', Ht, Hl. subst w1. cbn [trace set_trace].
      rewrite <- !app_assoc. reflexivity.
    - rewrite forallb_app. unfold not_start_job in *. rewrite Hafter, Hnew. reflexivity.
    - rewrite forallb_app. unfold not_start_job in *. rewrite Hlok. reflexivity.
    - reflexivity. }
  destruct r as [[]|e]; run.
  - unfold kb_update_item. run.
    destruct (fault env (KbUpdateItem uid)) as [e|]; run.
    + eexists _, _. split; [reflexivity|]. apply (Hcount _ [KbUpdateItem uid]); reflexivity.
    + eexists _, _. split; [reflexivity|]. apply (Hcount _ [KbUpdateItem uid]); reflexivity.
  - eexists _, _. split; [reflexivity|]. apply (Hcount _ []); reflexivity.
Qed.

Lemma migrator_requests_one_job_witness :
  exists w' description,
    KnowledgeBaseManager._process_pending_documents (demo_env copy_of_d1_fails) "u1" u1_kb
      world_two_pending = (Ok tt, w') /\
    count_calls is_start_ingestion_job world_two_pending w' = 1 /\
    In (StartIngestionJob "kb-0" "ds-1" description) (calls_since world_two_pending w').
Proof.
  apply (migrator_requests_one_job (demo_env copy_of_d1_fails) world_two_pending
           "u1" "hu1" "kb-0" "ds-1" "pending/u1/d1/a.pdf" u1_kb); try reflexivity.
  vm_compute. eexists. reflexivity.
Defined.

(** ** Provisioning an index *)

Lemma frames_on_raise_bind {S A B} (P : S -> S -> Prop) `{!Frame P}
    (m : M S A) (k : A -> M S B) :
  frames P m -> (forall a, frames_on_raise P (k a)) -> frames_on_raise P (bind m k).
Proof.
  intros Hm Hk s. unfold bind. specialize (Hm s).
  destruct (m s) as [[a|e] s1]; cbn [snd] in Hm; [|exact Hm].
  specialize (Hk a s1). destruct (k a s1) as [[b|e] s2]; [exact I|].
  eapply frame_trans; eassumption.
Qed.

Lemma frames_on_raise_last {S A B} (P : S -> S -> Prop)
    (m : M S A) (k : A -> M S B) :
  frames_on_raise P m ->
  (forall a s, exists r s', k a s = (Ok r, s')) ->
  frames_on_raise P (bind m k).
Proof.
  intros Hm Hk s. unfold bind. specialize (Hm s).
  destruct (m s) as [[a|e] s1]; [|exact Hm].
  destruct (Hk a s1) as (r & s2 & ->). exact I.
Qed.

Lemma process_pending_documents_returns (env : Env) (uid : string) (info : KbItem)
    (w : World) :
  exists w', KnowledgeBaseManager._process_pending_documents env uid info w = (Ok tt, w').
Proof.
  unfold KnowledgeBaseManager._process_pending_documents, try_.
  match goal with |- context [match ?m w with _ => _ end] => destruct (m w) as [[[]|e] w1] end.
  - eauto.
  - run. eauto.
Qed.

Section Provisioning.

Variable env : Env.

Lemma kb_table_same_tolerant_bucket (name : string) (msg : Exn -> string) (needle : string) :
  frames kb_table_same
    (try_ (create_vector_bucket env name)
       (fun e => if Py.contains "ConflictException" (str_type e)
                    || Py.contains needle (str_exn e)
                 then ret tt
                 else (logger_error (msg e) ;; raise e))).
Proof. unfold create_vector_bucket, logger_error. frame_solve. Qed.

Lemma kb_table_same_tolerant_index (bkt index : string) (msg : Exn -> string)
    (needle : string) :
  frames kb_table_same
    (try_ (create_index env bkt index)
       (fun e => if Py.contains "ConflictException" (str_type e)
                    || Py.contains needle (str_exn e)
                 then ret tt
                 else (logger_error (msg e) ;; raise e))).
Proof. unfold create_index, logger_error. frame_solve. Qed.

Lemma kb_table_same_create_knowledge_base (name : string) :
  frames kb_table_same (create_knowledge_base env name).
Proof. unfold create_knowledge_base, fresh_id. frame_solve. Qed.

Lemma kb_table_same_create_data_source (kb name : string) (prefixes : list string) :
  frames kb_table_same (create_data_source env kb name prefixes).
Proof. unfold create_data_source, fresh_id. frame_solve. Qed.

(** X5. When [_create_user_kb] raises, the tenant-index table is as it
    was, so no record of a half-made index is left, and the last call it
    made is the cleanup: the deletion of the vector bucket it had named. *)
Theorem create_failure_leaves_no_record
    (uid : string) (w w' : World) (e : Exn) :
  KnowledgeBaseManager._create_user_kb env uid w = (Raise e, w') ->
  user_kb_table w' = user_kb_table w /\
  exists earlier,
    trace w' = DeleteVectorBucket (generated_bucket_name env uid w) :: earlier.
Proof.
  intros Hrun. unfold KnowledgeBaseManager._create_user_kb in Hrun.
  apply bind_Raise_inv in Hrun as [Hrun | (ts & w0 & H0 & Hrun)]; [discriminate|].
  injection H0 as <- <-.
  apply try_Raise_inv in Hrun as (e0 & s0 & Hbody & Hhandler).
  assert (Hsame : kb_table_same w s0).
  { match type of Hbody with ?m w = _ =>
      assert (Hf : frames_on_raise kb_table_same m) end.
    { pose proof kb_table_same_tolerant_bucket.
      pose proof kb_table_same_tolerant_index.
      pose proof kb_table_same_create_knowledge_base.
      pose proof kb_table_same_create_data_source.
      apply frames_on_raise_bind; [exact _ | auto | intros _].
      apply frames_on_raise_bind; [exact _ | auto | intros _].
      apply frames_on_raise_bind; [exact _ | unfold time_sleep; frame_solve | intros _].
      apply frames_on_raise_bind; [exact _ | auto | intros kb_id].
      apply frames_on_raise_bind; [exact _ | auto | intros ds_id].
      apply frames_on_raise_bind; [exact _ | unfold utcnow; frame_solve | intros ts].
      apply frames_on_raise_last.
      - intros s. unfold kb_put_item, call, modify.
        destruct (fault env (KbPutItem uid)); [reflexivity | exact I].
      - intros _ s.
        destruct (process_pending_documents_returns env uid
                    (mkKb (Some kb_id) (Some ds_id)
                       (Some ("ai-ppt-vectors-" ++ md5_hex8 env uid ++ "-" ++ pretty (now w)))
                       (Some ("ai-ppt-index-" ++ md5_hex8 env uid))
                       (Some ("ai-ppt-kb-" ++ md5_hex8 env uid ++ "-" ++ pretty (now w)))
                       (Some (md5_hex8 env uid)) (Some ts) (Some "active") (Some 0)
                       (Some "s3_vectors")) s) as [s1 Hs1].
        unfold bind. rewrite Hs1. eauto. }
    specialize (Hf w). rewrite Hbody in Hf. exact Hf. }
  revert Hhandler. unfold delete_vector_bucket. run.
  fold (generated_bucket_name env uid w).
  destruct (fault env (DeleteVectorBucket (generated_bucket_name env uid w))); run.
  - intros [= <- <-]. run. split; [exact Hsame | eauto].
  - destruct (vector_buckets s0 !! generated_bucket_name env uid w); run.
    all: intros [= <- <-]; run; split; [exact Hsame | eauto].
Qed.

End Provisioning.

Lemma create_failure_leaves_no_record_witness :
  let run := KnowledgeBaseManager._create_user_kb (demo_env kb_create_fails) "u1" empty_world in
  user_kb_table (snd run) = user_kb_table empty_world /\
  exists earlier,
    trace (snd run)
    = DeleteVectorBucket (generated_bucket_name (demo_env kb_create_fails) "u1" empty_world)
      :: earlier.
Proof.
  apply (create_failure_leaves_no_record (demo_env kb_create_fails) "u1" empty_world _
           (ServiceError "ValidationException" "The role is not authorized.")).
  vm_compute. reflexivity.
Defined.

#[export] Instance index_kept_frame (uid : string) : Frame (index_kept uid).
Proof.
  split.
  - intros w. split; [reflexivity|]. split; [reflexivity|]. intros rec H. eauto 6.
  - intros w1 w2 w3 (Hk1 & Hd1 & Hr1) (Hk2 & Hd2 & Hr2).
    split; [congruence|]. split; [congruence|].
    intros rec H.
    destruct (Hr1 rec H) as (r2 & Hl2 & ? & ? & ?).
    destruct (Hr2 r2 Hl2) as (r3 & Hl3 & ? & ? & ?).
    exists r3. repeat split; congruence.
Qed.

Lemma index_kept_same (uid : string) (w w' : World) :
  knowledge_bases w' = knowledge_bases w ->
  data_sources w' = data_sources w ->
  user_kb_table w' = user_kb_table w ->
  index_kept uid w w'.
Proof.
  intros Hk Hd Ht. split; [exact Hk|]. split; [exact Hd|].
  intros rec H. exists rec. rewrite Ht. auto.
Qed.

Ltac frame_side ::=
  intros ?;
  first
    [ solve [split; [reflexivity | exists []; split; reflexivity]]
    | solve [split; [reflexivity | eexists [_]; split; reflexivity]]
    | solve [exists []; split; reflexivity]
    | solve [eexists [_]; split; reflexivity]
    | solve [reflexivity]
    | solve [apply index_kept_same; reflexivity]
    | solve [repeat split] ].

Section ProvisioningResult.

Variable env : Env.

Lemma index_kept_count (uid : string) (n : nat) :
  frames (index_kept uid) (kb_update_item env uid (add_document_count n)).
Proof.
  unfold kb_update_item. apply frames_call; [exact _ | frame_side |].
  intros w. unfold modify. cbn [snd].
  split; [reflexivity|]. split; [reflexivity|].
  intros rec H. try run_world. unfold upsert_kb. rewrite lookup_insert_eq.
  try run_world. try rewrite H. cbn [default from_option id].
  eexists. split; [reflexivity|]. destruct rec. repeat split.
Qed.

Lemma index_kept_migrator (uid : string) (info : KbItem) :
  frames (index_kept uid) (KnowledgeBaseManager._process_pending_documents env uid info).
Proof.
  pose proof index_kept_count.
  unfold KnowledgeBaseManager._process_pending_documents,
    KnowledgeBaseManager.move_pending_object, KnowledgeBaseManager._trigger_ingestion_job,
    s3_list_objects_v2, s3_copy_object, s3_delete_object, doc_update_item,
    start_ingestion_job, logger_error, utcnow, time_time, fresh_id.
  frame_solve.
Qed.

Lemma create_user_kb_handler_raises (uid vbucket : string) (e : Exn) (w : World) :
  exists w',
    (logger_error ("Failed to create KB for user " ++ uid ++ ": " ++ str_exn e) ;;
     try_ (delete_vector_bucket env vbucket) (fun _ => ret tt) ;;
     (raise e : M World KbItem)) w = (Raise e, w').
Proof.
  unfold delete_vector_bucket. run.
  destruct (fault env (DeleteVectorBucket vbucket)); run; [eauto|].
  destruct (vector_buckets w !! vbucket); run; eauto.
Qed.

Lemma create_user_kb_ok (uid : string) (w w' : World) (r : KbItem) :
  KnowledgeBaseManager._create_user_kb env uid w = (Ok r, w') ->
  exists kb ds rec,
    r = mkKb (Some kb) (Some ds) (Some (generated_bucket_name env uid w)) None None
             (Some (md5_hex8 env uid)) None None None None /\
    is_Some (knowledge_bases w' !! kb) /\
    data_sources w' !! ds
    = Some (mkPDs kb ("ai-ppt-docs-" ++ md5_hex8 env uid) ["docs/" ++ md5_hex8 env uid ++ "/"]) /\
    user_kb_table w' !! uid = Some rec /\
    kb_knowledge_base_id rec = Some kb /\
    kb_data_source_id rec = Some ds /\
    user_hash rec = Some (md5_hex8 env uid).
Proof.
  intros H. unfold KnowledgeBaseManager._create_user_kb in H.
  apply bind_Ok_inv in H as (ts & w0 & H0 & H). injection H0 as <- <-.
  apply try_Ok_inv in H as [H | (e & s0 & _ & H)].
  2: { destruct (create_user_kb_handler_raises uid
                   ("ai-ppt-vectors-" ++ md5_hex8 env uid ++ "-" ++ pretty (now w)) e s0)
         as [s1 Hs1].
       rewrite Hs1 in H. discriminate. }
  apply bind_Ok_inv in H as ([] & w1 & _ & H).
  apply bind_Ok_inv in H as ([] & w2 & _ & H).
  apply bind_Ok_inv in H as ([] & w3 & _ & H).
  apply bind_Ok_inv in H as (kb & w4 & Hkb & H).
  apply bind_Ok_inv in H as (ds & w5 & Hds & H).
  apply bind_Ok_inv in H as (ts & w6 & Hts & H).
  apply bind_Ok_inv in H as ([] & w7 & Hput & H).
  apply bind_Ok_inv in H as ([] & w8 & Hpend & H).
  injection H as <- <-.
  exists kb, ds.
  assert (Hkb4 : is_Some (knowledge_bases w4 !! kb)).
  { revert Hkb. unfold create_knowledge_base. run.
    destruct (fault env (CreateKnowledgeBase _)); [intros [=]|].
    intros [= <- <-]. run. rewrite lookup_insert_eq. eauto. }
  assert (Hds5 : knowledge_bases w5 = knowledge_bases w4 /\
                 data_sources w5 !! ds
                 = Some (mkPDs kb ("ai-ppt-docs-" ++ md5_hex8 env uid)
                           ["docs/" ++ md5_hex8 env uid ++ "/"])).
  { revert Hds. unfold create_data_source. run.
    destruct (fault env (CreateDataSource _ _)); [intros [=]|].
    destruct (knowledge_bases w4 !! kb); run; [|intros [=]].
    intros [= <- <-]. run. rewrite lookup_insert_eq. auto. }
  destruct Hds5 as [Hk5 Hd5].
  assert (w6 = w5) as -> by (revert Hts; unfold utcnow; run; intros [= _ <-]; reflexivity).
  match type of Hpend with _ _ _ ?info _ = _ =>
    pose proof (index_kept_migrator uid info w7) as Hkept end.
  rewrite Hpend in Hkept.
  cbn [snd] in Hkept. destruct Hkept as (Hk8 & Hd8 & Hr8).
  revert Hput. unfold kb_put_item. run.
  destruct (fault env (KbPutItem uid)); [intros [=]|]. intros [= <-].
  revert Hk8 Hd8 Hr8. run. intros Hk8 Hd8 Hr8.
  destruct (Hr8 _ (lookup_insert_eq _ _ _)) as (rec & Hrec & Hrk & Hrd & Hrh).
  exists rec. split; [reflexivity|].
  rewrite Hk8, Hd8, Hk5. auto 10.
Qed.

End ProvisioningResult.

Section ProvisioningTheorems.

Variable env : Env.

Lemma get_user_kb_from_db_found (uid : string) (w w1 : World) (item : KbItem) :
  KnowledgeBaseManager._get_user_kb_from_db env uid w = (Ok (Some item), w1) ->
  user_kb_table w !! uid = Some item /\ w1 = set_trace (cons (KbGetItem uid)) w.
Proof.
  unfold KnowledgeBaseManager._get_user_kb_from_db, kb_get_item. run.
  destruct (fault env (KbGetItem uid)); run; [intros [=]|].
  intros [= Hl <-]. auto.
Qed.

Lemma verify_kb_exists_true (kb : string) (w w1 : World) :
  KnowledgeBaseManager._verify_kb_exists env kb w = (Ok true, w1) ->
  is_Some (knowledge_bases w !! kb) /\ w1 = set_trace (cons (GetKnowledgeBase kb)) w.
Proof.
  unfold KnowledgeBaseManager._verify_kb_exists, get_knowledge_base. run.
  destruct (fault env (GetKnowledgeBase kb)); run; [intros [=]|].
  destruct (knowledge_bases w !! kb); run; [|intros [=]].
  intros [= <-]. eauto.
Qed.

(** X6. Whatever fails on the way, an item that [get_or_create_user_kb]
    returns names a knowledge base that exists at the provider, and the
    tenant's record in the table names the same knowledge base, data
    source and storage prefix: the caller is never handed a stale
    index. *)
Theorem get_or_create_returns_live_index
    (uid : string) (w w' : World) (r : KbItem) :
  KnowledgeBaseManager.get_or_create_user_kb env uid w = (Ok r, w') ->
  exists kb rec,
    kb_knowledge_base_id r = Some kb /\
    is_Some (knowledge_bases w' !! kb) /\
    user_kb_table w' !! uid = Some rec /\
    kb_knowledge_base_id rec = Some kb /\
    kb_data_source_id rec = kb_data_source_id r /\
    user_hash rec = user_hash r.
Proof.
  intros H. unfold KnowledgeBaseManager.get_or_create_user_kb in H.
  apply try_Ok_inv in H as [H | (e & s0 & _ & H)]; [|revert H; run; intros [=]].
  apply bind_Ok_inv in H as (existing & w1 & Hget & H).
  apply bind_Ok_inv in H as (found & w2 & Hfound & H).
  destruct found as [item|].
  - cbv [ret] in H. injection H as <- <-.
    destruct existing as [kb0|]; [|cbv [ret] in Hfound; discriminate].
    apply bind_Ok_inv in Hfound as (kb_id & w3 & Hid & Hfound).
    apply bind_Ok_inv in Hfound as (ok & w4 & Hok & Hfound).
    destruct ok.
    + cbv [ret] in Hfound. injection Hfound as <- <-.
      apply get_user_kb_from_db_found in Hget as [Hrec ->].
      unfold getitem in Hid. destruct (kb_knowledge_base_id kb0) as [id|] eqn:Hkb0;
        [|discriminate].
      cbv [ret] in Hid. injection Hid as <- <-.
      apply verify_kb_exists_true in Hok as [Hlive ->].
      exists id, kb0. revert Hlive. run. rewrite ?Hkb0. auto 10.
    + apply bind_Ok_inv in Hfound as (u & w5 & _ & Hfound).
      cbv [ret] in Hfound. discriminate.
  - apply create_user_kb_ok in H as (kb & ds & rec & -> & Hlive & _ & Hrec & Hk & Hd & Hh).
    exists kb, rec. cbn. auto 10.
Qed.

(** X7. Whatever fails on the way, when [_create_user_kb] returns, the
    knowledge base and the data source it returns exist at the provider,
    the data source belongs to that knowledge base and reads exactly the
    storage prefix [docs/<hash of the tenant>/], and the returned item
    carries that hash. *)
Theorem created_index_reads_tenant_prefix_only
    (uid : string) (w w' : World) (r : KbItem) :
  KnowledgeBaseManager._create_user_kb env uid w = (Ok r, w') ->
  exists kb ds src,
    kb_knowledge_base_id r = Some kb /\
    kb_data_source_id r = Some ds /\
    user_hash r = Some (md5_hex8 env uid) /\
    is_Some (knowledge_bases w' !! kb) /\
    data_sources w' !! ds = Some src /\
    pds_kb src = kb /\
    pds_prefixes src = ["docs/" ++ md5_hex8 env uid ++ "/"].
Proof.
  intros H.
  apply create_user_kb_ok in H as (kb & ds & rec & -> & Hlive & Hsrc & _).
  exists kb, ds. eexists. cbn. split; [reflexivity|]. split; [reflexivity|].
  split; [reflexivity|]. split; [exact Hlive|]. split; [exact Hsrc|]. split; reflexivity.
Qed.

End ProvisioningTheorems.

Lemma get_or_create_returns_live_index_witness :
  let run := KnowledgeBaseManager.get_or_create_user_kb (demo_env no_fault) "u1"
               world_stale_index in
  exists kb rec,
    (exists r, fst run = Ok r /\ kb_knowledge_base_id r = Some kb /\
               kb_data_source_id rec = kb_data_source_id r /\ user_hash rec = user_hash r) /\
    is_Some (knowledge_bases (snd run) !! kb) /\
    user_kb_table (snd run) !! "u1" = Some rec /\
    kb_knowledge_base_id rec = Some kb.
Proof.
  destruct (get_or_create_returns_live_index (demo_env no_fault) "u1" world_stale_index
              (snd (KnowledgeBaseManager.get_or_create_user_kb (demo_env no_fault) "u1"
                      world_stale_index))
              (mkKb (Some "kb-2") (Some "ds-3") (Some "ai-ppt-vectors-hu1-100") None None
                    (Some "hu1") None None None None))
    as (kb & rec & Hk & Hlive & Hrec & Hrk & Hrd & Hrh).
  - vm_compute. reflexivity.
  - exists kb, rec. split; [|auto]. eexists. split; [vm_compute; reflexivity|]. auto.
Defined.

Lemma created_index_reads_tenant_prefix_only_witness :
  let run := KnowledgeBaseManager._create_user_kb (demo_env no_fault) "u1" empty_world in
  exists kb ds src,
    data_sources (snd run) !! ds = Some src /\
    pds_kb src = kb /\
    pds_prefixes src = ["docs/" ++ "hu1" ++ "/"] /\
    is_Some (knowledge_bases (snd run) !! kb).
Proof.
  destruct (created_index_reads_tenant_prefix_only (demo_env no_fault) "u1" empty_world
              (snd (KnowledgeBaseManager._create_user_kb (demo_env no_fault) "u1" empty_world))
              (mkKb (Some "kb-0") (Some "ds-1") (Some "ai-ppt-vectors-hu1-100") None None
                    (Some "hu1") None None None None))
    as (kb & ds & src & _ & _ & _ & Hlive & Hsrc & Hkb & Hp).
  - vm_compute. reflexivity.
  - exists kb, ds, src. auto.
Defined.

Lemma conflict_tolerated (what needle : string) :
  Py.contains "ConflictException" (str_type (Conflict what))
  || Py.contains needle (str_exn (Conflict what)) = true.
Proof. reflexivity. Qed.

Lemma migrator_calls_any (env : Env) (uid : string) (info : KbItem) :
  frames (only_calls (fun _ => true))
    (KnowledgeBaseManager._process_pending_documents env uid info).
Proof.
  unfold KnowledgeBaseManager._process_pending_documents,
    KnowledgeBaseManager.move_pending_object, KnowledgeBaseManager._trigger_ingestion_job,
    s3_list_objects_v2, s3_copy_object, s3_delete_object, doc_update_item, kb_update_item,
    start_ingestion_job, logger_error, utcnow, time_time, fresh_id.
  frame_solve.
Qed.

Section SelfHealing.
Variable env : Env.

Lemma create_user_kb_succeeds (uid : string) (w : World) :
  (forall c, fault env c = None) ->
  exists r w' new,
    KnowledgeBaseManager._create_user_kb env uid w = (Ok r, w') /\
    kb_knowledge_base_id r = Some (provider_id "kb" (next_id w)) /\
    trace w' = (new ++ trace w)%list.
Proof.
  intros Hnf.
  unfold KnowledgeBaseManager._create_user_kb, create_vector_bucket, create_index,
    create_knowledge_base, create_data_source, kb_put_item.
  assert (Hend : forall info (w0 : World),
            exists w1 new,
              KnowledgeBaseManager._process_pending_documents env uid info w0 = (Ok tt, w1) /\
              trace w1 = (new ++ trace w0)%list).
  { intros info w0.
    destruct (process_pending_documents_returns env uid info w0) as [w1 Hw1].
    pose proof (migrator_calls_any env uid info w0) as Hc. rewrite Hw1 in Hc.
    destruct Hc as (new & Hnew & _). eauto. }
  repeat first [run_step | rewrite Hnf | rewrite conflict_tolerated | rewrite lookup_insert_eq].
  destruct (vector_buckets w !! _) as [ixs|] eqn:Hvb;
    repeat first [run_step | rewrite Hnf | rewrite conflict_tolerated
                 | rewrite lookup_insert_eq];
    (destruct (bool_decide _);
     repeat first [run_step | rewrite Hnf | rewrite conflict_tolerated
                  | rewrite lookup_insert_eq]).
  all: match goal with
       | |- context [KnowledgeBaseManager._process_pending_documents _ _ ?info ?w0] =>
           destruct (Hend info w0) as (w1 & new & Hw1 & Hnew); rewrite Hw1
       end.
  all: run; eexists _, _, (new ++ [_; _; _; _; _])%list.
  all: split; [reflexivity|]; split; [reflexivity|].
  all: rewrite Hnew, <- app_assoc; reflexivity.
Qed.

(** X8. With no service failing, a tenant whose record names a knowledge
    base the provider no longer has gets a new one: the stale record is
    deleted, an index is provisioned, and the record then names the new
    knowledge base, which exists. *)
Theorem stale_record_is_replaced
    (uid old : string) (w : World) (rec : KbItem) :
  (forall c, fault env c = None) ->
  user_kb_table w !! uid = Some rec ->
  kb_knowledge_base_id rec = Some old ->
  knowledge_bases w !! old = None ->
  exists r w' rec',
    KnowledgeBaseManager.get_or_create_user_kb env uid w = (Ok r, w') /\
    kb_knowledge_base_id r = Some (provider_id "kb" (next_id w)) /\
    In (KbDeleteItem uid) (calls_since w w') /\
    is_Some (knowledge_bases w' !! provider_id "kb" (next_id w)) /\
    user_kb_table w' !! uid = Some rec' /\
    kb_knowledge_base_id rec' = Some (provider_id "kb" (next_id w)).
Proof.
  intros Hnf Hrec Hold Hgone.
  unfold KnowledgeBaseManager.get_or_create_user_kb,
    KnowledgeBaseManager._get_user_kb_from_db, KnowledgeBaseManager._verify_kb_exists,
    KnowledgeBaseManager._remove_user_kb_from_db, kb_get_item, get_knowledge_base,
    kb_delete_item.
  repeat first [run_step | rewrite Hnf].
  match goal with
  | |- context [KnowledgeBaseManager._create_user_kb env uid ?w1] =>
      destruct (create_user_kb_succeeds uid w1 Hnf) as (r & w' & new & Hrun & Hr & Ht);
      rewrite Hrun
  end.
  run.
  apply create_user_kb_ok in Hrun as (kb & ds & rec' & -> & Hlive & _ & Hrec' & Hk & _).
  revert Hr Ht. run. intros [= ->] Ht.
  exists (mkKb (Some (provider_id "kb" (next_id w))) (Some ds)
               (Some (generated_bucket_name env uid
                        (set_user_kb_table (delete uid)
                           (set_trace (cons (KbDeleteItem uid))
                              (set_trace (cons (GetKnowledgeBase old))
                                 (set_trace (cons (KbGetItem uid)) w))))))
               None None (Some (md5_hex8 env uid)) None None None None), w', rec'.
  split; [reflexivity|]. split; [reflexivity|].
  split; [|auto].
  rewrite (calls_since_app w w' (new ++ [KbDeleteItem uid; GetKnowledgeBase old;
                                          KbGetItem uid])%list)
    by (rewrite Ht, <- app_assoc; reflexivity).
  apply in_or_app. right. left. reflexivity.
Qed.
End SelfHealing.

Lemma stale_record_is_replaced_witness :
  exists r w' rec',
    KnowledgeBaseManager.get_or_create_user_kb (demo_env no_fault) "u1" world_stale_index
    = (Ok r, w') /\
    kb_knowledge_base_id r = Some (provider_id "kb" (next_id world_stale_index)) /\
    In (KbDeleteItem "u1") (calls_since world_stale_index w') /\
    is_Some (knowledge_bases w' !! provider_id "kb" (next_id world_stale_index)) /\
    user_kb_table w' !! "u1" = Some rec' /\
    kb_knowledge_base_id rec' = Some (provider_id "kb" (next_id world_stale_index)).
Proof.
  apply (stale_record_is_replaced (demo_env no_fault) "u1" "kb-0" world_stale_index u1_kb);
    reflexivity.
Defined.

(** ** Deleting an index *)

Section DeleteIndex.

Variable env : Env.

(** X9. When the tenant's record can be read, the provider deletes the
    knowledge base and the record can be deleted, [delete_user_kb] returns
    True; afterwards the knowledge base and every data source of it are
    gone and the tenant has no record. A failure to delete the vector
    bucket does not change this. *)
Theorem delete_user_kb_removes_index
    (uid kb : string) (w : World) (rec : KbItem) :
  fault env (KbGetItem uid) = None ->
  user_kb_table w !! uid = Some rec ->
  kb_knowledge_base_id rec = Some kb ->
  fault env (DeleteKnowledgeBase kb) = None ->
  is_Some (knowledge_bases w !! kb) ->
  fault env (KbDeleteItem uid) = None ->
  exists w',
    KnowledgeBaseManager.delete_user_kb env uid w = (Ok true, w') /\
    knowledge_bases w' !! kb = None /\
    (forall ds src, data_sources w' !! ds = Some src -> pds_kb src <> kb) /\
    user_kb_table w' !! uid = None.
Proof.
  intros Hget Hrec Hkb Hdel [pkb Hlive] Hrm.
  unfold KnowledgeBaseManager.delete_user_kb, KnowledgeBaseManager._get_user_kb_from_db,
    KnowledgeBaseManager._remove_user_kb_from_db, kb_get_item, delete_knowledge_base,
    delete_vector_bucket, kb_delete_item.
  run.
  assert (Hsrc : forall ds src,
            filter (fun kv => pds_kb (snd kv) <> kb) (data_sources w) !! ds = Some src ->
            pds_kb src <> kb).
  { intros ds src Hl. apply map_lookup_filter_Some in Hl as [_ Hl]. exact Hl. }
  destruct (Py.truthy (vector_bucket_name rec)); run.
  - destruct (fault env (DeleteVectorBucket _)); run.
    + eexists. split; [reflexivity|]. run.
      rewrite !lookup_delete_eq. auto.
    + destruct (vector_buckets w !! _); run.
      all: eexists; (split; [reflexivity|]); run; rewrite !lookup_delete_eq; auto.
  - eexists. split; [reflexivity|]. run. rewrite !lookup_delete_eq. auto.
Qed.

(** X10. When the provider does not delete the knowledge base, because
    the call fails or because the knowledge base is already gone,
    [delete_user_kb] returns False and keeps the tenant's record and the
    vector bucket: nothing is deleted and no delete of the record is
    attempted. *)
Theorem delete_user_kb_keeps_record_on_provider_failure
    (uid kb : string) (w : World) (rec : KbItem) :
  fault env (KbGetItem uid) = None ->
  user_kb_table w !! uid = Some rec ->
  kb_knowledge_base_id rec = Some kb ->
  fault env (DeleteKnowledgeBase kb) <> None \/ knowledge_bases w !! kb = None ->
  exists w',
    KnowledgeBaseManager.delete_user_kb env uid w = (Ok false, w') /\
    trace w' = DeleteKnowledgeBase kb :: KbGetItem uid :: trace w /\
    user_kb_table w' = user_kb_table w /\
    knowledge_bases w' = knowledge_bases w /\
    data_sources w' = data_sources w /\
    vector_buckets w' = vector_buckets w.
Proof.
  intros Hget Hrec Hkb Hfail.
  unfold KnowledgeBaseManager.delete_user_kb, KnowledgeBaseManager._get_user_kb_from_db,
    kb_get_item, delete_knowledge_base.
  run.
  destruct (fault env (DeleteKnowledgeBase kb)) as [e|] eqn:Hdel; run.
  - eexists. split; [reflexivity|]. repeat split.
  - destruct Hfail as [Hfail | Hgone]; [congruence|]. run.
    eexists. split; [reflexivity|]. repeat split.
Qed.

(** X11. When the tenant has no record, or the record cannot be read,
    [delete_user_kb] returns True after that one read: the provider is
    not called and nothing is deleted. *)
Theorem delete_user_kb_without_record
    (uid : string) (w : World) :
  fault env (KbGetItem uid) <> None \/ user_kb_table w !! uid = None ->
  exists w',
    KnowledgeBaseManager.delete_user_kb env uid w = (Ok true, w') /\
    trace w' = KbGetItem uid :: trace w /\
    user_kb_table w' = user_kb_table w /\
    knowledge_bases w' = knowledge_bases w /\
    data_sources w' = data_sources w /\
    vector_buckets w' = vector_buckets w.
Proof.
  intros Hnone.
  unfold KnowledgeBaseManager.delete_user_kb, KnowledgeBaseManager._get_user_kb_from_db,
    kb_get_item.
  run.
  destruct (fault env (KbGetItem uid)) as [e|] eqn:Hget; run.
  - eexists. split; [reflexivity|]. repeat split.
  - destruct Hnone as [Hnone | Hnone]; [congruence|]. run.
    eexists. split; [reflexivity|]. repeat split.
Qed.

End DeleteIndex.

Lemma delete_user_kb_removes_index_witness :
  exists w',
    KnowledgeBaseManager.delete_user_kb (demo_env no_fault) "u1" world_with_index
    = (Ok true, w') /\
    knowledge_bases w' !! "kb-0" = None /\
    (forall ds src, data_sources w' !! ds = Some src -> pds_kb src <> "kb-0") /\
    user_kb_table w' !! "u1" = None.
Proof.
  apply (delete_user_kb_removes_index (demo_env no_fault) "u1" "kb-0" world_with_index
           u1_kb); try reflexivity.
  vm_compute. eauto.
Defined.

Lemma delete_user_kb_keeps_record_on_provider_failure_witness :
  exists w',
    KnowledgeBaseManager.delete_user_kb (demo_env no_fault) "u1" world_stale_index
    = (Ok false, w') /\
    trace w' = DeleteKnowledgeBase "kb-0" :: KbGetItem "u1" :: trace world_stale_index /\
    user_kb_table w' = user_kb_table world_stale_index /\
    knowledge_bases w' = knowledge_bases world_stale_index /\
    data_sources w' = data_sources world_stale_index /\
    vector_buckets w' = vector_buckets world_stale_index.
Proof.
  apply (delete_user_kb_keeps_record_on_provider_failure (demo_env no_fault) "u1" "kb-0"
           world_stale_index u1_kb); try reflexivity.
  right. reflexivity.
Defined.

Lemma delete_user_kb_without_record_witness :
  exists w',
    KnowledgeBaseManager.delete_user_kb (demo_env no_fault) "u1" empty_world = (Ok true, w') /\
    trace w' = KbGetItem "u1" :: trace empty_world /\
    user_kb_table w' = user_kb_table empty_world /\
    knowledge_bases w' = knowledge_bases empty_world /\
    data_sources w' = data_sources empty_world /\
    vector_buckets w' = vector_buckets empty_world.
Proof.
  apply (delete_user_kb_without_record (demo_env no_fault) "u1" empty_world).
  right. reflexivity.
Defined.

(** ** Uploading a document *)

Section Upload.

Variable env : Env.

Lemma lambda_invoke_event_calls (ev : KbEvent) :
  frames (only_calls upload_call) (DocumentProcessor.lambda_invoke env Event ev).
Proof.
  unfold DocumentProcessor.lambda_invoke.
  apply frames_call; [exact _ | frame_side | frame_solve].
Qed.

Lemma process_document_calls (content fname uid : string) :
  frames (only_calls upload_call) (DocumentProcessor.process_document env content fname uid).
Proof.
  pose proof lambda_invoke_event_calls.
  unfold DocumentProcessor.process_document, DocumentProcessor._get_existing_user_kb,
    DocumentProcessor._verify_kb_exists, DocumentProcessor._process_with_existing_kb,
    DocumentProcessor._start_async_kb_creation, DocumentProcessor._trigger_kb_ingestion,
    kb_get_item, kb_delete_item, get_knowledge_base, s3_put_object, doc_put_item,
    doc_update_item, start_ingestion_job, logger_error, utcnow, fresh_id.
  frame_solve.
Qed.

(** X12. Under any fault plan an upload returns a result, never an
    exception, and the only service calls it makes are reads and writes
    of the two tables and the bucket, the verification of the index, the
    start of an ingestion job and the queueing of the manager: it never
    provisions or deletes an index, never waits for another function and
    never copies or deletes a blob. *)
Theorem upload_never_provisions (content fname uid : string) (w : World) :
  exists r w',
    DocumentProcessor.process_document env content fname uid w = (Ok r, w') /\
    only_calls upload_call w w'.
Proof.
  pose proof (process_document_calls content fname uid w) as Hc.
  revert Hc. unfold DocumentProcessor.process_document at 1 2, try_.
  match goal with |- context [match ?m w with _ => _ end] => destruct (m w) as [[r|e] w1] end.
  - intros Hc. eauto.
  - run. intros Hc. eauto.
Qed.

End Upload.

Section UploadPaths.

Variable env : Env.

(** X13. The upload of a tenant without a record parks the document: it
    answers 'creating_knowledge_base', the content is stored under the
    pending key of the tenant and the new document id, the record of the
    document carries that key and that status, the creation of the index
    is queued as an event carrying the same key, and the tenant-index
    table is not written. *)
Theorem first_upload_is_parked (content fname uid : string) (w : World) :
  let id := uuid4 env (uuid_seed w) in
  let key := pending_key uid id fname in
  let request := mkEvent OpCreateAndProcess uid (Some id) (Some fname) (Some key) in
  user_kb_table w !! uid = None ->
  fault env (S3PutObject key) = None ->
  fault env (DocPutItem id) = None ->
  fault env (LambdaInvoke Event request) = None ->
  exists r w' o d,
    DocumentProcessor.process_document env content fname uid w = (Ok r, w') /\
    up_success r = true /\
    up_documentId r = Some id /\
    up_sync_status r = Some "creating_knowledge_base" /\
    bucket w' !! key = Some o /\ obj_body o = content /\
    documents_table w' !! id = Some d /\
    user_id d = Some uid /\ s3_key d = Some key /\
    sync_status d = Some "creating_knowledge_base" /\
    In (LambdaInvoke Event request) (calls_since w w') /\
    user_kb_table w' = user_kb_table w.
Proof.
  intros id key request Hnone Hput Hdoc Hinv. subst request. unfold pending_key in *.
  subst key id.
  unfold DocumentProcessor.process_document, DocumentProcessor._get_existing_user_kb,
    DocumentProcessor._start_async_kb_creation, DocumentProcessor.lambda_invoke,
    kb_get_item, s3_put_object, doc_put_item.
  run.
  destruct (fault env (KbGetItem uid)) as [e|]; run.
  all: do 4 eexists; split; [reflexivity|]; run_world.
  all: rewrite !lookup_insert_eq.
  all: repeat (split; [reflexivity|]).
  all: split; [|reflexivity].
  all: rewrite (calls_since_app w _ [_; _; _; _]) by reflexivity; left; reflexivity.
Qed.

(** X14. With no service failing, the upload of a tenant whose index is
    live stores the content under the final key, starts an ingestion job
    for the tenant's index and data source, and leaves the record of the
    document with status 'syncing' and the id of that job, although the
    result it returns says 'processing'. *)
Theorem upload_with_index_starts_job
    (content fname uid kb ds uhash : string) (w : World) (rec : KbItem) :
  let id := uuid4 env (uuid_seed w) in
  let key := final_key uhash id fname in
  let job := provider_id "job" (next_id w) in
  (forall c, fault env c = None) ->
  user_kb_table w !! uid = Some rec ->
  kb_knowledge_base_id rec = Some kb ->
  kb_data_source_id rec = Some ds ->
  user_hash rec = Some uhash ->
  is_Some (knowledge_bases w !! kb) ->
  source_exists kb ds w = true ->
  exists r w' o d,
    DocumentProcessor.process_document env content fname uid w = (Ok r, w') /\
    up_success r = true /\
    up_documentId r = Some id /\
    up_s3_key r = Some key /\
    up_sync_status r = Some "processing" /\
    bucket w' !! key = Some o /\ obj_body o = content /\
    documents_table w' !! id = Some d /\
    user_id d = Some uid /\ s3_key d = Some key /\
    knowledge_base_id d = Some kb /\
    sync_status d = Some "syncing" /\
    ingestion_job_id d = Some job /\
    In (mkJob job kb ds "STARTING" None ("Ingestion for document " ++ id))
       (ingestion_jobs w').
Proof.
  intros id key job Hnf Hrec Hkb Hds Hh [pkb Hlive] Hsrc. unfold final_key in *.
  subst key id job.
  unfold DocumentProcessor.process_document, DocumentProcessor._get_existing_user_kb,
    DocumentProcessor._verify_kb_exists, DocumentProcessor._process_with_existing_kb,
    DocumentProcessor._trigger_kb_ingestion, kb_get_item, get_knowledge_base,
    s3_put_object, doc_put_item, doc_update_item, start_ingestion_job.
  repeat first [run_step | rewrite Hnf].
  replace (source_exists kb ds _) with (source_exists kb ds w) by reflexivity.
  rewrite Hsrc.
  repeat first [run_step | rewrite Hnf].
  do 4 eexists. split; [reflexivity|]. run_world.
  unfold upsert_doc. rewrite !lookup_insert_eq.
  cbn [default from_option id].
  repeat (split; [reflexivity|]).
  left. reflexivity.
Qed.

(** X15. When the verification of the tenant's index fails, because the
    provider has no such knowledge base or because the call itself
    fails, the upload deletes the tenant's record and does not use the
    index: the provider's knowledge bases are left as they were. *)
Theorem upload_drops_unverified_record
    (content fname uid kb : string) (w : World) (rec : KbItem) :
  fault env (KbGetItem uid) = None ->
  user_kb_table w !! uid = Some rec ->
  kb_knowledge_base_id rec = Some kb ->
  fault env (GetKnowledgeBase kb) <> None \/ knowledge_bases w !! kb = None ->
  fault env (KbDeleteItem uid) = None ->
  exists r w',
    DocumentProcessor.process_document env content fname uid w = (Ok r, w') /\
    up_knowledge_base_id r = None /\
    user_kb_table w' !! uid = None /\
    knowledge_bases w' = knowledge_bases w /\
    count_calls is_start_ingestion_job w w' = 0.
Proof.
  intros Hget Hrec Hkb Hfail Hdel.
  assert (Hslow : forall id (w0 : World),
            user_kb_table w0 !! uid = None ->
            knowledge_bases w0 = knowledge_bases w ->
            (exists pre, trace w0 = (pre ++ trace w)%list /\
                         forallb not_start_job pre = true) ->
            forall res w',
              DocumentProcessor._start_async_kb_creation env content fname uid id w0
              = (res, w') ->
              (forall r, res = Ok r -> up_knowledge_base_id r = None) /\
              user_kb_table w' !! uid = None /\
              knowledge_bases w' = knowledge_bases w /\
              count_calls is_start_ingestion_job w w' = 0).
  { intros id w0 Hn Hk (pre & Hpre & Hok) res w'.
    unfold DocumentProcessor._start_async_kb_creation, DocumentProcessor.lambda_invoke,
      s3_put_object, doc_put_item.
    run.
    assert (Hcount : forall (w1 : World) new,
              trace w1 = (new ++ trace w0)%list -> forallb not_start_job new = true ->
              count_calls is_start_ingestion_job w w1 = 0).
    { intros w1 new Ht Hnew. apply (only_calls_count _ not_start_job).
      - intros c Hc. unfold not_start_job in Hc. apply negb_true_iff in Hc. exact Hc.
      - exists (new ++ pre)%list. split.
        + rewrite Ht, Hpre. apply app_assoc.
        + rewrite forallb_app, Hnew, Hok. reflexivity. }
    destruct (fault env (S3PutObject _)); run.
    { intros [= <- <-]. run_world. split; [intros r [=]|].
      repeat (split; [assumption || reflexivity|]).
      eapply (Hcount _ [_]); reflexivity. }
    destruct (fault env (DocPutItem id)); run.
    { intros [= <- <-]. run_world. split; [intros r [=]|].
      repeat (split; [assumption || reflexivity|]).
      eapply (Hcount _ [_; _]); reflexivity. }
    destruct (fault env (LambdaInvoke Event _)); run.
    { intros [= <- <-]. run_world. split; [intros r [=]|].
      repeat (split; [assumption || reflexivity|]).
      eapply (Hcount _ [_; _; _]); reflexivity. }
    intros [= <- <-]. run_world. split; [intros r [= <-]; reflexivity|].
    repeat (split; [assumption || reflexivity|]).
    eapply (Hcount _ [_; _; _]); reflexivity. }
  unfold DocumentProcessor.process_document, DocumentProcessor._get_existing_user_kb,
    DocumentProcessor._verify_kb_exists, kb_get_item, get_knowledge_base, kb_delete_item.
  run.
  assert (Hfin : forall w0 : World,
            user_kb_table w0 !! uid = None ->
            knowledge_bases w0 = knowledge_bases w ->
            trace w0 = ([KbDeleteItem uid; GetKnowledgeBase kb; KbGetItem uid]
                          ++ trace w)%list ->
            exists r w',
              (let (r0, s') :=
                 DocumentProcessor._start_async_kb_creation env content fname uid
                   (uuid4 env (uuid_seed w)) w0 in
               match r0 with
               | Ok a => (Ok a, s')
               | Raise e =>
                   (Ok (mkUpload false None None None None
                          ("Document processing failed: " ++ str_exn e) None None),
                    set_error_log
                      (cons ("Failed to process document " ++ fname ++ " for user "
                             ++ uid ++ ": " ++ str_exn e)) s')
               end) = (Ok r, w') /\
              up_knowledge_base_id r = None /\
              user_kb_table w' !! uid = None /\
              knowledge_bases w' = knowledge_bases w /\
              count_calls is_start_ingestion_job w w' = 0).
  { intros w0 Hn Hk Ht.
    destruct (DocumentProcessor._start_async_kb_creation env content fname uid
                (uuid4 env (uuid_seed w)) w0) as [[r|e] w1] eqn:Hrun.
    - destruct (Hslow _ w0 Hn Hk (ex_intro _ _ (conj Ht eq_refl)) _ _ Hrun)
        as (Hr & Hu & Hkb' & Hc).
      exists r, w1. split; [reflexivity|]. split; [apply Hr; reflexivity|]. auto.
    - destruct (Hslow _ w0 Hn Hk (ex_intro _ _ (conj Ht eq_refl)) _ _ Hrun)
        as (Hr & Hu & Hkb' & Hc).
      do 2 eexists. split; [reflexivity|]. split; [reflexivity|]. auto. }
  destruct (fault env (GetKnowledgeBase kb)) as [e|] eqn:Hver; run.
  - apply Hfin; [run_world; apply lookup_delete_eq | reflexivity | reflexivity].
  - destruct Hfail as [Hfail | Hgone]; [congruence|]. run.
    apply Hfin; [run_world; apply lookup_delete_eq | reflexivity | reflexivity].
Qed.

End UploadPaths.

Lemma first_upload_is_parked_witness :
  exists r w' o d,
    DocumentProcessor.process_document (demo_env no_fault) "hello" "a.pdf" "u1" empty_world
    = (Ok r, w') /\
    up_success r = true /\
    up_documentId r = Some "doc-0" /\
    up_sync_status r = Some "creating_knowledge_base" /\
    bucket w' !! "pending/u1/doc-0/a.pdf" = Some o /\ obj_body o = "hello" /\
    documents_table w' !! "doc-0" = Some d /\
    user_id d = Some "u1" /\ s3_key d = Some "pending/u1/doc-0/a.pdf" /\
    sync_status d = Some "creating_knowledge_base" /\
    In (LambdaInvoke Event
          (mkEvent OpCreateAndProcess "u1" (Some "doc-0") (Some "a.pdf")
             (Some "pending/u1/doc-0/a.pdf")))
       (calls_since empty_world w') /\
    user_kb_table w' = user_kb_table empty_world.
Proof.
  apply (first_upload_is_parked (demo_env no_fault) "hello" "a.pdf" "u1" empty_world);
    reflexivity.
Defined.

Lemma upload_with_index_starts_job_witness :
  exists r w' o d,
    DocumentProcessor.process_document (demo_env no_fault) "hello" "a.pdf" "u1"
      world_with_index = (Ok r, w') /\
    up_success r = true /\
    up_documentId r = Some "doc-0" /\
    up_s3_key r = Some "docs/hu1/doc-0/a.pdf" /\
    up_sync_status r = Some "processing" /\
    bucket w' !! "docs/hu1/doc-0/a.pdf" = Some o /\ obj_body o = "hello" /\
    documents_table w' !! "doc-0" = Some d /\
    user_id d = Some "u1" /\ s3_key d = Some "docs/hu1/doc-0/a.pdf" /\
    knowledge_base_id d = Some "kb-0" /\
    sync_status d = Some "syncing" /\
    ingestion_job_id d = Some "job-2" /\
    In (mkJob "job-2" "kb-0" "ds-1" "STARTING" None ("Ingestion for document " ++ "doc-0"))
       (ingestion_jobs w').
Proof.
  apply (upload_with_index_starts_job (demo_env no_fault) "hello" "a.pdf" "u1" "kb-0" "ds-1"
           "hu1" world_with_index u1_kb); try reflexivity.
  vm_compute. eauto.
Defined.

Lemma upload_drops_unverified_record_witness :
  exists r w',
    DocumentProcessor.process_document (demo_env no_fault) "hello" "a.pdf" "u1"
      world_stale_index = (Ok r, w') /\
    up_knowledge_base_id r = None /\
    user_kb_table w' !! "u1" = None /\
    knowledge_bases w' = knowledge_bases world_stale_index /\
    count_calls is_start_ingestion_job world_stale_index w' = 0.
Proof.
  apply (upload_drops_unverified_record (demo_env no_fault) "hello" "a.pdf" "u1" "kb-0"
           world_stale_index u1_kb); try reflexivity.
  right. reflexivity.
Defined.

(** ** Deleting a document, further *)

#[export] Instance storage_same_frame : Frame storage_same.
Proof.
  split.
  - intros w. repeat split.
  - intros w1 w2 w3 (Hb1 & Hd1 & Hk1) (Hb2 & Hd2 & Hk2). repeat split; congruence.
Qed.

Section DeleteDocument.

Variable env : Env.

Lemma trigger_sync_after_delete_spec (document_id uid : string) (w : World) :
  exists w' new,
    DocumentProcessor.trigger_sync_after_delete env document_id uid w = (Ok tt, w') /\
    storage_same w w' /\
    trace w' = (new ++ trace w)%list.
Proof.
  assert (Hf : frames storage_same
                 (DocumentProcessor.trigger_sync_after_delete env document_id uid)).
  { unfold DocumentProcessor.trigger_sync_after_delete, kb_get_item, start_ingestion_job,
      logger_error, fresh_id.
    frame_solve. }
  assert (Hc : frames (only_calls (fun _ => true))
                 (DocumentProcessor.trigger_sync_after_delete env document_id uid)).
  { unfold DocumentProcessor.trigger_sync_after_delete, kb_get_item, start_ingestion_job,
      logger_error, fresh_id.
    frame_solve. }
  specialize (Hf w). specialize (Hc w). revert Hf Hc.
  unfold DocumentProcessor.trigger_sync_after_delete at 1 2 3, try_.
  match goal with |- context [match ?m w with _ => _ end] => destruct (m w) as [[[]|e] w1] end.
  - intros Hf (new & Hnew & _). eauto.
  - run. intros Hf (new & Hnew & _). eauto.
Qed.

(** X16. Under any fault plan, and whatever document id is passed,
    [delete_document] returns a boolean, leaves every record of another
    tenant and every record under another id as it was, and does not
    write the tenant-index table. *)
Theorem delete_document_spares_other_records (document_id uid : string) (w : World) :
  exists b w',
    DocumentProcessor.delete_document env document_id uid w = (Ok b, w') /\
    (forall k d, documents_table w !! k = Some d -> user_id d <> Some uid ->
                 documents_table w' !! k = Some d) /\
    (forall k, k <> document_id -> documents_table w' !! k = documents_table w !! k) /\
    user_kb_table w' = user_kb_table w.
Proof.
  unfold DocumentProcessor.delete_document, DocumentProcessor.fetch_owned_document,
    doc_get_item, s3_delete_object, doc_delete_item.
  run.
  destruct (fault env (DocGetItem document_id)); run; [eauto 10|].
  destruct (documents_table w !! document_id) as [item|] eqn:Hitem; run; [|eauto 10].
  destruct (bool_decide (user_id item = Some uid)) eqn:Hown; run; [|eauto 10].
  apply bool_decide_eq_true_1 in Hown.
  set (key := if Py.truthy (s3_key item) then s3_key item else s3Key item).
  assert (Hfinish : forall w0 : World,
            documents_table w0 = documents_table w ->
            user_kb_table w0 = user_kb_table w ->
            forall b w',
              (fault env (DocDeleteItem document_id) <> None /\ b = false /\
               documents_table w' = documents_table w /\
               user_kb_table w' = user_kb_table w) \/
              (b = true /\
               documents_table w' = delete document_id (documents_table w) /\
               user_kb_table w' = user_kb_table w) ->
              (forall k d, documents_table w !! k = Some d -> user_id d <> Some uid ->
                           documents_table w' !! k = Some d) /\
              (forall k, k <> document_id ->
                         documents_table w' !! k = documents_table w !! k) /\
              user_kb_table w' = user_kb_table w).
  { intros w0 _ _ b w' [(_ & _ & Hd & Hk) | (_ & Hd & Hk)]; rewrite Hd.
    - auto.
    - split; [|split; [|exact Hk]].
      + intros k d Hl Hne. rewrite lookup_delete_ne; [exact Hl|].
        intros <-. rewrite Hitem in Hl. injection Hl as <-. contradiction.
      + intros k Hne. apply lookup_delete_ne. congruence. }
  destruct (Py.truthy key); run.
  - destruct (fault env (S3DeleteObject _)); run.
    all: destruct (fault env (DocDeleteItem document_id)) eqn:Hdel; run.
    all: try (match goal with
              | |- context [DocumentProcessor.trigger_sync_after_delete _ ?a ?b ?w0] =>
                  destruct (trigger_sync_after_delete_spec a b w0)
                    as (w1 & new & Hrun & (Hb & Hd & Hk) & _); rewrite Hrun
              end; run).
    all: do 2 eexists; (split; [reflexivity|]).
    all: eapply (Hfinish w); try reflexivity.
    all: first [ left; split; [congruence|]; repeat split; reflexivity
               | right; split; [reflexivity|]; rewrite Hd, Hk; split; reflexivity ].
  - destruct (fault env (DocDeleteItem document_id)) eqn:Hdel; run.
    all: try (match goal with
              | |- context [DocumentProcessor.trigger_sync_after_delete _ ?a ?b ?w0] =>
                  destruct (trigger_sync_after_delete_spec a b w0)
                    as (w1 & new & Hrun & (Hb & Hd & Hk) & _); rewrite Hrun
              end; run).
    all: do 2 eexists; (split; [reflexivity|]).
    all: eapply (Hfinish w); try reflexivity.
    all: first [ left; split; [congruence|]; repeat split; reflexivity
               | right; split; [reflexivity|]; rewrite Hd, Hk; split; reflexivity ].
Qed.

(** X17. For a document the caller owns and whose record can be read,
    [delete_document] returns True exactly when the delete of the record
    succeeds, and then the record is gone. When the delete of the record
    fails it returns False, keeps the record and requests no resync; the
    blob, whose delete comes first, is gone in both cases. *)
Theorem delete_document_result_follows_record_delete
    (document_id uid key : string) (w : World) (item : DocItem) :
  documents_table w !! document_id = Some item ->
  user_id item = Some uid ->
  s3_key item = Some key -> key <> "" ->
  fault env (DocGetItem document_id) = None ->
  fault env (S3DeleteObject key) = None ->
  exists b w',
    DocumentProcessor.delete_document env document_id uid w = (Ok b, w') /\
    (b = true <-> fault env (DocDeleteItem document_id) = None) /\
    bucket w' !! key = None /\
    (b = true -> documents_table w' = delete document_id (documents_table w)) /\
    (b = false -> documents_table w' = documents_table w /\
                  count_calls is_start_ingestion_job w w' = 0).
Proof.
  intros Hitem Hown Hkey Hne Hget Hblob.
  unfold DocumentProcessor.delete_document, DocumentProcessor.fetch_owned_document,
    doc_get_item, s3_delete_object, doc_delete_item.
  run. rewrite bool_decide_eq_true_2 by assumption. run.
  rewrite Hkey.
  repeat first [run_step | rewrite (truthy_Some key Hne)].
  destruct (fault env (DocDeleteItem document_id)) as [e|] eqn:Hdel; run.
  - do 2 eexists. split; [reflexivity|]. run_world.
    split; [split; discriminate|]. split; [apply lookup_delete_eq|].
    split; [discriminate|]. intros _. split; [reflexivity|].
    unfold count_calls. rewrite (calls_since_app w _ [DocDeleteItem document_id; S3DeleteObject key;
                                   DocGetItem document_id]) by reflexivity.
    reflexivity.
  - match goal with
    | |- context [DocumentProcessor.trigger_sync_after_delete _ ?a ?b ?w0] =>
        destruct (trigger_sync_after_delete_spec a b w0)
          as (w1 & new & Hrun & (Hb & Hd & Hk) & _); rewrite Hrun
    end.
    run. do 2 eexists. split; [reflexivity|].
    split; [split; reflexivity|]. rewrite Hb, Hd. run_world.
    split; [apply lookup_delete_eq|]. split; [reflexivity | discriminate].
Qed.

(** X18. [get_sync_status] gives the same answer, 'Document not found',
    for a document of another tenant as for a document that does not
    exist, after the one read of the record: nothing is written and the
    reconciler is not invoked. *)
Theorem sync_status_hides_foreign_documents (document_id uid : string) (w : World) :
  (forall d, documents_table w !! document_id = Some d -> user_id d <> Some uid) ->
  fault env (DocGetItem document_id) = None ->
  DocumentProcessor.get_sync_status env document_id uid w
  = (Ok (SyncFailure "Document not found"), set_trace (cons (DocGetItem document_id)) w).
Proof.
  intros Hforeign Hget.
  unfold DocumentProcessor.get_sync_status, doc_get_item. run.
  destruct (documents_table w !! document_id) as [d|] eqn:Hd; run; [|reflexivity].
  rewrite bool_decide_eq_false_2 by (apply Hforeign; reflexivity). reflexivity.
Qed.

End DeleteDocument.

Lemma delete_document_result_follows_record_delete_witness :
  exists b w',
    DocumentProcessor.delete_document (demo_env record_delete_fails) "d1" "u1" world_own_doc
    = (Ok b, w') /\
    (b = true <-> fault (demo_env record_delete_fails) (DocDeleteItem "d1") = None) /\
    bucket w' !! "docs/hu1/d1/a.pdf" = None /\
    (b = true -> documents_table w' = delete "d1" (documents_table world_own_doc)) /\
    (b = false -> documents_table w' = documents_table world_own_doc /\
                  count_calls is_start_ingestion_job world_own_doc w' = 0).
Proof.
  apply (delete_document_result_follows_record_delete (demo_env record_delete_fails)
           "d1" "u1" "docs/hu1/d1/a.pdf" world_own_doc own_doc); try reflexivity.
  discriminate.
Defined.

Lemma sync_status_hides_foreign_documents_witness :
  DocumentProcessor.get_sync_status (demo_env no_fault) "d1" "u1" world_foreign_doc
  = (Ok (SyncFailure "Document not found"),
     set_trace (cons (DocGetItem "d1")) world_foreign_doc).
Proof.
  apply (sync_status_hides_foreign_documents (demo_env no_fault) "d1" "u1" world_foreign_doc).
  - intros d Hd. vm_compute in Hd. injection Hd as <-. discriminate.
  - reflexivity.
Defined.

(** ** The reconciler, record by record *)

Lemma same_core_mark (ts st msg : string) (d : DocItem) : same_core d (mark ts st msg d).
Proof. destruct d. repeat split. Qed.

Lemma same_core_refl (d : DocItem) : same_core d d.
Proof. repeat split. Qed.

Lemma job_matches_status (job : IngestionJob) (d : DocItem) :
  job_matches job d = true ->
  ingestion_job_id d = Some (ingestionJobId job) /\
  (sync_status d = Some "processing" \/ sync_status d = Some "syncing") /\
  (job_status job = "COMPLETE" \/ job_status job = "FAILED").
Proof.
  unfold job_matches, scan_filter.
  destruct (String.eqb_spec (job_status job) "COMPLETE") as [Hc|Hc].
  - intros H. apply andb_true_iff in H as [Hid Hst].
    apply bool_decide_eq_true in Hid.
    destruct (sync_status d) as [s|]; [|discriminate].
    apply bool_decide_eq_true in Hst. rewrite !elem_of_cons in Hst.
    destruct Hst as [->|[->|Hst]]; [auto | auto | inversion Hst].
  - destruct (String.eqb_spec (job_status job) "FAILED") as [Hf|Hf]; [|discriminate].
    intros H. apply andb_true_iff in H as [Hid Hst].
    apply bool_decide_eq_true in Hid.
    destruct (sync_status d) as [s|]; [|discriminate].
    apply bool_decide_eq_true in Hst. rewrite !elem_of_cons in Hst.
    destruct Hst as [->|Hst]; [auto | inversion Hst].
Qed.

Lemma job_mark_terminal (job : IngestionJob) (ts : string) (d : DocItem) :
  sync_status (job_mark job ts d) = Some "completed" \/
  sync_status (job_mark job ts d) = Some "failed".
Proof.
  unfold job_mark. destruct (String.eqb (job_status job) "COMPLETE"); destruct d; cbn; auto.
Qed.

Lemma job_matches_marked (j job : IngestionJob) (ts : string) (d : DocItem) :
  job_matches j (job_mark job ts d) = false.
Proof.
  destruct (job_matches j (job_mark job ts d)) eqn:Hm; [|reflexivity].
  apply job_matches_status in Hm as (_ & Hst & _).
  destruct (job_mark_terminal job ts d) as [H|H]; rewrite H in Hst;
    destruct Hst as [Hst|Hst]; discriminate.
Qed.

Lemma reconciled_tables_refl (jobs : list IngestionJob) (t : gmap string DocItem) :
  reconciled_tables jobs t t.
Proof. intros k. destruct (t !! k); auto. Qed.

Lemma reconciled_tables_eq (jobs : list IngestionJob) (t t' : gmap string DocItem) :
  t' = t -> reconciled_tables jobs t t'.
Proof. intros ->. apply reconciled_tables_refl. Qed.

Lemma reconciled_tables_cons (job : IngestionJob) (jobs : list IngestionJob)
    (t t1 t2 : gmap string DocItem) :
  reconciled_tables [job] t t1 ->
  reconciled_tables jobs t1 t2 ->
  reconciled_tables (job :: jobs) t t2.
Proof.
  intros H1 H2 k. specialize (H1 k). specialize (H2 k).
  destruct (t !! k) as [d|], (t1 !! k) as [d1|], (t2 !! k) as [d2|]; try contradiction;
    try exact I.
  destruct H1 as [->|(j & ts & Hj & Hm & ->)].
  - destruct H2 as [->|(j & ts & Hj & Hm & ->)]; [auto|].
    right. exists j, ts. split; [right; exact Hj | auto].
  - apply list_elem_of_singleton in Hj as ->.
    destruct H2 as [->|(j & ts' & Hj & Hm' & _)].
    + right. exists job, ts. split; [left | auto].
    + rewrite job_matches_marked in Hm'. discriminate.
Qed.

Lemma reconciled_tables_same_core (jobs : list IngestionJob) (t t' : gmap string DocItem) :
  reconciled_tables jobs t t' -> same_core_tables t t'.
Proof.
  intros H k. specialize (H k).
  destruct (t !! k) as [d|], (t' !! k) as [d'|]; try contradiction; try exact I.
  destruct H as [->|(j & ts & _ & _ & ->)]; [apply same_core_refl|].
  unfold job_mark. destruct (String.eqb (job_status j) "COMPLETE"); apply same_core_mark.
Qed.

Section ReconcilerRecords.

Variable env : Env.

(** One branch of the loop body marks documents its scan found. *)
Lemma scan_and_mark_tables (counted : bool) (statuses : list string)
    (st msg : string) (logtxt : Exn -> string) (job_id : string) (c : nat) (w : World) :
  exists c' w' done,
    scan_and_mark env counted statuses st msg logtxt job_id (c, w) = (Ok tt, (c', w')) /\
    documents_table w'
    = mark_all (mark (isoformat env (now w)) st msg) done (documents_table w) /\
    NoDup done /\
    (forall k, k ∈ done ->
               exists d, documents_table w !! k = Some d /\
                         scan_filter job_id statuses d = true).
Proof.
  unfold scan_and_mark, doc_scan. run.
  destruct (fault env (DocScan job_id statuses)) as [e|] eqn:Hscan; run.
  - eexists _, _, []. split; [reflexivity|]. split; [reflexivity|].
    split; [constructor|]. intros k Hk. inversion Hk.
  - set (w1 := set_trace (cons (DocScan job_id statuses)) w).
    set (items := scan_keys job_id statuses (documents_table w)).
    destruct (update_scanned_spec env counted st msg items c w1)
      as (done & rest & r & w' & Hrun & Hitems & Hdone & Hrest & Hdocs & Hframe).
    rewrite Hrun.
    assert (Hnd : NoDup done).
    { pose proof (NoDup_scan_keys job_id statuses (documents_table w)) as H.
      fold items in H. rewrite Hitems in H. apply NoDup_app in H. tauto. }
    assert (Hmatched : forall k, k ∈ done ->
              exists d, documents_table w !! k = Some d /\
                        scan_filter job_id statuses d = true).
    { intros k Hk. apply scan_keys_spec. fold items. rewrite Hitems, elem_of_app. auto. }
    destruct r as [[]|e]; run.
    + eexists _, _, done. split; [reflexivity|]. auto.
    + eexists _, _, done. split; [reflexivity|]. auto.
Qed.

Lemma mark_all_tables (f : DocItem -> DocItem) (p : DocItem -> bool) (done : list string)
    (t : gmap string DocItem) (k : string) :
  NoDup done ->
  (forall k, k ∈ done -> exists d, t !! k = Some d /\ p d = true) ->
  match t !! k, mark_all f done t !! k with
  | Some d, Some d' => d' = d \/ (p d = true /\ d' = f d)
  | None, None => True
  | _, _ => False
  end.
Proof.
  intros Hnd Hm. rewrite mark_all_lookup by exact Hnd.
  destruct (decide (k ∈ done)) as [Hin|Hin].
  - destruct (Hm k Hin) as (d & Hd & Hp). rewrite Hd. cbn. auto.
  - destruct (t !! k); auto.
Qed.

Lemma reconcile_job_tables (job : IngestionJob) (c : nat) (w : World) :
  exists c' w',
    KnowledgeBaseManager.reconcile_job env job (c, w) = (Ok tt, (c', w')) /\
    reconciled_tables [job] (documents_table w) (documents_table w').
Proof.
  rewrite reconcile_job_branches. unfold reconciled_tables, job_matches, job_mark.
  destruct (String.eqb (job_status job) "COMPLETE") eqn:Hc.
  - destruct (scan_and_mark_tables true ["processing"; "syncing"] "completed"
                "Document successfully indexed in Knowledge Base"
                (fun e => "Failed to update documents for job " ++ ingestionJobId job
                          ++ ": " ++ str_exn e)
                (ingestionJobId job) c w) as (c' & w' & done & Hrun & Hdocs & Hnd & Hm).
    exists c', w'. split; [exact Hrun|]. intros k. rewrite Hdocs.
    pose proof (mark_all_tables
                  (mark (isoformat env (now w)) "completed"
                     "Document successfully indexed in Knowledge Base")
                  (scan_filter (ingestionJobId job) ["processing"; "syncing"])
                  done (documents_table w) k Hnd Hm) as H.
    revert H.
    destruct (documents_table w !! k), (mark_all _ done (documents_table w) !! k);
      intros H; try exact H.
    destruct H as [H|[Hp H]]; [auto|]. right. exists job, (isoformat env (now w)).
    rewrite Hc. split; [left | auto].
  - destruct (String.eqb (job_status job) "FAILED") eqn:Hf.
    + destruct (scan_and_mark_tables false ["processing"] "failed"
                  "Knowledge Base ingestion failed"
                  (fun e => "Failed to update failed documents for job "
                            ++ ingestionJobId job ++ ": " ++ str_exn e)
                  (ingestionJobId job) c w) as (c' & w' & done & Hrun & Hdocs & Hnd & Hm).
      exists c', w'. split; [exact Hrun|]. intros k. rewrite Hdocs.
      pose proof (mark_all_tables
                    (mark (isoformat env (now w)) "failed" "Knowledge Base ingestion failed")
                    (scan_filter (ingestionJobId job) ["processing"])
                    done (documents_table w) k Hnd Hm) as H.
      revert H.
      destruct (documents_table w !! k), (mark_all _ done (documents_table w) !! k);
        intros H; try exact H.
      destruct H as [H|[Hp H]]; [auto|]. right. exists job, (isoformat env (now w)).
      rewrite Hc, Hf. split; [left | auto].
    + exists c, w. split; [reflexivity|]. intros k.
      destruct (documents_table w !! k); auto.
Qed.

Lemma reconcile_loop_tables (jobs : list IngestionJob) :
  forall (c : nat) (w : World),
  exists c' w',
    for_each jobs (KnowledgeBaseManager.reconcile_job env) (c, w) = (Ok tt, (c', w')) /\
    reconciled_tables jobs (documents_table w) (documents_table w').
Proof.
  induction jobs as [|job jobs IH]; intros c w.
  - exists c, w. split; [reflexivity | apply reconciled_tables_refl].
  - destruct (reconcile_job_tables job c w) as (c1 & w1 & Hrun1 & Ht1).
    destruct (IH c1 w1) as (c2 & w2 & Hrun2 & Ht2).
    exists c2, w2. split.
    + cbn [for_each]. unfold bind. rewrite Hrun1. exact Hrun2.
    + eapply reconciled_tables_cons; eassumption.
Qed.

(** What a run of [check_ingestion_status] does, in one statement. *)
Lemma check_ingestion_status_tables (T : string) (w : World) :
  exists r w',
    KnowledgeBaseManager.check_ingestion_status env T w = (Ok r, w') /\
    only_documents_changed w w' /\
    reconciled_tables (default [] (listed_jobs env T w))
      (documents_table w) (documents_table w') /\
    (forall jobs, listed_jobs env T w = Some jobs ->
       forall job, job ∈ jobs -> job_settled env job (documents_table w')).
Proof.
  pose proof (check_ingestion_status_spec env T w) as Hspec.
  destruct (listed_jobs env T w) as [jobs|].
  - destruct Hspec as (w0 & c & w' & Hframe & Hdocs & Hloop & Hcheck).
    destruct (reconcile_loop_tables jobs 0 w0) as (c1 & w1 & Hloop1 & Ht).
    destruct (reconcile_loop_spec env jobs 0 w0) as (c2 & w2 & Hloop2 & Hrec & Hset).
    rewrite Hloop in Hloop1, Hloop2.
    injection Hloop1 as <- <-. injection Hloop2 as <- <-.
    eexists _, w'. split; [exact Hcheck|]. split.
    + eapply frame_trans; [exact Hframe | apply Hrec].
    + cbn [default from_option id]. rewrite Hdocs in Ht. split; [exact Ht|].
      intros jobs' [= <-]. exact Hset.
  - destruct Hspec as (err & w' & Hcheck & Hdocs & Hframe).
    eexists _, w'. split; [exact Hcheck|]. split; [exact Hframe|].
    split; [apply reconciled_tables_eq, Hdocs|]. intros jobs [=].
Qed.

End ReconcilerRecords.
Section ReconcilerTheorems.

Variable env : Env.

(** X19. Under any fault plan [check_ingestion_status] returns a result
    and changes nothing but the documents table; in that table no record
    is added or removed, and a record can differ from what it was only in
    [sync_status], [message] and [last_modified]. *)
Theorem reconciler_changes_status_fields_only (T : string) (w : World) :
  exists r w',
    KnowledgeBaseManager.check_ingestion_status env T w = (Ok r, w') /\
    only_documents_changed w w' /\
    same_core_tables (documents_table w) (documents_table w').
Proof.
  destruct (check_ingestion_status_tables env T w) as (r & w' & Hrun & Hframe & Ht & _).
  exists r, w'. split; [exact Hrun|]. split; [exact Hframe|].
  eapply reconciled_tables_same_core, Ht.
Qed.

(** X20. A document that no listed job summary matches is left as it is
    by [check_ingestion_status]: a summary matches when it is COMPLETE and
    the document references the job and is 'processing' or 'syncing', or
    when it is FAILED and the document references the job and is
    'processing'. So a 'syncing' document whose job has failed stays
    'syncing', and so does every document when the list cannot be had. *)
Theorem reconciler_leaves_unmatched_documents
    (T k : string) (w : World) (d : DocItem) :
  documents_table w !! k = Some d ->
  (forall job, job ∈ default [] (listed_jobs env T w) -> job_matches job d = false) ->
  documents_table (snd (KnowledgeBaseManager.check_ingestion_status env T w)) !! k = Some d.
Proof.
  intros Hd Hno.
  destruct (check_ingestion_status_tables env T w) as (r & w' & Hrun & _ & Ht & _).
  rewrite Hrun. cbn [snd]. specialize (Ht k). rewrite Hd in Ht.
  destruct (documents_table w' !! k) as [d'|]; [|contradiction].
  destruct Ht as [->|(job & ts & Hin & Hm & _)]; [reflexivity|].
  rewrite (Hno job Hin) in Hm. discriminate.
Qed.

(** A fault-free reconciliation completes the documents of a listed
    COMPLETE job. *)
Lemma complete_job_marks_document
    (T k : string) (w : World) (jobs : list IngestionJob) (job : IngestionJob)
    (d : DocItem) :
  (forall c, fault env c = None) ->
  listed_jobs env T w = Some jobs ->
  job ∈ jobs ->
  job_status job = "COMPLETE" ->
  (forall j, j ∈ jobs -> ingestionJobId j = ingestionJobId job -> job_status j <> "FAILED") ->
  documents_table w !! k = Some d ->
  ingestion_job_id d = Some (ingestionJobId job) ->
  sync_status d = Some "processing" \/ sync_status d = Some "syncing" ->
  exists r w' d',
    KnowledgeBaseManager.check_ingestion_status env T w = (Ok r, w') /\
    documents_table w' !! k = Some d' /\
    sync_status d' = Some "completed" /\
    message d' = Some "Document successfully indexed in Knowledge Base" /\
    same_core d d'.
Proof.
  intros Hnf Hjobs Hin Hc Huniq Hd Hid Hst.
  destruct (check_ingestion_status_tables env T w) as (r & w' & Hrun & _ & Ht & Hset).
  rewrite Hjobs in Ht. cbn [default from_option id] in Ht.
  specialize (Ht k). rewrite Hd in Ht.
  destruct (documents_table w' !! k) as [d'|] eqn:Hd'; [|contradiction].
  exists r, w', d'. split; [exact Hrun|]. split; [exact Hd'|].
  destruct Ht as [->|(j & ts & Hj & Hm & ->)].
  - exfalso.
    destruct (Hset jobs Hjobs job Hin) as [Hstuck _].
    specialize (Hstuck Hc (Hnf _)). unfold stuck in Hstuck.
    assert (Hk : k ∈ scan_keys (ingestionJobId job) ["processing"; "syncing"]
                     (documents_table w')).
    { apply scan_keys_spec. exists d. split; [exact Hd'|].
      unfold scan_filter. rewrite Hid, bool_decide_eq_true_2 by reflexivity.
      destruct Hst as [-> | ->]; reflexivity. }
    destruct (scan_keys (ingestionJobId job) ["processing"; "syncing"] (documents_table w'))
      as [|k0 ks]; [inversion Hk|].
    apply Hstuck, Hnf.
  - pose proof (job_matches_status j d Hm) as (Hjid & _ & Hjst).
    assert (Hjc : job_status j = "COMPLETE").
    { destruct Hjst as [Hjst|Hjst]; [exact Hjst|]. exfalso.
      apply (Huniq j Hj); [congruence | exact Hjst]. }
    unfold job_mark. rewrite Hjc. cbn [String.eqb Ascii.eqb Bool.eqb].
    destruct d. repeat split.
Qed.

(** X21. With no service failing, a document that is 'processing' or
    'syncing' and references a listed job that is COMPLETE is 'completed'
    after [check_ingestion_status], with the message of a successful
    indexing and all its other attributes, provided no summary of the
    list reports the same job as FAILED. *)
Theorem reconciler_completes_documents_of_complete_job
    (T k : string) (w : World) (jobs : list IngestionJob) (job : IngestionJob)
    (d : DocItem) :
  (forall c, fault env c = None) ->
  listed_jobs env T w = Some jobs ->
  job ∈ jobs ->
  job_status job = "COMPLETE" ->
  (forall j, j ∈ jobs -> ingestionJobId j = ingestionJobId job -> job_status j <> "FAILED") ->
  documents_table w !! k = Some d ->
  ingestion_job_id d = Some (ingestionJobId job) ->
  sync_status d = Some "processing" \/ sync_status d = Some "syncing" ->
  exists r w' d',
    KnowledgeBaseManager.check_ingestion_status env T w = (Ok r, w') /\
    documents_table w' !! k = Some d' /\
    sync_status d' = Some "completed" /\
    message d' = Some "Document successfully indexed in Knowledge Base" /\
    same_core d d'.
Proof.
  intros Hnf Hjobs Hin Hc Huniq Hd Hid Hst.
  eapply complete_job_marks_document; eassumption.
Qed.

End ReconcilerTheorems.

Lemma reconciler_leaves_unmatched_documents_witness :
  documents_table
    (snd (KnowledgeBaseManager.check_ingestion_status (demo_env no_fault) "u1"
            (world_job "syncing" "FAILED" (Some ["Source file is corrupt"]))))
    !! "d1" = Some (doc_in_job "syncing").
Proof.
  apply (reconciler_leaves_unmatched_documents (demo_env no_fault) "u1" "d1"
           (world_job "syncing" "FAILED" (Some ["Source file is corrupt"]))
           (doc_in_job "syncing")).
  - reflexivity.
  - intros job Hin. vm_compute in Hin.
    apply list_elem_of_singleton in Hin as ->. reflexivity.
Defined.

Lemma reconciler_completes_documents_of_complete_job_witness :
  exists r w' d',
    KnowledgeBaseManager.check_ingestion_status (demo_env no_fault) "u1" world_mixed_jobs
    = (Ok r, w') /\
    documents_table w' !! "d2" = Some d' /\
    sync_status d' = Some "completed" /\
    message d' = Some "Document successfully indexed in Knowledge Base" /\
    same_core (doc_of_job "syncing" "job-2") d'.
Proof.
  apply (reconciler_completes_documents_of_complete_job (demo_env no_fault) "u1" "d2"
           world_mixed_jobs
           [mkJob "job-3" "kb-0" "ds-1" "FAILED" (Some ["Access denied"]) "";
            mkJob "job-2" "kb-0" "ds-1" "COMPLETE" None ""]
           (mkJob "job-2" "kb-0" "ds-1" "COMPLETE" None "")
           (doc_of_job "syncing" "job-2")); try reflexivity.
  - right. left.
  - intros j Hj Hid. rewrite !elem_of_cons in Hj.
    destruct Hj as [->|[->|Hj]]; [discriminate Hid | discriminate | inversion Hj].
  - right. reflexivity.
Defined.

(** ** The handlers *)

Lemma never_raises_ret {S A} (a : A) : never_raises (ret a : M S A).
Proof. intros s. exists a, s. reflexivity. Qed.

Lemma never_raises_bind {S A B} (m : M S A) (k : A -> M S B) :
  never_raises m -> (forall a, never_raises (k a)) -> never_raises (bind m k).
Proof.
  intros Hm Hk s. destruct (Hm s) as (a & s1 & H1). destruct (Hk a s1) as (b & s2 & H2).
  exists b, s2. unfold bind. rewrite H1. exact H2.
Qed.

Lemma never_raises_try {S A} (m : M S A) (h : Exn -> M S A) :
  (forall e, never_raises (h e)) -> never_raises (try_ m h).
Proof.
  intros Hh s. unfold try_. destruct (m s) as [[a|e] s1]; [eauto|]. apply Hh.
Qed.

Lemma never_raises_lift {L A} (m : M World A) :
  never_raises m -> never_raises (lift m : M (L * World) A).
Proof.
  intros Hm [l w]. destruct (Hm w) as (a & w1 & H1).
  exists a, (l, w1). unfold lift. rewrite H1. reflexivity.
Qed.

Lemma never_raises_with_local {L A} (init : L) (m : M (L * World) A) :
  never_raises m -> never_raises (with_local init m).
Proof.
  intros Hm w. destruct (Hm (init, w)) as (a & [l w1] & H1).
  exists a, w1. unfold with_local. rewrite H1. reflexivity.
Qed.

Section Handlers.

Variable env : Env.

Lemma never_raises_logger_error (msg : string) : never_raises (logger_error msg).
Proof. intros s. eexists _, _. reflexivity. Qed.

Lemma delete_user_kb_never_raises (uid : string) :
  never_raises (KnowledgeBaseManager.delete_user_kb env uid).
Proof.
  apply never_raises_try. intros e.
  apply never_raises_bind; [apply never_raises_logger_error | intros _; apply never_raises_ret].
Qed.

Lemma create_and_process_document_never_raises (event : KbEvent) :
  never_raises (KnowledgeBaseManager.create_and_process_document env event).
Proof.
  apply never_raises_with_local, never_raises_try. intros e.
  apply never_raises_bind; [apply never_raises_lift, never_raises_logger_error | intros _].
  apply never_raises_bind; [|intros _; apply never_raises_ret].
  apply never_raises_try. intros e'. apply never_raises_lift, never_raises_logger_error.
Qed.

Lemma check_ingestion_status_never_raises (uid : string) :
  never_raises (KnowledgeBaseManager.check_ingestion_status env uid).
Proof.
  intros w. destruct (check_ingestion_status_tables env uid w) as (r & w' & Hrun & _).
  eauto.
Qed.

Lemma get_user_kb_from_db_never_raises (uid : string) :
  never_raises (KnowledgeBaseManager._get_user_kb_from_db env uid).
Proof.
  apply never_raises_try. intros e.
  apply never_raises_bind; [apply never_raises_logger_error | intros _; apply never_raises_ret].
Qed.

(** X22. The manager's handler always returns a response, and for the
    operations covered its status code is never 500: it is 400, with
    nothing done, when the request has no user id; otherwise it is 200,
    or 404 for [process_pending] without a tenant record. A failure of
    the operation itself is reported inside the body of a 200 response. *)
Theorem manager_handler_reports_failures_in_the_body (event : KbEvent) (w : World) :
  exists resp w',
    KnowledgeBaseManager.lambda_handler env event w = (Ok resp, w') /\
    (ev_user_id event = "" -> statusCode resp = 400 /\ w' = w) /\
    (ev_user_id event <> "" ->
     statusCode resp = 200 \/
     (statusCode resp = 404 /\ operation event = OpProcessPending)).
Proof.
  unfold KnowledgeBaseManager.lambda_handler. run.
  destruct (String.eqb_spec (ev_user_id event) "") as [Hu|Hu]; run.
  { eexists _, _. split; [reflexivity|]. split; [auto | contradiction]. }
  destruct (operation event) eqn:Hop.
  - destruct (create_and_process_document_never_raises event w) as (r & w1 & Hrun).
    rewrite Hrun. run. eexists _, _. split; [reflexivity|]. split; [contradiction | auto].
  - destruct (get_user_kb_from_db_never_raises (ev_user_id event) w) as (r & w1 & Hrun).
    rewrite Hrun. run. destruct r as [info|]; run.
    + destruct (process_pending_documents_returns env (ev_user_id event) info w1)
        as (w2 & Hrun2).
      rewrite Hrun2. run. eexists _, _. split; [reflexivity|]. split; [contradiction | auto].
    + eexists _, _. split; [reflexivity|]. split; [contradiction | auto].
  - destruct (check_ingestion_status_never_raises (ev_user_id event) w) as (r & w1 & Hrun).
    rewrite Hrun. run. eexists _, _. split; [reflexivity|]. split; [contradiction | auto].
  - destruct (delete_user_kb_never_raises (ev_user_id event) w) as (r & w1 & Hrun).
    rewrite Hrun. run. eexists _, _. split; [reflexivity|]. split; [contradiction | auto].
Qed.

(** The count a reconciliation reports is the growth of the number of
    completed documents; without a count no document changes. *)
Lemma check_ingestion_status_count (T : string) (w : World) :
  exists r w',
    KnowledgeBaseManager.check_ingestion_status env T w = (Ok r, w') /\
    match r with
    | CheckOk n _ =>
        is_Some (listed_jobs env T w) /\
        completed_count (documents_table w') = completed_count (documents_table w) + n
    | CheckError _ =>
        listed_jobs env T w = None /\ documents_table w' = documents_table w
    end.
Proof.
  pose proof (check_ingestion_status_spec env T w) as Hspec.
  destruct (listed_jobs env T w) as [jobs|].
  - destruct Hspec as (w0 & c & w' & Hframe & Hdocs & Hloop & Hcheck).
    destruct (reconcile_loop_spec env jobs 0 w0) as (c' & w2 & Hloop' & Hrec & _).
    rewrite Hloop in Hloop'. injection Hloop' as <- <-.
    destruct Hrec as (_ & _ & Hcount & _).
    rewrite Hdocs, Nat.sub_0_r in Hcount.
    eexists _, w'. split; [exact Hcheck|]. cbv beta iota.
    split; [eauto | exact Hcount].
  - destruct Hspec as (err & w' & Hcheck & Hdocs & _).
    eexists _, w'. split; [exact Hcheck|]. cbv beta iota. auto.
Qed.


(** X24. For an authenticated request, with the function configured and
    the invocation going through, the number the resolver reports as
    [updatedDocuments] is the growth of the number of documents in status
    'completed'; the records keep their keys and core attributes, and
    the resolver reports success exactly when the reconciliation got to
    list the tenant's ingestion jobs. *)
Theorem resolver_reports_newly_completed
    (uid : string) (kb_manager_function : option string) (w : World) :
  uid <> "" ->
  Py.truthy kb_manager_function = true ->
  fault env (LambdaInvoke RequestResponse (reconcile_request uid)) = None ->
  exists r w',
    IngestionStatusResolver.lambda_handler env (Some uid) kb_manager_function w
    = (Ok r, w') /\
    completed_count (documents_table w')
    = completed_count (documents_table w) + rr_updatedDocuments r /\
    same_core_tables (documents_table w) (documents_table w') /\
    (rr_success r = true <-> is_Some (listed_jobs env uid w)).
Proof.
  intros Hu Hf Hinv.
  unfold IngestionStatusResolver.lambda_handler, DocumentProcessor.lambda_invoke,
    KnowledgeBaseManager.lambda_handler.
  rewrite (truthy_Some uid Hu), Hf. unfold reconcile_request in Hinv.
  run. cbn [ev_user_id operation].
  destruct (String.eqb_spec uid "") as [|_]; [contradiction|]. run.
  set (w1 := set_trace _ w).
  destruct (check_ingestion_status_count uid w1) as (r & w' & Hrun & Hr).
  destruct (check_ingestion_status_tables env uid w1) as (r2 & w2 & Hrun2 & _ & Ht & _).
  rewrite Hrun in Hrun2. injection Hrun2 as <- <-.
  apply reconciled_tables_same_core in Ht.
  rewrite Hrun. run.
  eexists _, _. split; [reflexivity|].
  change (listed_jobs env uid w1) with (listed_jobs env uid w) in Hr.
  change (documents_table w1) with (documents_table w) in Hr, Ht.
  destruct r as [err|n txt]; cbn.
  - destruct Hr as [Hnone Hdocs]. rewrite Hnone, Nat.add_0_r.
    split; [rewrite Hdocs; reflexivity|]. split; [exact Ht|].
    split; [discriminate | intros [x Hx]; discriminate].
  - destruct Hr as [Hsome Hcount]. split; [exact Hcount|]. split; [exact Ht|].
    split; auto.
Qed.

End Handlers.

Lemma resolver_reports_newly_completed_witness :
  exists r w',
    IngestionStatusResolver.lambda_handler (demo_env no_fault) (Some "u1")
      (Some "kb-manager") world_mixed_jobs = (Ok r, w') /\
    completed_count (documents_table w')
    = completed_count (documents_table world_mixed_jobs) + rr_updatedDocuments r /\
    same_core_tables (documents_table world_mixed_jobs) (documents_table w') /\
    (rr_success r = true <-> is_Some (listed_jobs (demo_env no_fault) "u1" world_mixed_jobs)).
Proof.
  apply (resolver_reports_newly_completed (demo_env no_fault) "u1" (Some "kb-manager")
           world_mixed_jobs); [discriminate | reflexivity | reflexivity].
Defined.

(** ** Polling the status of a document *)

Section StatusPoll.

Variable env : Env.

(** X25. With no service failing, a status poll for a document the
    caller owns that is 'processing' and references a listed job that is
    COMPLETE answers 'completed', with the message of a successful
    indexing, and the record is 'completed' afterwards: the poll itself
    brings the stored status up to date. *)
Theorem status_poll_completes_document
    (document_id uid : string) (w : World) (jobs : list IngestionJob)
    (job : IngestionJob) (d : DocItem) :
  (forall c, fault env c = None) ->
  uid <> "" ->
  documents_table w !! document_id = Some d ->
  user_id d = Some uid ->
  sync_status d = Some "processing" ->
  ingestion_job_id d = Some (ingestionJobId job) ->
  listed_jobs env uid w = Some jobs ->
  job ∈ jobs ->
  job_status job = "COMPLETE" ->
  (forall j, j ∈ jobs -> ingestionJobId j = ingestionJobId job -> job_status j <> "FAILED") ->
  exists ts w' d',
    DocumentProcessor.get_sync_status env document_id uid w
    = (Ok (SyncOk "completed" "Document successfully indexed in Knowledge Base" ts), w') /\
    documents_table w' !! document_id = Some d' /\
    sync_status d' = Some "completed" /\
    same_core d d'.
Proof.
  intros Hnf Hu Hd Hown Hst Hid Hjobs Hin Hc Huniq.
  unfold DocumentProcessor.get_sync_status, DocumentProcessor.refresh_status,
    DocumentProcessor.lambda_invoke, KnowledgeBaseManager.lambda_handler, doc_get_item.
  repeat first [run_step | rewrite Hnf].
  rewrite bool_decide_eq_true_2 by exact Hown.
  rewrite Hst.
  repeat first [run_step | rewrite Hnf | progress cbn [ev_user_id operation String.eqb Ascii.eqb Bool.eqb]].
  destruct (String.eqb_spec uid "") as [|_]; [contradiction|].
  repeat first [run_step | rewrite Hnf].
  match goal with
  | |- context [KnowledgeBaseManager.check_ingestion_status env uid ?w1] =>
      destruct (complete_job_marks_document env uid document_id w1 jobs job d
                  Hnf Hjobs Hin Hc Huniq Hd Hid (or_introl Hst))
        as (r & w' & d' & Hrun & Hd' & Hst' & Hmsg' & Hcore);
      rewrite Hrun
  end.
  repeat first [run_step | rewrite Hnf].
  rewrite Hst', Hmsg'. run.
  eexists _, _, d'. split; [reflexivity|]. run_world. auto.
Qed.

End StatusPoll.

Lemma status_poll_completes_document_witness :
  exists ts w' d',
    DocumentProcessor.get_sync_status (demo_env no_fault) "d1" "u1" world_mixed_jobs
    = (Ok (SyncOk "completed" "Document successfully indexed in Knowledge Base" ts), w') /\
    documents_table w' !! "d1" = Some d' /\
    sync_status d' = Some "completed" /\
    same_core (doc_of_job "processing" "job-2") d'.
Proof.
  apply (status_poll_completes_document (demo_env no_fault) "d1" "u1" world_mixed_jobs
           [mkJob "job-3" "kb-0" "ds-1" "FAILED" (Some ["Access denied"]) "";
            mkJob "job-2" "kb-0" "ds-1" "COMPLETE" None ""]
           (mkJob "job-2" "kb-0" "ds-1" "COMPLETE" None "")
           (doc_of_job "processing" "job-2")); try reflexivity.
  - discriminate.
  - right. left.
  - intros j Hj Hid. rewrite !elem_of_cons in Hj.
    destruct Hj as [->|[->|Hj]]; [discriminate Hid | discriminate | inversion Hj].
Defined.

(** ** The content type of an upload *)

Lemma lower_app (a b : string) : Py.lower (a ++ b) = Py.lower a ++ Py.lower b.
Proof.
  induction a as [|c a IH]; [reflexivity|].
  change (String c a ++ b)%string with (String c (a ++ b)).
  cbn [Py.lower]. rewrite IH. reflexivity.
Qed.

Lemma lower_ascii_idem (c : ascii) : Py.lower_ascii (Py.lower_ascii c) = Py.lower_ascii c.
Proof. destruct c as [[] [] [] [] [] [] [] []]; reflexivity. Qed.

Lemma lower_idem (s : string) : Py.lower (Py.lower s) = Py.lower s.
Proof.
  induction s as [|c s IH]; cbn [Py.lower];
    [reflexivity | rewrite IH, lower_ascii_idem; reflexivity].
Qed.

Lemma lower_ascii_dot (c : ascii) :
  Ascii.eqb (Py.lower_ascii c) "." = Ascii.eqb c ".".
Proof. destruct c as [[] [] [] [] [] [] [] []]; reflexivity. Qed.

Lemma no_dot_lower (s : string) : no_dot (Py.lower s) = no_dot s.
Proof.
  induction s as [|c s IH]; cbn [Py.lower no_dot];
    [reflexivity | rewrite IH, lower_ascii_dot; reflexivity].
Qed.

Lemma prefix_empty (s : string) : String.prefix "" s = true.
Proof. destruct s; reflexivity. Qed.

Lemma contains_dot_app (a b : string) : Py.contains "." (a ++ "." ++ b) = true.
Proof.
  induction a as [|c a IH].
  - change (("" ++ "." ++ b)%string) with (String "." b).
    cbn [Py.contains]. replace (String.prefix "." (String "." b)) with true; [reflexivity|].
    symmetry. cbn. apply prefix_empty.
  - change ((String c a ++ "." ++ b)%string) with (String c (a ++ "." ++ b)).
    cbn [Py.contains]. rewrite IH. apply orb_true_r.
Qed.

Lemma contains_dot_no_dot (s : string) : no_dot s = true -> Py.contains "." s = false.
Proof.
  induction s as [|c s IH]; cbn [no_dot Py.contains]; intros Hs.
  - reflexivity.
  - apply andb_true_iff in Hs as [Hc Hs]. rewrite (IH Hs), orb_false_r.
    apply negb_true_iff in Hc. cbn [String.prefix].
    destruct (ascii_dec "." c) as [<-|_]; [discriminate Hc | reflexivity].
Qed.

Lemma split_dot_no_dot (s : string) : no_dot s = true -> Py.split "." s = [s].
Proof.
  induction s as [|c s IH]; cbn [no_dot]; intros Hs.
  - reflexivity.
  - apply andb_true_iff in Hs as [Hc Hs]. cbn [Py.split].
    apply negb_true_iff in Hc. rewrite Hc, (IH Hs). reflexivity.
Qed.

Lemma split_dot_app (a b : string) :
  exists p ps, Py.split "." (a ++ "." ++ b) = (p :: ps ++ Py.split "." b)%list.
Proof.
  induction a as [|c a (p & ps & IH)].
  - exists "", []. reflexivity.
  - change ((String c a ++ "." ++ b)%string) with (String c (a ++ "." ++ b)).
    cbn [Py.split]. rewrite IH. destruct (Ascii.eqb c ".").
    + exists "", (p :: ps). reflexivity.
    + exists (String c p), ps. reflexivity.
Qed.

Lemma last_app_cons {A} (l1 : list A) (x : A) (l2 : list A) (d : A) :
  List.last (l1 ++ x :: l2) d = List.last (x :: l2) d.
Proof.
  induction l1 as [|y l1 IH]; [reflexivity|].
  change ((y :: l1) ++ x :: l2)%list with (y :: (l1 ++ x :: l2))%list.
  destruct (l1 ++ x :: l2)%list eqn:E.
  - destruct l1; discriminate.
  - rewrite <- IH. reflexivity.
Qed.

Lemma extension_of_name (stem ext : string) :
  no_dot ext = true ->
  List.last (Py.split "." (Py.lower (stem ++ "." ++ ext))) "" = Py.lower ext.
Proof.
  intros Hext. rewrite !lower_app.
  change (Py.lower ".") with ".".
  destruct (split_dot_app (Py.lower stem) (Py.lower ext)) as (p & ps & ->).
  rewrite split_dot_no_dot by (rewrite no_dot_lower; exact Hext).
  apply (last_app_cons (p :: ps)).
Qed.

(** X26. The content type of an upload is decided by the text after the
    last '.' of the file name alone, whatever its case: a name gets the
    type of its last extension in lower case, and a name without a '.'
    gets the generic type. *)
Theorem content_type_by_last_extension (stem ext : string) :
  no_dot ext = true ->
  DocumentProcessor._get_content_type (stem ++ "." ++ ext)
  = DocumentProcessor._get_content_type ("." ++ Py.lower ext) /\
  DocumentProcessor._get_content_type ext = "application/octet-stream".
Proof.
  intros Hext. split.
  - unfold DocumentProcessor._get_content_type.
    rewrite contains_dot_app, extension_of_name by exact Hext.
    change ("." ++ Py.lower ext)%string with ("" ++ "." ++ Py.lower ext)%string.
    rewrite contains_dot_app.
    rewrite extension_of_name by (rewrite no_dot_lower; exact Hext).
    rewrite lower_idem. reflexivity.
  - unfold DocumentProcessor._get_content_type.
    rewrite contains_dot_no_dot by exact Hext. reflexivity.
Qed.

Lemma content_type_by_last_extension_witness :
  DocumentProcessor._get_content_type ("Report.v2" ++ "." ++ "PDF")
  = DocumentProcessor._get_content_type ("." ++ Py.lower "PDF") /\
  DocumentProcessor._get_content_type "PDF" = "application/octet-stream".
Proof.
  apply (content_type_by_last_extension "Report.v2" "PDF"). reflexivity.
Defined.

(** ** The queued creation *)

Section QueuedCreation.

Variable env : Env.

(** A creation that raises leaves the bucket and the two tables as they
    were: the only writes to them come after the last step that can
    raise. *)
Lemma create_user_kb_raise_storage (uid : string) (w w1 : World) (e : Exn) :
  KnowledgeBaseManager._create_user_kb env uid w = (Raise e, w1) ->
  storage_same w w1.
Proof.
  intros Hrun. unfold KnowledgeBaseManager._create_user_kb in Hrun.
  apply bind_Raise_inv in Hrun as [Hrun | (ts & w0 & H0 & Hrun)]; [discriminate|].
  injection H0 as <- <-.
  apply try_Raise_inv in Hrun as (e0 & s0 & Hbody & Hhandler).
  assert (Hsame : storage_same w s0).
  { match type of Hbody with ?m w = _ =>
      assert (Hf : frames_on_raise storage_same m) end.
    { apply frames_on_raise_bind;
        [exact _ | unfold create_vector_bucket, logger_error; frame_solve | intros _].
      apply frames_on_raise_bind;
        [exact _ | unfold create_index, logger_error; frame_solve | intros _].
      apply frames_on_raise_bind; [exact _ | unfold time_sleep; frame_solve | intros _].
      apply frames_on_raise_bind;
        [exact _ | unfold create_knowledge_base, fresh_id; frame_solve | intros kb_id].
      apply frames_on_raise_bind;
        [exact _ | unfold create_data_source, fresh_id; frame_solve | intros ds_id].
      apply frames_on_raise_bind; [exact _ | unfold utcnow; frame_solve | intros ts].
      apply frames_on_raise_last.
      - intros s. unfold kb_put_item, call, modify.
        destruct (fault env (KbPutItem uid)); [repeat split | exact I].
      - intros _ s.
        match goal with
        | |- context [KnowledgeBaseManager._process_pending_documents env uid ?info] =>
            destruct (process_pending_documents_returns env uid info s) as [s1 Hs1]
        end.
        unfold bind. rewrite Hs1. eauto. }
    specialize (Hf w). rewrite Hbody in Hf. exact Hf. }
  revert Hhandler. unfold delete_vector_bucket. run.
  destruct Hsame as (Hb & Hd & Hk).
  destruct (fault env (DeleteVectorBucket _)); run.
  - intros [= <- <-]. repeat split; assumption.
  - destruct (vector_buckets s0 !! _); run.
    all: intros [= <- <-]; repeat split; assumption.
Qed.

(** X27. When the creation of the index raises inside
    [create_and_process_document], the function does not raise: it
    returns the failure with the text of the exception. But the record
    of the document is not marked: the handler reads the name [boto3],
    which the function binds only after the creation, so the update to
    'failed' is never attempted and the documents table and the bucket
    are as before the call. *)
Theorem failed_creation_leaves_document_unmarked
    (event : KbEvent) (document_id fname key : string) (w w1 : World) (e : Exn) :
  ev_document_id event = Some document_id ->
  ev_filename event = Some fname ->
  ev_temp_s3_key event = Some key ->
  KnowledgeBaseManager._create_user_kb env (ev_user_id event) w = (Raise e, w1) ->
  exists w',
    KnowledgeBaseManager.create_and_process_document env event w
    = (Ok (KnowledgeBaseManager.failed_create (Some document_id) e), w') /\
    trace w' = trace w1 /\
    documents_table w' = documents_table w /\
    bucket w' = bucket w.
Proof.
  intros Hid Hname Hkey Hcreate.
  destruct (create_user_kb_raise_storage _ _ _ _ Hcreate) as (Hb & Hd & _).
  unfold KnowledgeBaseManager.create_and_process_document.
  rewrite Hid, Hname, Hkey. run.
  eexists. split; [reflexivity|]. run_world. auto.
Qed.

(** X28. When the index has been created but the check of the pending
    blob raises an error other than a missing key, the function returns
    the failure with the text of the exception and, if the record of the
    document can be updated, leaves the document 'failed' with that text
    in its message. *)
Theorem failed_move_marks_document_failed
    (event : KbEvent) (document_id fname key : string) (w w1 : World)
    (info : KbItem) (e : Exn) :
  ev_document_id event = Some document_id ->
  ev_filename event = Some fname ->
  ev_temp_s3_key event = Some key ->
  KnowledgeBaseManager._create_user_kb env (ev_user_id event) w = (Ok info, w1) ->
  fault env (S3HeadObject key) = Some e ->
  is_NoSuchKey e = false ->
  fault env (DocUpdateItem document_id) = None ->
  exists w' d,
    KnowledgeBaseManager.create_and_process_document env event w
    = (Ok (KnowledgeBaseManager.failed_create (Some document_id) e), w') /\
    documents_table w' !! document_id = Some d /\
    sync_status d = Some "failed" /\
    message d = Some ("Failed to create Knowledge Base: " ++ str_exn e).
Proof.
  intros Hid Hname Hkey Hcreate Hhead Hno Hupd.
  pose proof (create_user_kb_ok env _ _ _ _ Hcreate)
    as (kb & ds & rec & -> & _).
  unfold KnowledgeBaseManager.create_and_process_document, s3_head_object, doc_update_item.
  rewrite Hid, Hname, Hkey. run.
  do 2 eexists. split; [reflexivity|]. run_world.
  unfold upsert_doc. rewrite lookup_insert_eq.
  split; [reflexivity|].
  destruct (default empty_doc (documents_table w1 !! document_id)). split; reflexivity.
Qed.

End QueuedCreation.

Lemma failed_creation_leaves_document_unmarked_witness :
  exists w',
    KnowledgeBaseManager.create_and_process_document (demo_env kb_create_fails)
      (mkEvent OpCreateAndProcess "u1" (Some "doc-0") (Some "a.pdf")
         (Some "pending/u1/doc-0/a.pdf")) world_first_upload
    = (Ok (KnowledgeBaseManager.failed_create (Some "doc-0")
             (ServiceError "ValidationException" "The role is not authorized.")), w') /\
    trace w'
    = trace (snd (KnowledgeBaseManager._create_user_kb (demo_env kb_create_fails) "u1"
                    world_first_upload)) /\
    documents_table w' = documents_table world_first_upload /\
    bucket w' = bucket world_first_upload.
Proof.
  apply (failed_creation_leaves_document_unmarked (demo_env kb_create_fails)
           (mkEvent OpCreateAndProcess "u1" (Some "doc-0") (Some "a.pdf")
              (Some "pending/u1/doc-0/a.pdf"))
           "doc-0" "a.pdf" "pending/u1/doc-0/a.pdf" world_first_upload
           (snd (KnowledgeBaseManager._create_user_kb (demo_env kb_create_fails) "u1"
                   world_first_upload))
           (ServiceError "ValidationException" "The role is not authorized."));
    [reflexivity | reflexivity | reflexivity | vm_compute; reflexivity].
Defined.

(** In that run the document is still 'creating_knowledge_base'
    afterwards, and the log holds the error of the handler. *)
Example failed_creation_document_still_waiting :
  let run := KnowledgeBaseManager.create_and_process_document (demo_env kb_create_fails)
               (mkEvent OpCreateAndProcess "u1" (Some "doc-0") (Some "a.pdf")
                  (Some "pending/u1/doc-0/a.pdf")) world_first_upload in
  sync_status <$> (documents_table (snd run) !! "doc-0")
  = Some (Some "creating_knowledge_base") /\
  head (error_log (snd run))
  = Some ("Failed to update document status: " ++ str_exn (UnboundLocalError "boto3")).
Proof. cbv zeta. split; vm_compute; reflexivity. Qed.

Lemma failed_move_marks_document_failed_witness :
  exists w' d,
    KnowledgeBaseManager.create_and_process_document (demo_env blob_head_fails)
      (mkEvent OpCreateAndProcess "u1" (Some "doc-0") (Some "a.pdf")
         (Some "pending/u1/doc-0/a.pdf")) world_first_upload
    = (Ok (KnowledgeBaseManager.failed_create (Some "doc-0")
             (ClientError "403" "Forbidden")), w') /\
    documents_table w' !! "doc-0" = Some d /\
    sync_status d = Some "failed" /\
    message d = Some ("Failed to create Knowledge Base: "
                      ++ str_exn (ClientError "403" "Forbidden")).
Proof.
  apply (failed_move_marks_document_failed (demo_env blob_head_fails)
           (mkEvent OpCreateAndProcess "u1" (Some "doc-0") (Some "a.pdf")
              (Some "pending/u1/doc-0/a.pdf"))
           "doc-0" "a.pdf" "pending/u1/doc-0/a.pdf" world_first_upload
           (snd (KnowledgeBaseManager._create_user_kb (demo_env blob_head_fails) "u1"
                   world_first_upload))
           (mkKb (Some "kb-0") (Some "ds-1") (Some "ai-ppt-vectors-hu1-100") None None
                 (Some "hu1") None None None None)
           (ClientError "403" "Forbidden"));
    [reflexivity | reflexivity | reflexivity | vm_compute; reflexivity
    | reflexivity | reflexivity | reflexivity].
Defined.

(** ** What the reported count counts *)

(** When completed documents stay as they are, the growth of the number
    of completed documents is the number of documents moved to
    'completed'. *)
Lemma completed_count_moved (t t' : gmap string DocItem) :
  (forall k d, t !! k = Some d -> terminal d -> t' !! k = Some d) ->
  completed_count t' = completed_count t + size (moved_to "completed" t t').
Proof.
  intros Hterm. unfold completed_count.
  assert (Hdisj : filter is_completed t ##ₘ moved_to "completed" t t').
  { apply map_disjoint_spec. intros i x y Hx Hy.
    apply map_lookup_filter_Some in Hx as [Hx Hc].
    apply map_lookup_filter_Some in Hy as [_ [_ Hn]].
    apply Hn. cbn [fst]. rewrite Hx. cbn. f_equal. exact Hc. }
  rewrite <- (map_size_disj_union _ _ Hdisj). f_equal.
  apply map_eq. intros i. apply option_eq. intros x.
  rewrite (lookup_union_Some _ _ _ _ Hdisj).
  unfold moved_to. rewrite !map_lookup_filter_Some. unfold is_completed. cbn [fst snd].
  split.
  - intros [Hx Hc].
    destruct (decide (sync_status <$> t !! i = Some (Some "completed"))) as [Hwas|Hwas].
    + left. destruct (t !! i) as [d|] eqn:Hd; [|discriminate].
      injection Hwas as Hwas.
      pose proof (Hterm i d Hd (or_introl Hwas)) as Hkept.
      rewrite Hx in Hkept. injection Hkept as ->. auto.
    + right. auto.
  - intros [[Hx Hc] | [Hx [Hc _]]]; [|auto].
    split; [|exact Hc]. apply (Hterm i x Hx). left. exact Hc.
Qed.

Lemma reconciled_tables_terminal (jobs : list IngestionJob) (t t' : gmap string DocItem)
    (k : string) (d : DocItem) :
  reconciled_tables jobs t t' -> t !! k = Some d -> terminal d -> t' !! k = Some d.
Proof.
  intros Ht Hd Hterm. specialize (Ht k). rewrite Hd in Ht.
  destruct (t' !! k) as [d'|]; [|contradiction].
  destruct Ht as [->|(job & ts & _ & Hm & _)]; [reflexivity|].
  apply job_matches_status in Hm as (_ & Hst & _).
  destruct Hterm as [H|H]; rewrite H in Hst; destruct Hst as [Hst|Hst]; discriminate.
Qed.

(** C9. When [check_ingestion_status] reports [updated_documents = n]:
    [n] is the number of documents the call moved to 'completed', which
    is also the growth of the number of completed documents, and no
    document that was 'completed' or 'failed' is touched. Every record
    the call changed was marked on behalf of a listed job that matched
    it, 'completed' for a COMPLETE job and 'failed' for a FAILED one. A
    'processing' document of a listed FAILED job, when the scan for that
    job and the updates do not fail, is updated: it is 'failed'
    afterwards, with the fixed message, and it is not among the documents
    counted. The count and the frame hold whatever fails on the way. *)
Theorem C9_updated_count_counts_completed_only
    (env : Env) (T : string) (w w' : World) (n : nat) (txt : string) :
  KnowledgeBaseManager.check_ingestion_status env T w = (Ok (CheckOk n txt), w') ->
  let t := documents_table w in
  let t' := documents_table w' in
  n = size (moved_to "completed" t t') /\
  completed_count t' = completed_count t + n /\
  (forall k d, t !! k = Some d -> terminal d -> t' !! k = Some d) /\
  exists jobs,
    listed_jobs env T w = Some jobs /\
    reconciled_tables jobs t t' /\
    forall job k d,
      job ∈ jobs ->
      job_status job = "FAILED" ->
      (forall j, j ∈ jobs -> ingestionJobId j = ingestionJobId job ->
                 job_status j <> "COMPLETE") ->
      t !! k = Some d ->
      ingestion_job_id d = Some (ingestionJobId job) ->
      sync_status d = Some "processing" ->
      fault env (DocScan (ingestionJobId job) ["processing"]) = None ->
      (forall k', fault env (DocUpdateItem k') = None) ->
      (exists ts, t' !! k = Some (mark ts "failed" "Knowledge Base ingestion failed" d)) /\
      moved_to "failed" t t' !! k = t' !! k /\
      moved_to "completed" t t' !! k = None.
Proof.
  intros Hrun t t'.
  destruct (check_ingestion_status_tables env T w) as (r & w2 & Hrun2 & _ & Ht & Hset).
  rewrite Hrun in Hrun2. injection Hrun2 as <- <-.
  destruct (check_ingestion_status_count env T w) as (r & w2 & Hrun2 & Hcount).
  rewrite Hrun in Hrun2. injection Hrun2 as <- <-.
  destruct Hcount as [[jobs Hjobs] Hcount].
  rewrite Hjobs in Ht. cbn [default from_option id] in Ht. fold t t' in Ht, Hcount.
  assert (Hterm : forall k d, t !! k = Some d -> terminal d -> t' !! k = Some d).
  { intros k d. apply (reconciled_tables_terminal jobs). exact Ht. }
  split; [|split; [exact Hcount | split; [exact Hterm|]]].
  { pose proof (completed_count_moved t t' Hterm) as Hm. lia. }
  exists jobs. split; [exact Hjobs|]. split; [exact Ht|].
  intros job k d Hin Hfailed Huniq Hd Hid Hst Hscan Hupd.
  assert (Hmark : exists ts,
            t' !! k = Some (mark ts "failed" "Knowledge Base ingestion failed" d)).
  { pose proof (Ht k) as Hk. rewrite Hd in Hk.
    destruct (t' !! k) as [d'|] eqn:Hd'; [|contradiction].
    destruct Hk as [->|(j & ts & Hj & Hm & ->)].
    - exfalso.
      destruct (Hset jobs Hjobs job Hin) as [_ Hstuck].
      specialize (Hstuck Hfailed Hscan). unfold stuck in Hstuck.
      assert (Hk : k ∈ scan_keys (ingestionJobId job) ["processing"] (documents_table w')).
      { apply scan_keys_spec. exists d. split; [exact Hd'|].
        unfold scan_filter. rewrite Hid, Hst, bool_decide_eq_true_2 by reflexivity.
        reflexivity. }
      destruct (scan_keys (ingestionJobId job) ["processing"] (documents_table w'))
        as [|k0 ks]; [inversion Hk|].
      apply Hstuck, Hupd.
    - pose proof (job_matches_status j d Hm) as (Hjid & _ & Hjst).
      assert (Hjf : String.eqb (job_status j) "COMPLETE" = false).
      { apply String.eqb_neq. apply (Huniq j Hj). congruence. }
      exists ts. unfold job_mark. rewrite Hjf. reflexivity. }
  split; [exact Hmark|].
  destruct Hmark as [ts Hk]. unfold moved_to. split.
  - rewrite Hk. apply map_lookup_filter_Some. split; [exact Hk|]. cbn [fst snd].
    split; [destruct d; reflexivity|]. rewrite Hd. cbn. rewrite Hst. discriminate.
  - apply map_lookup_filter_None. right. intros x Hx [Hc _]. cbn [snd] in Hc.
    rewrite Hk in Hx. injection Hx as <-. destruct d; discriminate.
Qed.

Lemma C9_witness :
  let env := demo_env no_fault in
  let w := world_mixed_jobs in
  let w' := snd (KnowledgeBaseManager.check_ingestion_status env "u1" w) in
  let t := documents_table w in
  let t' := documents_table w' in
  2 = size (moved_to "completed" t t') /\
  completed_count t' = completed_count t + 2 /\
  (forall k d, t !! k = Some d -> terminal d -> t' !! k = Some d) /\
  exists jobs,
    listed_jobs env "u1" w = Some jobs /\
    reconciled_tables jobs t t' /\
    forall job k d,
      job ∈ jobs ->
      job_status job = "FAILED" ->
      (forall j, j ∈ jobs -> ingestionJobId j = ingestionJobId job ->
                 job_status j <> "COMPLETE") ->
      t !! k = Some d ->
      ingestion_job_id d = Some (ingestionJobId job) ->
      sync_status d = Some "processing" ->
      fault env (DocScan (ingestionJobId job) ["processing"]) = None ->
      (forall k', fault env (DocUpdateItem k') = None) ->
      (exists ts, t' !! k = Some (mark ts "failed" "Knowledge Base ingestion failed" d)) /\
      moved_to "failed" t t' !! k = t' !! k /\
      moved_to "completed" t t' !! k = None.
Proof.
  apply (C9_updated_count_counts_completed_only (demo_env no_fault) "u1"
           world_mixed_jobs
           (snd (KnowledgeBaseManager.check_ingestion_status (demo_env no_fault) "u1"
                   world_mixed_jobs))
           2 "Updated 2 document statuses").
  vm_compute. reflexivity.
Defined.

(** In the world of that run the document [d3], 'processing' in the
    failed job [job-3], is the one the FAILED branch updates: it is
    'failed' afterwards and outside the count of 2. *)
Example failed_document_updated_not_counted :
  let env := demo_env no_fault in
  let w := world_mixed_jobs in
  let w' := snd (KnowledgeBaseManager.check_ingestion_status env "u1" w) in
  fst (KnowledgeBaseManager.check_ingestion_status env "u1" w)
    = Ok (CheckOk 2 "Updated 2 document statuses") /\
  sync_status <$> (documents_table w' !! "d3") = Some (Some "failed") /\
  message <$> (documents_table w' !! "d3") = Some (Some "Knowledge Base ingestion failed") /\
  dom (moved_to "completed" (documents_table w) (documents_table w'))
  = {[ "d1"; "d2" ]} /\
  dom (moved_to "failed" (documents_table w) (documents_table w')) = {[ "d3" ]}.
Proof. cbv zeta. repeat split; vm_compute; reflexivity. Qed.
